(** * Request classification and sequential reasoning of vibe-coder-mcp

    A shallow embedding of

    - [src/tools/sequential-thinking.ts]: [processWithSequentialThinking]
      and [getNextThought], the multi-round dialogue with the completion
      model;
    - the hybrid matcher ([hybridMatch], [performSequentialThinking]): the
      rule / intent / sequential-thinking cascade.

    JavaScript numbers are binary64 floats, modelled by the kernel's
    primitive floats; strings are modelled by [string], read as sequences of
    code units below 256; objects used as dictionaries are [gmap]s.  The
    asynchronous code is sequential (every promise is awaited at once), so a
    computation is a function from the trace of calls made so far to an
    outcome and the extended trace. *)

From Stdlib Require Import Floats ZArith Ascii String List Lia.
From stdpp Require Import base option list gmap strings.

Set Warnings "-inexact-float,-register-all".
Local Open Scope string_scope.
Local Open Scope list_scope.

(* ===================================================================== *)
(** ** JavaScript string primitives *)
(* ===================================================================== *)

Module Js.

Definition nl : string := String "010"%char EmptyString.
Definition dquote : string := String "034"%char EmptyString.

(** Truthiness of a string: every string but the empty one. *)
Definition truthy (s : string) : bool :=
  match s with EmptyString => false | String _ _ => true end.

(** [String.prototype.toLowerCase] on code units below 256: the letters
    A-Z, and the Latin-1 capitals U+00C0-U+00DE without the multiplication
    sign U+00D7, move up by 32.  Beyond these code units the conversion of
    the language can lengthen a string (U+0130 gives two code units), so the
    length of a lowered string is nowhere taken to be that of the string. *)
Definition lower_char (c : ascii) : ascii :=
  let n := nat_of_ascii c in
  if ((65 <=? n) && (n <=? 90))%nat then ascii_of_nat (n + 32)
  else if ((192 <=? n) && (n <=? 222) && negb (n =? 215))%nat
       then ascii_of_nat (n + 32)
  else c.

Fixpoint toLowerCase (s : string) : string :=
  match s with
  | EmptyString => EmptyString
  | String c r => String (lower_char c) (toLowerCase r)
  end.

(** White space and line terminators below 256: TAB, LF, VT, FF, CR,
    SPACE and NBSP. *)
Definition is_space (c : ascii) : bool :=
  let n := nat_of_ascii c in
  ((9 <=? n) && (n <=? 13) || (n =? 32) || (n =? 160))%nat.

(** The line terminators, which the dot of a regular expression does not
    match: LF and CR. *)
Definition is_line_terminator (c : ascii) : bool :=
  let n := nat_of_ascii c in ((n =? 10) || (n =? 13))%nat.

Fixpoint trimStart (s : string) : string :=
  match s with
  | EmptyString => EmptyString
  | String c r => if is_space c then trimStart r else s
  end.

Fixpoint trimEnd (s : string) : string :=
  match s with
  | EmptyString => EmptyString
  | String c r =>
      match trimEnd r with
      | EmptyString => if is_space c then EmptyString else String c EmptyString
      | r' => String c r'
      end
  end.

(** [String.prototype.trim]. *)
Definition trim (s : string) : string := trimEnd (trimStart s).

(** [s.split("\n")[0]]: the text before the first line feed. *)
Fixpoint first_line (s : string) : string :=
  match s with
  | EmptyString => EmptyString
  | String c r =>
      if (nat_of_ascii c =? 10)%nat then EmptyString
      else String c (first_line r)
  end.

Fixpoint starts_with (p s : string) : bool :=
  match p, s with
  | EmptyString, _ => true
  | String a p', String b s' => if Ascii.eqb a b then starts_with p' s' else false
  | String _ _, EmptyString => false
  end.

(** What follows the prefix [p] in [s], when [s] starts with [p]. *)
Fixpoint strip_prefix (p s : string) : option string :=
  match p, s with
  | EmptyString, _ => Some s
  | String a p', String b s' => if Ascii.eqb a b then strip_prefix p' s' else None
  | String _ _, EmptyString => None
  end.

(** The match of the regular expression [/^.*?: /] at the start of [s]:
    the lazy star takes as few characters as it can, none of them a line
    terminator, before a colon and a space.  The result is what follows
    the match. *)
Fixpoint after_label (s : string) : option string :=
  match strip_prefix ": " s with
  | Some rest => Some rest
  | None =>
      match s with
      | EmptyString => None
      | String c r => if is_line_terminator c then None else after_label r
      end
  end.

(** [s.replace(/^.*?: /, "")]. *)
Definition strip_label (s : string) : string :=
  match after_label s with Some r => r | None => s end.

(** [s.includes(p)]. *)
Fixpoint includes (s p : string) : bool :=
  starts_with p s ||
  match s with
  | EmptyString => false
  | String _ r => includes r p
  end.

(** [parts.join(sep)]. *)
Fixpoint join (sep : string) (parts : list string) : string :=
  match parts with
  | [] => EmptyString
  | [x] => x
  | x :: rest => x +:+ sep +:+ join sep rest
  end.

(** The comparisons [a >= b] and [a < b] on numbers; both are false when
    an operand is NaN. *)
Definition ge (a b : float) : bool := PrimFloat.leb b a.
Definition lt (a b : float) : bool := PrimFloat.ltb a b.

End Js.

(* ===================================================================== *)
(** ** JSON values, errors and HTTP outcomes *)
(* ===================================================================== *)

Inductive json : Type :=
| JNull
| JBool (b : bool)
| JNumber (n : float)
| JString (s : string)
| JArray (items : list json)
| JObject (fields : list (string * json)).

(** Property access on a parsed object: the first binding of the key. *)
Fixpoint get_field (key : string) (fields : list (string * json)) : option json :=
  match fields with
  | [] => None
  | (k, v) :: rest => if String.eqb k key then Some v else get_field key rest
  end.

(** JavaScript truthiness of a JSON value. *)
Definition json_truthy (v : json) : bool :=
  match v with
  | JNull => false
  | JBool b => b
  | JNumber n => negb (PrimFloat.eqb n 0%float || PrimFloat.is_nan n)
  | JString s => Js.truthy s
  | JArray _ | JObject _ => true
  end.

(** The response an [AxiosError] carries when the server answered. *)
Record AxiosResponse := {
  status : float;
  data : json
}.

(** Values thrown: an [AxiosError] ([axios.isAxiosError] holds; it has a
    response unless the request never got one), or any other error object
    with its name and message. *)
Inductive JsError :=
| AxiosError (response : option AxiosResponse)
| Error (name message : string).

(** [String(error)] for an error object ([Error.prototype.toString]). *)
Definition String_of_error (name message : string) : string :=
  if negb (Js.truthy name) then message
  else if negb (Js.truthy message) then name
  else name +:+ ": " +:+ message.

(** One element of [response.data.choices]: [message.content] converted to
    a string, or nothing when the element has no [message] to read. *)
Record Choice := {
  message_content : option string
}.

(** The body of a successful answer of the completion endpoint. *)
Record CompletionData := {
  choices : option (list Choice)
}.

Inductive HttpOutcome :=
| Resolved (body : CompletionData)
| Rejected (error : JsError).

Record OpenRouterConfig := {
  baseUrl : string;
  apiKey : string;
  geminiModel : string
}.

(** The request [axios.post] sends: the address, the body and the
    headers. *)
Record LLMRequest := {
  url : string;
  model : string;
  system_content : string;
  user_content : string;
  response_format : string;
  max_tokens : Z;
  temperature : float;
  content_type : string;
  authorization : string;
  http_referer : string
}.

(** ** Sequential thoughts *)

(** The four required fields of [SequentialThought]; the optional ones are
    never read. *)
Record SequentialThought := {
  thought : string;
  next_thought_needed : bool;
  thought_number : float;
  total_thoughts : float
}.

(* ===================================================================== *)
(** ** Match results *)
(* ===================================================================== *)

Record MatchResult := {
  toolName : string;
  confidence : float;
  matchedPattern : option string
}.

Inductive MatchMethod := rule | intent | sequential.

(** [EnhancedMatchResult extends MatchResult]: the three fields it inherits
    carry the prefix [em_] here. *)
Record EnhancedMatchResult := {
  em_toolName : string;
  em_confidence : float;
  em_matchedPattern : option string;
  parameters : gmap string string;
  matchMethod : MatchMethod;
  requiresConfirmation : bool
}.

(* ===================================================================== *)
(** ** Computations: traces, exceptions and fuel *)
(* ===================================================================== *)

(** Calls that leave the module, in the order they are made. *)
Inductive Event :=
| Ev_matchRequest (request : string)
| Ev_extractParameters (request pattern : string)
| Ev_detectIntent (request : string)
| Ev_extractContextParameters (request : string)
| Ev_post (req : LLMRequest).

Definition Trace := list Event.

Definition is_post (e : Event) : bool :=
  match e with Ev_post _ => true | _ => false end.

(** Number of model calls in a trace. *)
Definition count_posts (t : Trace) : nat := length (List.filter is_post t).

Inductive Outcome (A : Type) :=
| Return (a : A)
| Throw (e : JsError)
| OutOfFuel.
Arguments Return {A} a.
Arguments Throw {A} e.
Arguments OutOfFuel {A}.

Definition M (A : Type) : Type := Trace -> Outcome A * Trace.

(** A step that makes no call. *)
Definition lift {A} (o : Outcome A) : M A := fun t => (o, t).
Definition ret {A} (a : A) : M A := lift (Return a).
Definition throw {A} (e : JsError) : M A := lift (Throw e).
Definition out_of_fuel {A} : M A := lift OutOfFuel.

Definition bind {A B} (m : M A) (k : A -> M B) : M B :=
  fun t =>
    match m t with
    | (Return a, t') => k a t'
    | (Throw e, t') => (Throw e, t')
    | (OutOfFuel, t') => (OutOfFuel, t')
    end.

(** [try { body } catch (error) { handler }]. *)
Definition try_catch {A} (body : M A) (handler : JsError -> M A) : M A :=
  fun t =>
    match body t with
    | (Throw e, t') => handler e t'
    | r => r
    end.

(** A call to a pure collaborator, recorded in the trace. *)
Definition call {A} (ev : Event) (result : A) : M A :=
  fun t => (Return result, t ++ [ev]).

Declare Scope js_scope.
Delimit Scope js_scope with js.
Notation "x <- m ;; k" := (bind m (fun x => k))
  (at level 100, m at next level, right associativity) : js_scope.
Local Open Scope js_scope.

(* ===================================================================== *)
(** ** What the code takes from outside *)
(* ===================================================================== *)

(** The language runtime and the network.  [axios_post n req] is what the
    [n]-th call of [axios.post] (counting from 0) gives for the request
    [req]: the promise resolves with a body, or rejects.  With its default
    settings axios rejects with an [AxiosError] that has a response for a
    status outside 2xx, and with one without a response when the network
    fails.  [JSON_parse] gives nothing where [JSON.parse] throws a
    [SyntaxError]; [Number_toString] is the conversion a template literal
    applies to a number. *)
Class Runtime := {
  axios_post : nat -> LLMRequest -> HttpOutcome;
  JSON_parse : string -> option json;
  JSON_stringify : json -> string;
  Number_toString : float -> string
}.

(** The matching service and the intent service, which the hybrid matcher
    imports: their code is not part of the sources, and their calls are
    taken to return, as pure functions of the request.  An error thrown by
    one of them is outside [hybridMatch] as it is written here; the request
    processor and the server tool are therefore also stated for a call of
    the matcher that is any computation ([process_match],
    [process_request_with]). *)
Class Services := {
  matchRequest : string -> option MatchResult;
  extractParameters : string -> string -> gmap string string;
  detectIntent : string -> option MatchResult;
  extractContextParameters : string -> gmap string string
}.

(* ===================================================================== *)
(** ** src/tools/sequential-thinking.ts *)
(* ===================================================================== *)

Definition SEQUENTIAL_THINKING_SYSTEM_PROMPT : string :=
  Js.join Js.nl [
    EmptyString;
    "You are a dynamic and reflective problem-solver that analyzes problems through a flexible thinking process that can adapt and evolve.";
    "Each thought can build on, question, or revise previous insights as understanding deepens.";
    EmptyString;
    "Follow these guidelines:";
    "1. Start with an initial estimate of needed thoughts, but be ready to adjust";
    "2. Feel free to question or revise previous thoughts";
    "3. Don't hesitate to add more thoughts if needed, even at the " +:+ Js.dquote +:+ "end" +:+ Js.dquote;
    "4. Express uncertainty when present";
    "5. Mark thoughts that revise previous thinking or branch into new paths";
    "6. Ignore information that is irrelevant to the current step";
    "7. Generate a solution hypothesis when appropriate";
    "8. Verify the hypothesis based on the Chain of Thought steps";
    "9. Repeat the process until satisfied with the solution";
    "10. Provide a single, correct answer as the final output";
    "11. Only set next_thought_needed to false when truly done and a satisfactory answer is reached";
    EmptyString;
    "Your response should be a JSON object with these fields:";
    "- thought: Your current thinking step";
    "- next_thought_needed: True if you need more thinking, even if at what seemed like the end";
    "- thought_number: Current number in sequence (can go beyond initial total if needed)";
    "- total_thoughts: Current estimate of thoughts needed (can be adjusted up/down)";
    "- is_revision: A boolean indicating if this thought revises previous thinking";
    "- revises_thought: If is_revision is true, which thought number is being reconsidered";
    "- branch_from_thought: If branching, which thought number is the branching point";
    "- branch_id: Identifier for the current branch (if any)";
    "- needs_more_thoughts: If reaching end but realizing more thoughts needed";
    EmptyString
  ].

(** The thought [processWithSequentialThinking] starts from. *)
Definition initial_thought : SequentialThought :=
  {| thought := EmptyString;
     next_thought_needed := true;
     thought_number := 1;
     total_thoughts := 5 |}.

(** The thought [getNextThought] makes up when the answer does not parse. *)
Definition fallback_thought (content : string) : SequentialThought :=
  {| thought := content;
     next_thought_needed := false;
     thought_number := 1;
     total_thoughts := 1 |}.

Definition invalid_format : JsError :=
  Error "Error" "Invalid thought format - missing required fields".

(** Reading the required fields of a parsed value, as the validation in
    [getNextThought] does: reading a property of [null] throws a
    [TypeError]; a value without the four fields at their types is refused. *)
Definition validate_thought (v : json) : Outcome SequentialThought :=
  match v with
  | JNull =>
      Throw (Error "TypeError" "Cannot read properties of null (reading 'thought')")
  | JObject fields =>
      match get_field "thought" fields,
            get_field "next_thought_needed" fields,
            get_field "thought_number" fields,
            get_field "total_thoughts" fields with
      | Some (JString t), Some (JBool b), Some (JNumber n), Some (JNumber k) =>
          Return {| thought := t;
                    next_thought_needed := b;
                    thought_number := n;
                    total_thoughts := k |}
      | _, _, _, _ => Throw invalid_format
      end
  | _ => Throw invalid_format
  end.

Section Engine.
Context `{Runtime}.

(** [await axios.post(...)]: the call is recorded, and numbered by the
    calls made before it. *)
Definition post (req : LLMRequest) : M CompletionData :=
  fun t =>
    match axios_post (count_posts t) req with
    | Resolved body => (Return body, t ++ [Ev_post req])
    | Rejected e => (Throw e, t ++ [Ev_post req])
    end.

(** [JSON.parse(content)]. *)
Definition parse (content : string) : Outcome json :=
  match JSON_parse content with
  | Some v => Return v
  | None => Throw (Error "SyntaxError" "Unexpected token in JSON")
  end.

Definition completion_request (prompt systemPrompt : string)
    (config : OpenRouterConfig) : LLMRequest :=
  {| url := baseUrl config +:+ "/chat/completions";
     model := geminiModel config;
     system_content := systemPrompt;
     user_content := prompt;
     response_format := "json_object";
     max_tokens := 2000;
     temperature := 0.7;
     content_type := "application/json";
     authorization := "Bearer " +:+ apiKey config;
     http_referer := "https://vibe-coder-mcp.local" |}.

(** The message of the error thrown for an [AxiosError]. *)
Definition api_error_message (response : option AxiosResponse) : string :=
  "API error: " +:+
  match response with
  | Some r => Number_toString (status r)
  | None => "undefined"
  end +:+ " - " +:+
  JSON_stringify
    match response with
    | Some r => if json_truthy (data r) then data r else JObject []
    | None => JObject []
    end.

Definition rethrow (error : JsError) : JsError :=
  match error with
  | AxiosError response => Error "Error" (api_error_message response)
  | Error name message =>
      Error "Error" ("Unknown error: " +:+ String_of_error name message)
  end.

Definition getNextThought (prompt systemPrompt : string)
    (config : OpenRouterConfig) : M SequentialThought :=
  try_catch
    (response <- post (completion_request prompt systemPrompt config) ;;
     match choices response with
     | Some (first :: _) =>
         match message_content first with
         | Some content =>
             try_catch
               (thought <- lift (parse content) ;;
                lift (validate_thought thought))
               (fun parseError => ret (fallback_thought content))
         | None =>
             throw (Error "TypeError"
                      "Cannot read properties of undefined (reading 'content')")
         end
     | _ => throw (Error "Error" "No response received from model")
     end)
    (fun error => throw (rethrow error)).

(** The thought [getNextThought] returns for the content of the first
    choice: the parsed one when it is valid, the made-up one otherwise. *)
Definition thought_of_content (content : string) : SequentialThought :=
  match parse content with
  | Return v =>
      match validate_thought v with
      | Return t => t
      | _ => fallback_thought content
      end
  | _ => fallback_thought content
  end.

(** The outcome of [getNextThought] for an outcome of the call. *)
Definition round_of (o : HttpOutcome) : Outcome SequentialThought :=
  match o with
  | Resolved body =>
      match choices body with
      | Some (first :: _) =>
          match message_content first with
          | Some content => Return (thought_of_content content)
          | None =>
              Throw (rethrow (Error "TypeError"
                       "Cannot read properties of undefined (reading 'content')"))
          end
      | _ => Throw (rethrow (Error "Error" "No response received from model"))
      end
  | Rejected e => Throw (rethrow e)
  end.

(** [rounds_from n reqs ts]: the calls numbered [n], [n+1], ... were made
    with the requests [reqs] and gave the thoughts [ts], one each. *)
Inductive rounds_from : nat -> list LLMRequest -> list SequentialThought -> Prop :=
| rounds_done n : rounds_from n [] []
| rounds_next n req reqs t ts :
    round_of (axios_post n req) = Return t ->
    rounds_from (S n) reqs ts ->
    rounds_from n (req :: reqs) (t :: ts).

Definition getThoughtContext (thoughts : list SequentialThought) : string :=
  match thoughts with
  | [] => EmptyString
  | _ =>
      "Previous thoughts:" +:+ Js.nl +:+
      Js.join (Js.nl +:+ Js.nl)
        (map (fun t =>
                "[Thought " +:+ Number_toString (thought_number t) +:+ "/" +:+
                Number_toString (total_thoughts t) +:+ "]: " +:+ thought t)
             thoughts)
  end.

Definition round_prompt (thoughts : list SequentialThought)
    (userPrompt : string) : string :=
  let thoughtContext := getThoughtContext thoughts in
  if Js.truthy thoughtContext
  then thoughtContext +:+ Js.nl +:+ Js.nl +:+ "Task: " +:+ userPrompt +:+
       Js.nl +:+ Js.nl +:+ "Continue with the next thought:"
  else "Task: " +:+ userPrompt +:+ Js.nl +:+ Js.nl +:+
       "Provide your first thought:".

(** The state of the loop: the history and the current thought. *)
Definition LoopState : Type := list SequentialThought * SequentialThought.

(** The [while] loop of [processWithSequentialThinking]; [fuel] bounds the
    number of rounds. *)
Fixpoint thinking_loop (fuel : nat) (userPrompt fullSystemPrompt : string)
    (config : OpenRouterConfig) (thoughts : list SequentialThought)
    (currentThought : SequentialThought) : M LoopState :=
  if next_thought_needed currentThought then
    match fuel with
    | O => out_of_fuel
    | S fuel' =>
        nextThought <-
          getNextThought (round_prompt thoughts userPrompt) fullSystemPrompt config ;;
        thinking_loop fuel' userPrompt fullSystemPrompt config
          (thoughts ++ [nextThought]) nextThought
    end
  else ret (thoughts, currentThought).

Definition full_system_prompt (systemPrompt : option string) : string :=
  match systemPrompt with
  | Some p =>
      if Js.truthy p
      then SEQUENTIAL_THINKING_SYSTEM_PROMPT +:+ Js.nl +:+ Js.nl +:+ p
      else SEQUENTIAL_THINKING_SYSTEM_PROMPT
  | None => SEQUENTIAL_THINKING_SYSTEM_PROMPT
  end.

(** The loop run from the initial state. *)
Definition thinking_session (fuel : nat) (userPrompt : string)
    (config : OpenRouterConfig) (systemPrompt : option string) : M LoopState :=
  thinking_loop fuel userPrompt (full_system_prompt systemPrompt) config
    [] initial_thought.

Definition processWithSequentialThinking (fuel : nat) (userPrompt : string)
    (config : OpenRouterConfig) (systemPrompt : option string) : M string :=
  final <- thinking_session fuel userPrompt config systemPrompt ;;
  ret (thought (snd final)).

(** The requests of the rounds that give the thoughts [new], one after the
    other, when the history is [thoughts] before the first of them: every
    round sends the history as it stands. *)
Fixpoint loop_requests (userPrompt fullSystemPrompt : string)
    (config : OpenRouterConfig) (thoughts new : list SequentialThought)
    : list LLMRequest :=
  match new with
  | [] => []
  | next :: later =>
      completion_request (round_prompt thoughts userPrompt) fullSystemPrompt config ::
      loop_requests userPrompt fullSystemPrompt config (thoughts ++ [next]) later
  end.

End Engine.

(** The parsed value [v] has the four required fields at their types. *)
Definition has_required_fields (v : json) : Prop :=
  exists fields t b n k,
    v = JObject fields /\
    get_field "thought" fields = Some (JString t) /\
    get_field "next_thought_needed" fields = Some (JBool b) /\
    get_field "thought_number" fields = Some (JNumber n) /\
    get_field "total_thoughts" fields = Some (JNumber k).

(** The content is not parseable JSON, or lacks a required field. *)
Definition malformed `{Runtime} (content : string) : Prop :=
  match JSON_parse content with
  | None => True
  | Some v => ~ has_required_fields v
  end.

(** The answer of the endpoint whose first choice has the content
    [content]. *)
Definition answers_with (o : HttpOutcome) (content : string) : Prop :=
  exists rest,
    o = Resolved {| choices := Some ({| message_content := Some content |} :: rest) |}.


(* ===================================================================== *)
(** ** The hybrid matcher *)
(* ===================================================================== *)

Definition HIGH_CONFIDENCE : float := 0.8.
Definition MEDIUM_CONFIDENCE : float := 0.6.
Definition LOW_CONFIDENCE : float := 0.4.

(** The question [hybridMatch] hands to [performSequentialThinking]. *)
Definition TOOL_QUESTION : string :=
  "What tool should I use for this request? Options are: research-manager, prd-generator, user-stories-generator, task-list-generator, rules-generator, workflow-manager.".

(** The tools that question names. *)
Definition offered_tools : list string :=
  ["research-manager"; "prd-generator"; "user-stories-generator";
   "task-list-generator"; "rules-generator"; "workflow-manager"].

(** [result && result.confidence >= threshold]. *)
Definition accepted (threshold : float) (result : option MatchResult)
    : option MatchResult :=
  match result with
  | Some m => if Js.ge (confidence m) threshold then Some m else None
  | None => None
  end.

(** The result is missing, or its confidence is below the threshold. *)
Definition declines (threshold : float) (result : option MatchResult) : Prop :=
  result = None \/
  exists m, result = Some m /\ Js.lt (confidence m) threshold = true.

(** [pattern && pattern !== "description_match"]. *)
Definition is_literal_pattern (pattern : option string) : option string :=
  match pattern with
  | Some p =>
      if Js.truthy p && negb (String.eqb p "description_match")
      then Some p else None
  | None => None
  end.

(** The tool name read off the answer of the reasoning engine:
    [toLowerCase().trim().split("\n")[0].replace(/^.*?: /, "")]. *)
Definition candidate_tool_name (sequentialResult : string) : string :=
  Js.strip_label (Js.first_line (Js.trim (Js.toLowerCase sequentialResult))).

(** [toolName && (toolName.includes("generator") ||
    toolName.includes("manager"))]. *)
Definition looks_like_tool (toolName : string) : bool :=
  Js.truthy toolName &&
  (Js.includes toolName "generator" || Js.includes toolName "manager").

(** The match returned when no stage accepts. *)
Definition default_match (request : string) : EnhancedMatchResult :=
  {| em_toolName := "research-manager";
     em_confidence := 0.2;
     em_matchedPattern := Some "fallback";
     parameters := {[ "query" := request ]};
     matchMethod := sequential;
     requiresConfirmation := true |}.

(** *** The label prefix in the words of the specification

    The text up to the first colon-and-space is removed, wherever it is. *)

Fixpoint after_first_colon_space (s : string) : option string :=
  match Js.strip_prefix ": " s with
  | Some rest => Some rest
  | None =>
      match s with
      | EmptyString => None
      | String _ r => after_first_colon_space r
      end
  end.

Definition spec_strip_label (s : string) : string :=
  match after_first_colon_space s with Some r => r | None => s end.

Definition spec_candidate_tool_name (sequentialResult : string) : string :=
  spec_strip_label (Js.first_line (Js.trim (Js.toLowerCase sequentialResult))).

(** A line terminator stands before the first colon-and-space of [s]. *)
Fixpoint terminator_before_label (s : string) : bool :=
  match Js.strip_prefix ": " s with
  | Some _ => false
  | None =>
      match s with
      | EmptyString => false
      | String c r => Js.is_line_terminator c || terminator_before_label r
      end
  end.

Section HybridMatcher.
Context `{Runtime} `{Services}.

Definition performSequentialThinking (fuel : nat)
    (request systemPrompt : string) (config : OpenRouterConfig) : M string :=
  let prompt :=
    "Given this user request: " +:+ Js.dquote +:+ request +:+ Js.dquote +:+
    Js.nl +:+ "  " +:+ Js.nl +:+ systemPrompt +:+ Js.nl +:+ Js.nl +:+
    "Analyze the request and determine which tool is most appropriate. Reply with just the name of the most appropriate tool." in
  processWithSequentialThinking fuel prompt config None.

(** Step 1, once the rule match [m] is accepted. *)
Definition rule_stage (request : string) (m : MatchResult)
    : M EnhancedMatchResult :=
  parameters <-
    match is_literal_pattern (matchedPattern m) with
    | Some p => call (Ev_extractParameters request p) (extractParameters request p)
    | None => ret ∅
    end ;;
  ret {| em_toolName := toolName m;
         em_confidence := confidence m;
         em_matchedPattern := matchedPattern m;
         parameters := parameters;
         matchMethod := rule;
         requiresConfirmation := Js.lt (confidence m) HIGH_CONFIDENCE |}.

(** Step 2, once the intent match [i] is accepted. *)
Definition intent_stage (request : string) (i : MatchResult)
    : M EnhancedMatchResult :=
  parameters <-
    call (Ev_extractContextParameters request) (extractContextParameters request) ;;
  ret {| em_toolName := toolName i;
         em_confidence := confidence i;
         em_matchedPattern := matchedPattern i;
         parameters := parameters;
         matchMethod := intent;
         requiresConfirmation := Js.lt (confidence i) HIGH_CONFIDENCE |}.

(** The body of the [try] block of step 3: the match it returns from
    [hybridMatch], or nothing when control leaves the block. *)
Definition sequential_attempt (fuel : nat) (request : string)
    (config : OpenRouterConfig) : M (option EnhancedMatchResult) :=
  sequentialResult <-
    performSequentialThinking fuel request TOOL_QUESTION config ;;
  let toolName := candidate_tool_name sequentialResult in
  if looks_like_tool toolName then
    parameters <-
      call (Ev_extractContextParameters request) (extractContextParameters request) ;;
    ret (Some {| em_toolName := toolName;
                 em_confidence := 0.5;
                 em_matchedPattern := Some "sequential_thinking";
                 parameters := parameters;
                 matchMethod := sequential;
                 requiresConfirmation := true |})
  else ret None.

(** Step 3 and the default match: [try { ... } catch (error) { ... }]
    followed by the final [return]. *)
Definition sequential_stage (fuel : nat) (request : string)
    (config : OpenRouterConfig) : M EnhancedMatchResult :=
  returned <-
    try_catch (sequential_attempt fuel request config)
              (fun error => ret None) ;;
  match returned with
  | Some result => ret result
  | None => ret (default_match request)
  end.

Definition hybridMatch (fuel : nat) (request : string)
    (config : OpenRouterConfig) : M EnhancedMatchResult :=
  matchResult <- call (Ev_matchRequest request) (matchRequest request) ;;
  match accepted MEDIUM_CONFIDENCE matchResult with
  | Some m => rule_stage request m
  | None =>
      intentResult <- call (Ev_detectIntent request) (detectIntent request) ;;
      match accepted LOW_CONFIDENCE intentResult with
      | Some i => intent_stage request i
      | None => sequential_stage fuel request config
      end
  end.

End HybridMatcher.



(* ===================================================================== *)
(** ** Sample runtimes and services *)
(* ===================================================================== *)

Module Samples.

Definition config : OpenRouterConfig :=
  {| baseUrl := "https://openrouter.ai/api/v1";
     apiKey := "sk-test";
     geminiModel := "google/gemini-2.0-flash-001" |}.

Definition quoted (s : string) : string := Js.dquote +:+ s +:+ Js.dquote.

(** The JSON text of a thought, as a model would send it. *)
Definition thought_text (text more number total : string) : string :=
  "{" +:+ quoted "thought" +:+ ":" +:+ quoted text +:+ "," +:+
  quoted "next_thought_needed" +:+ ":" +:+ more +:+ "," +:+
  quoted "thought_number" +:+ ":" +:+ number +:+ "," +:+
  quoted "total_thoughts" +:+ ":" +:+ total +:+ "}".

Definition thought_value (text : string) (more : bool) (number total : float)
    : json :=
  JObject [("thought", JString text); ("next_thought_needed", JBool more);
           ("thought_number", JNumber number); ("total_thoughts", JNumber total)].

(** The texts the samples parse, with their values. *)
Definition parsed_texts : list (string * json) :=
  [(thought_text "asset-manager" "false" "1" "1",
    thought_value "asset-manager" false 1 1);
   (thought_text "task-list-generator" "false" "1" "1",
    thought_value "task-list-generator" false 1 1);
   (thought_text "let me think" "true" "1" "1",
    thought_value "let me think" true 1 1);
   (thought_text "let me think" "true" "2" "1",
    thought_value "let me think" true 2 1);
   (thought_text "Tool: PRD-Generator" "false" "2" "3",
    thought_value "Tool: PRD-Generator" false 2 3);
   (quoted "just a string", JString "just a string");
   ("null", JNull);
   ("{}", JObject [])].

(** [JSON.parse] on those texts; any other text counts as a syntax
    error. *)
Definition parse_text (s : string) : option json :=
  snd <$> List.find (fun kv => String.eqb (fst kv) s) parsed_texts.

Definition stringify (v : json) : string :=
  match v with
  | JNull => "null"
  | JBool true => "true"
  | JBool false => "false"
  | JString s => quoted s
  | JObject [] => "{}"
  | JObject [(k, JString s)] => "{" +:+ quoted k +:+ ":" +:+ quoted s +:+ "}"
  | _ => "[...]"
  end.

Definition show_number (n : float) : string :=
  if PrimFloat.eqb n 1 then "1"
  else if PrimFloat.eqb n 2 then "2"
  else if PrimFloat.eqb n 3 then "3"
  else if PrimFloat.eqb n 5 then "5"
  else if PrimFloat.eqb n 500 then "500"
  else "NaN".

(** The answer of the endpoint whose first choice has the given content. *)
Definition answer (content : string) : HttpOutcome :=
  Resolved {| choices := Some [ {| message_content := Some content |} ] |}.

Definition network_failure : HttpOutcome := Rejected (AxiosError None).

Definition server_error : HttpOutcome :=
  Rejected (AxiosError (Some {| status := 500;
                                data := JObject [("error", JString "overloaded")] |})).

(** A runtime whose endpoint gives the scripted answers in order, and
    fails once the script is over. *)
Definition scripted (script : list HttpOutcome) : Runtime :=
  {| axios_post := fun n _ => nth n script network_failure;
     JSON_parse := parse_text;
     JSON_stringify := stringify;
     Number_toString := show_number |}.

(** A runtime whose model always asks for one more thought. *)
Definition never_done : Runtime :=
  {| axios_post := fun _ _ => answer (thought_text "let me think" "true" "1" "1");
     JSON_parse := parse_text;
     JSON_stringify := stringify;
     Number_toString := show_number |}.

(** Services that match nothing. *)
Definition no_match : Services :=
  {| matchRequest := fun _ => None;
     extractParameters := fun _ _ => ∅;
     detectIntent := fun _ => None;
     extractContextParameters := fun request => {[ "query" := request ]} |}.

Definition drop_prefix (n : nat) (s : string) : string :=
  String.substring n (String.length s - n) s.

(** Services with the one pattern [research {topic}], matched with the
    given confidence. *)
Definition research_rule (c : float) : Services :=
  {| matchRequest := fun request =>
       if Js.starts_with "research " request
       then Some {| toolName := "research-manager";
                    confidence := c;
                    matchedPattern := Some "research {topic}" |}
       else None;
     extractParameters := fun request _ => {[ "topic" := drop_prefix 9 request ]};
     detectIntent := fun _ => None;
     extractContextParameters := fun request => {[ "query" := request ]} |}.

(** Services whose intent detector always proposes the PRD generator. *)
Definition prd_intent (c : float) : Services :=
  {| matchRequest := fun _ => None;
     extractParameters := fun _ _ => ∅;
     detectIntent := fun _ =>
       Some {| toolName := "prd-generator";
               confidence := c;
               matchedPattern := Some "intent_matching" |};
     extractContextParameters := fun request => {[ "query" := request ]} |}.

(** An answer whose first line has a carriage return before the colon. *)
Definition cr_answer : string :=
  "answer" +:+ String "013"%char ": prd-generator".

(** A model that thinks once more, then sends something that is no JSON. *)
Definition second_answer_garbled : Runtime :=
  scripted [answer (thought_text "let me think" "true" "1" "1"); answer "garbage"].

(** A model that answers in its second thought. *)
Definition answer_in_second_round : Runtime :=
  scripted [answer (thought_text "let me think" "true" "1" "1");
            answer (thought_text "Tool: PRD-Generator" "false" "2" "3")].

End Samples.

(* ===================================================================== *)
(** ** Predicates on strings and requests *)
(* ===================================================================== *)

(** Every character of [s] satisfies [P]. *)
Fixpoint all_chars (P : ascii -> bool) (s : string) : bool :=
  match s with
  | EmptyString => true
  | String c r => P c && all_chars P r
  end.

Definition is_line_feed (c : ascii) : bool := (nat_of_ascii c =? 10)%nat.

(** [toLowerCase] leaves the character as it is. *)
Definition is_lowered (c : ascii) : bool := Ascii.eqb (Js.lower_char c) c.

(** A request of a session of the reasoning engine for the task
    [userPrompt]: it goes to the completion endpoint of the configuration,
    names its model and key, carries the system prompt [sp] and a user
    message that includes the task. *)
Definition session_request (userPrompt sp : string) (config : OpenRouterConfig)
    (req : LLMRequest) : Prop :=
  url req = baseUrl config +:+ "/chat/completions" /\
  model req = geminiModel config /\
  authorization req = "Bearer " +:+ apiKey config /\
  system_content req = sp /\
  Js.includes (user_content req) userPrompt = true.

(* ===================================================================== *)
(** ** The explanation of a match, and the request processor *)
(* ===================================================================== *)

(** [ProcessedRequest]: what the request processor makes of a match. *)
Record ProcessedRequest := {
  pr_toolName : string;
  pr_parameters : gmap string string;
  pr_explanation : string;
  pr_confidence : float;
  pr_requiresConfirmation : bool
}.

(** One item of the content of a tool result: a text, or an item of
    another type. *)
Inductive Content :=
| TextContent (text : string)
| OtherContent (type : string).

Record CallToolResult := {
  content : list Content;
  isError : option bool
}.

(** More of the runtime: [Math.round]; [JSON.stringify(_, null, 2)] on a
    processed request, and [JSON.parse] read as a processed request (nothing
    where it throws); for an [AxiosError], which this model knows by its
    response, its [message] and whether it has a [request] when it has no
    response.
    [raw_content n req] is the value of
    [response.data?.choices?.[0]?.message?.content] in the answer to the
    [n]-th call of [axios.post], before any conversion, and nothing where
    the chain ends in [undefined]: the research helper tests and trims that
    value, while [message_content] is the same content as a string.
    [inherited_call name params] is what the server tool comes to when the
    tool name is no key of its executors but a property of
    [Object.prototype]: the object literal answers with the inherited value,
    which is no executor (called with the parameters it throws, or returns a
    value that is no tool result, on which the tool throws); this is not
    fixed here. *)
Class Builtins := {
  Math_round : float -> float;
  stringify_request : ProcessedRequest -> string;
  parse_request : string -> option ProcessedRequest;
  axios_message : option AxiosResponse -> string;
  axios_request_made : bool;
  raw_content : nat -> LLMRequest -> option json;
  inherited_call : string -> gmap string string -> Outcome CallToolResult
}.

(** A value in a template literal: a missing one reads [undefined]. *)
Definition template_of (value : option string) : string :=
  match value with
  | Some s => s
  | None => "undefined"
  end.

(** [value === literal]. *)
Definition is_string (value : option string) (literal : string) : bool :=
  match value with
  | Some s => String.eqb s literal
  | None => false
  end.

(** [error instanceof Error ? error.message : String(error)]: every error
    of the model is an instance of [Error]. *)
Definition message_of `{Builtins} (error : JsError) : string :=
  match error with
  | AxiosError response => axios_message response
  | Error _ message => message
  end.

(** A tool executor, as [executeProcessedRequest] calls it. *)
Definition Executor : Type := gmap string string -> M CallToolResult.

Section RequestProcessor.
Context `{Runtime} `{Services} `{Builtins}.

Definition getMatchExplanation (m : EnhancedMatchResult) : string :=
  match matchMethod m with
  | rule =>
      if is_string (em_matchedPattern m) "description_match"
      then "I chose the " +:+ em_toolName m +:+
           " because keywords in your request matched its description."
      else "I chose the " +:+ em_toolName m +:+
           " because your request matched the pattern: " +:+
           Js.dquote +:+ template_of (em_matchedPattern m) +:+ Js.dquote
  | intent =>
      "I chose the " +:+ em_toolName m +:+
      " based on the intent of your request. I'm " +:+
      Number_toString (Math_round (em_confidence m * 100)%float) +:+
      "% confident this is what you meant."
  | sequential =>
      if is_string (em_matchedPattern m) "fallback"
      then "I wasn't sure which tool to use, so I'm defaulting to the " +:+
           em_toolName m +:+
           ". Please let me know if you'd prefer a different tool."
      else "After analyzing your request, I believe the " +:+ em_toolName m +:+
           " is the most appropriate tool to use."
  end.

(** The processed request built from a match. *)
Definition processed_request (matchResult : EnhancedMatchResult) : ProcessedRequest :=
  {| pr_toolName := em_toolName matchResult;
     pr_parameters := parameters matchResult;
     pr_explanation := getMatchExplanation matchResult;
     pr_confidence := em_confidence matchResult;
     pr_requiresConfirmation := requiresConfirmation matchResult |}.

(** The body of [processUserRequest], for a call of [hybridMatch] that is
    any computation: it returns a match, or throws. *)
Definition process_match (matching : M EnhancedMatchResult) : M CallToolResult :=
  try_catch
    (matchResult <- matching ;;
     ret {| content := [TextContent (stringify_request (processed_request matchResult))];
            isError := None |})
    (fun error =>
       ret {| content := [TextContent ("Error processing request: " +:+ message_of error)];
              isError := Some true |}).

Definition processUserRequest (fuel : nat) (request : string)
    (config : OpenRouterConfig) : M CallToolResult :=
  process_match (hybridMatch fuel request config).

(** [toolExecutors] is read as the function from a tool name to the value
    found under it, when that value is truthy. *)
Definition executeProcessedRequest (processedRequest : ProcessedRequest)
    (toolExecutors : string -> option Executor) : M CallToolResult :=
  try_catch
    match toolExecutors (pr_toolName processedRequest) with
    | Some executor => executor (pr_parameters processedRequest)
    | None =>
        throw (Error "Error"
                 ("No executor found for tool: " +:+ pr_toolName processedRequest))
    end
    (fun error =>
       ret {| content := [TextContent ("Error executing tool: " +:+ message_of error)];
              isError := Some true |}).

End RequestProcessor.

(* ===================================================================== *)
(** ** src/utils/researchHelper.ts, and the configuration *)
(* ===================================================================== *)

(** The configuration with its field [perplexityModel], which the reasoning
    engine does not read. *)
Record ResearchConfig := {
  openRouter : OpenRouterConfig;
  perplexityModel : option string
}.

(** [process.env.NAME || fallback]. *)
Definition env_or (env : gmap string string) (name fallback : string) : string :=
  match env !! name with
  | Some value => if Js.truthy value then value else fallback
  | None => fallback
  end.

(** The configuration [server.ts] reads from the environment. *)
Definition config_from_env (env : gmap string string) : ResearchConfig :=
  {| openRouter :=
       {| baseUrl := env_or env "OPENROUTER_BASE_URL" "https://openrouter.ai/api/v1";
          apiKey := env_or env "OPENROUTER_API_KEY" EmptyString;
          geminiModel := env_or env "GEMINI_MODEL" "google/gemini-2.0-flash-001" |};
     perplexityModel :=
       Some (env_or env "PERPLEXITY_MODEL" "perplexity/sonar-deep-research") |}.

Definition RESEARCH_ASSISTANT_PROMPT : string :=
  "You are a sophisticated AI research assistant using Perplexity Sonar Deep Research. Provide comprehensive, accurate, and up-to-date information. Research the user's query thoroughly.".

(** The request of a research query; it names no response format. *)
Definition research_request (query model : string) (config : OpenRouterConfig)
    : LLMRequest :=
  {| url := baseUrl config +:+ "/chat/completions";
     model := model;
     system_content := RESEARCH_ASSISTANT_PROMPT;
     user_content := query;
     response_format := EmptyString;
     max_tokens := 4000;
     temperature := 0.1;
     content_type := "application/json";
     authorization := "Bearer " +:+ apiKey config;
     http_referer := "https://vibe-coder-mcp.local" |}.

(** What the [try] block makes of the value of
    [response.data?.choices?.[0]?.message?.content]: a truthy string is
    trimmed and returned; a value that is missing or falsy ([null], the empty
    string, 0, [false]) is refused; and a truthy value that is no string has
    no [trim] to call. *)
Definition research_content (value : option json) : Outcome string :=
  match value with
  | Some v =>
      if json_truthy v then
        match v with
        | JString text => Return (Js.trim text)
        | _ =>
            Throw (Error "TypeError"
                     "response.data.choices[0].message.content.trim is not a function")
        end
      else Throw (Error "Error" "No valid content received from Perplexity API")
  | None => Throw (Error "Error" "No valid content received from Perplexity API")
  end.

Section Research.
Context `{Runtime} `{Builtins}.

(** The start of the message of every error the [catch] block throws. *)
Definition research_failure_prefix (query model : string) : string :=
  "Perplexity research failed for query: " +:+ Js.dquote +:+ query +:+ Js.dquote +:+
  ". Model: " +:+ model +:+ ".".

Definition research_failure_detail (error : JsError) : string :=
  match error with
  | AxiosError (Some response) =>
      " Status: " +:+ Number_toString (status response) +:+ ", Data: " +:+
      JSON_stringify
        (if json_truthy (data response) then data response else JObject [])
  | AxiosError None =>
      if axios_request_made
      then " No response received. " +:+ axios_message None
      else " Request setup failed. " +:+ axios_message None
  | Error name message => " Details: " +:+ String_of_error name message
  end.

(** [await axios.post(...)] in the research helper: the call is recorded,
    and of the answer the helper reads the content of the first choice. *)
Definition research_post (req : LLMRequest) : M (option json) :=
  fun t =>
    (response <- post req ;;
     ret (raw_content (count_posts t) req)) t.

Definition performResearchQuery (query : string) (config : ResearchConfig)
    : M string :=
  match perplexityModel config with
  | Some (String c m) =>
      let model := String c m in
      try_catch
        (value <- research_post (research_request query model (openRouter config)) ;;
         lift (research_content value))
        (fun error =>
           throw (Error "Error"
                    (research_failure_prefix query model +:+
                     research_failure_detail error)))
  | _ => throw (Error "Error" "Perplexity model name is not configured.")
  end.

End Research.

(* ===================================================================== *)
(** ** More samples *)
(* ===================================================================== *)

Module MoreSamples.

(** [Math.round] on the three ranges the samples use. *)
Definition round (x : float) : float :=
  if PrimFloat.leb 89.5 x && PrimFloat.ltb x 90.5 then 90%float
  else if PrimFloat.leb 49.5 x && PrimFloat.ltb x 50.5 then 50%float
  else if PrimFloat.leb 19.5 x && PrimFloat.ltb x 20.5 then 20%float
  else x.

(** A stand-in for the JSON text of a processed request. *)
Definition request_text (p : ProcessedRequest) : string :=
  "{" +:+ pr_toolName p +:+ "|" +:+ pr_explanation p +:+ "|" +:+
  (if pr_requiresConfirmation p then "true" else "false") +:+ "}".

(** What an inherited value gives in the samples: the error of a spread
    over a value that is not there. *)
Definition no_result (name : string) (params : gmap string string)
    : Outcome CallToolResult :=
  Throw (Error "TypeError" "toolResult.content is not iterable").

(** Builtins under which the research answers have the given contents, in
    the order of the calls, and no content once they are used up. *)
Definition builtins_with (contents : list json) : Builtins :=
  {| Math_round := round;
     stringify_request := request_text;
     parse_request := fun _ => None;
     axios_message := fun response =>
       match response with
       | Some _ => "Request failed with status code 500"
       | None => "Network Error"
       end;
     axios_request_made := true;
     raw_content := fun n _ => contents !! n;
     inherited_call := no_result |}.

Definition builtins : Builtins := builtins_with [].

Definition research_config : ResearchConfig :=
  {| openRouter := Samples.config;
     perplexityModel := Some "perplexity/sonar-deep-research" |}.

(** An executor that gives back the topic it is called with. *)
Definition echo_topic : Executor :=
  fun params =>
    ret {| content := [TextContent (default "no topic" (params !! "topic"))];
           isError := None |}.

(** An executor that fails. *)
Definition failing : Executor :=
  fun _ => throw (Error "Error" "disk full").

Definition executors (name : string) : option Executor :=
  if String.eqb name "research-manager" then Some echo_topic
  else if String.eqb name "prd-generator" then Some failing
  else None.

End MoreSamples.

(* ===================================================================== *)
(** ** The document generators *)
(* ===================================================================== *)

(** *** Names and titles *)

Module Text.

(** [s.substring(0, n)]. *)
Fixpoint substring0 (n : nat) (s : string) : string :=
  match n, s with
  | S n', String c r => String c (substring0 n' r)
  | _, _ => EmptyString
  end.

(** The classes [[a-z0-9]] and [[a-zA-Z0-9 ]]. *)
Definition is_lower_alnum (c : ascii) : bool :=
  let n := nat_of_ascii c in
  ((97 <=? n) && (n <=? 122) || (48 <=? n) && (n <=? 57))%nat.

Definition is_alnum_or_space (c : ascii) : bool :=
  let n := nat_of_ascii c in
  ((97 <=? n) && (n <=? 122) || (65 <=? n) && (n <=? 90) ||
   (48 <=? n) && (n <=? 57) || (n =? 32))%nat.

(** The class [[:.]]. *)
Definition is_colon_or_dot (c : ascii) : bool :=
  let n := nat_of_ascii c in ((n =? 58) || (n =? 46))%nat.

(** [s.replace(/[:.]/g, '-')]: each colon and each dot becomes a dash. *)
Fixpoint dash_colons_and_dots (s : string) : string :=
  match s with
  | EmptyString => EmptyString
  | String c r =>
      String (if is_colon_or_dot c then "-"%char else c) (dash_colons_and_dots r)
  end.

(** [s.replace(/[^a-z0-9]+/g, '-')]: each longest run of other characters
    becomes one dash; [in_run] tells that the run has its dash already. *)
Fixpoint dash_runs (in_run : bool) (s : string) : string :=
  match s with
  | EmptyString => EmptyString
  | String c r =>
      if is_lower_alnum c then String c (dash_runs false r)
      else if in_run then dash_runs true r
      else String "-"%char (dash_runs true r)
  end.

(** [s.replace(/[^a-zA-Z0-9 ]/g, '')]. *)
Fixpoint keep_alnum_and_spaces (s : string) : string :=
  match s with
  | EmptyString => EmptyString
  | String c r =>
      if is_alnum_or_space c then String c (keep_alnum_and_spaces r)
      else keep_alnum_and_spaces r
  end.

(** The longest start of [s] without a line terminator. *)
Fixpoint line_rest (s : string) : string :=
  match s with
  | EmptyString => EmptyString
  | String c r => if Js.is_line_terminator c then EmptyString else String c (line_rest r)
  end.

(** The group of the match of [\s+(.+)$] (or of [\s*(.+)$] once a white
    space is [consumed]) at the start of [r], under the flag [m]: the white
    space takes as much as it can and gives back what the rest needs, and
    the group is the rest of the line, which has at least one character. *)
Fixpoint heading_from (consumed : bool) (r : string) : option string :=
  let here :=
    if consumed then
      match r with
      | String c _ => if Js.is_line_terminator c then None else Some (line_rest r)
      | EmptyString => None
      end
    else None in
  match r with
  | String c r' =>
      if Js.is_space c then
        match heading_from true r' with
        | Some group => Some group
        | None => here
        end
      else here
  | EmptyString => here
  end.

(** The group of the first match of [/^#\s+(.+)$/m] in [s]; [at_line_start]
    tells that [s] starts the text or follows a line terminator. *)
Fixpoint find_heading (at_line_start : bool) (s : string) : option string :=
  match s with
  | EmptyString => None
  | String c r =>
      match (if at_line_start && Ascii.eqb c "#"%char
             then heading_from false r else None) with
      | Some group => Some group
      | None => find_heading (Js.is_line_terminator c) r
      end
  end.

(** [s.split(sep)] for a separator of one character. *)
Fixpoint split_on (sep : ascii) (s : string) : list string :=
  match s with
  | EmptyString => [EmptyString]
  | String c r =>
      if Ascii.eqb c sep then EmptyString :: split_on sep r
      else
        match split_on sep r with
        | first :: rest => String c first :: rest
        | [] => [String c EmptyString]
        end
  end.

End Text.

(** [productDescription.substring(0, 30).toLowerCase().replace(/[^a-z0-9]+/g, '-')]. *)
Definition sanitized_name (productDescription : string) : string :=
  Text.dash_runs false (Js.toLowerCase (Text.substring0 30 productDescription)).

(** A character of a sanitized name: a small letter, a digit or a dash. *)
Definition is_name_char (c : ascii) : bool :=
  Text.is_lower_alnum c || Ascii.eqb c "-"%char.

(** The file system and the clock.  [ensureDir] and [writeFile] give the
    error they throw, if any; [now_iso] is [new Date().toISOString()] when
    a generator starts and [now_locale] is [new Date().toLocaleString()]
    when it formats its document. *)
Class System := {
  cwd : string;
  path_join : list string -> string;
  ensureDir : string -> option JsError;
  writeFile : string -> string -> option JsError;
  now_iso : string;
  now_locale : string
}.

(** A call that returns nothing, or throws. *)
Definition attempt (failure : option JsError) : M unit :=
  match failure with
  | Some e => throw e
  | None => ret tt
  end.

(** [Promise.allSettled]: the calls start in order, and the outcome of each
    is kept. *)
Fixpoint allSettled {A} (calls : list (M A)) : M (list (Outcome A)) :=
  match calls with
  | [] => ret []
  | call :: rest =>
      fun t =>
        let (outcome, t') := call t in
        bind (allSettled rest) (fun outcomes => ret (outcome :: outcomes)) t'
  end.

(** The outcome of a research query when no model name is configured. *)
Definition not_configured : Outcome string :=
  Throw (Error "Error" "Perplexity model name is not configured.").

(** The section of the research context for one query. *)
Definition research_section (label : string) (result : Outcome string) : string :=
  "### " +:+ label +:+ ":" +:+ Js.nl +:+
  match result with
  | Return value => Js.trim value
  | _ => "*Research on this topic failed.*"
  end +:+ Js.nl +:+ Js.nl.

Definition RESEARCH_HEADER : string :=
  "## Pre-Generation Research Context (From Perplexity Sonar Deep Research):" +:+
  Js.nl +:+ Js.nl.

Definition RESEARCH_ERROR_CONTEXT : string :=
  "## Pre-Generation Research Context:" +:+ Js.nl +:+
  "*Error occurred during research phase.*" +:+ Js.nl +:+ Js.nl.

(** The sections for the results, each under the label of its index. *)
Fixpoint research_sections (labels : list string) (results : list (Outcome string))
    : string :=
  match labels, results with
  | label :: labels', result :: results' =>
      research_section label result +:+ research_sections labels' results'
  | _, _ => EmptyString
  end.

(** The text a generator returns for an error. *)
Definition error_text (what : string) (message : string) : CallToolResult :=
  {| content := [TextContent (what +:+ message)]; isError := None |}.

(** *** The system prompts *)

Definition PRD_SYSTEM_PROMPT : string :=
  Js.join Js.nl [
    EmptyString;
    "# ROLE & GOAL";
    "You are an expert Product Manager and Technical Writer AI assistant. Your goal is to generate a comprehensive, clear, and well-structured Product Requirements Document (PRD) in Markdown format based on the provided inputs.";
    EmptyString;
    "# CORE TASK";
    "Generate a detailed PRD based on the user's product description and the research context provided.";
    EmptyString;
    "# INPUT HANDLING";
    "- The primary input is the user's 'productDescription'. Analyze it carefully to understand the core concept, features, and goals.";
    "- You will also receive 'Pre-Generation Research Context'.";
    EmptyString;
    "# RESEARCH CONTEXT INTEGRATION";
    "- **CRITICAL:** Carefully review the '## Pre-Generation Research Context (From Perplexity Sonar Deep Research)' section provided in the user prompt.";
    "- This section contains insights on: Market Analysis, User Needs & Expectations, and Industry Standards & Best Practices.";
    "- **Integrate** these insights strategically into the relevant PRD sections. For example:";
    "    - Use 'Market Analysis' to inform the 'Goals' and 'Competitive Landscape' (if included).";
    "    - Use 'User Needs & Expectations' and 'Personas' (if available in research) to define the 'Target Audience' and justify features.";
    "    - Use 'Industry Standards & Best Practices' to guide 'Features & Functionality', 'Technical Considerations', and 'Non-Functional Requirements'.";
    "- **Synthesize**, don't just copy. Weave the research findings naturally into the PRD narrative.";
    "- If research context is missing or indicates failure for a topic, note this appropriately (e.g., " +:+ Js.dquote +:+ "Market research was inconclusive, but based on the description..." +:+ Js.dquote +:+ ").";
    EmptyString;
    "# OUTPUT FORMAT & STRUCTURE (Strict Markdown)";
    "- Your entire response **MUST** be valid Markdown.";
    "- Start **directly** with the main title: '# PRD: [Inferred Product Name]'";
    "- Use the following sections with the specified Markdown heading levels. Include all mandatory sections; optional sections can be added if relevant information is available from the description or research.";
    EmptyString;
    "  ## 1. Introduction / Overview (Mandatory)";
    "  - Purpose of the product.";
    "  - High-level summary.";
    EmptyString;
    "  ## 2. Goals (Mandatory)";
    "  - Business goals (e.g., increase market share, user engagement). Use research context if applicable.";
    "  - Product goals (e.g., solve specific user problems, achieve specific functionality).";
    EmptyString;
    "  ## 3. Target Audience (Mandatory)";
    "  - Describe the primary user groups.";
    "  - Incorporate insights on demographics, needs, and pain points from the research context. Use persona descriptions if research provided them.";
    EmptyString;
    "  ## 4. Features & Functionality (Mandatory)";
    "  - Use subheadings (###) for major features or epics.";
    "  - For each feature, use the User Story format:";
    "    - **User Story:** As a [user type/persona], I want to [perform action] so that [I get benefit].";
    "    - **Description:** Further details about the story.";
    "    - **Acceptance Criteria:**";
    "      - GIVEN [context] WHEN [action] THEN [outcome]";
    "      - (Provide multiple specific, testable criteria)";
    EmptyString;
    "  ## 5. Design & UX Considerations (Mandatory)";
    "  - High-level look-and-feel, usability goals. Informed by research on expectations.";
    EmptyString;
    "  ## 6. Technical Considerations (Mandatory)";
    "  - Non-functional requirements (performance, scalability, security - informed by research).";
    "  - Potential technology constraints or suggestions based on research context.";
    EmptyString;
    "  ## 7. Success Metrics (Mandatory)";
    "  - Key Performance Indicators (KPIs) to measure success (e.g., user adoption rate, task completion time). Informed by industry standards research.";
    EmptyString;
    "  ## 8. Open Issues / Questions (Mandatory)";
    "  - List any ambiguities or areas needing further clarification.";
    EmptyString;
    "  ## 9. Out-of-Scope / Future Considerations (Mandatory)";
    "  - Features explicitly not included in this version.";
    "  - Potential future enhancements.";
    EmptyString;
    "# QUALITY ATTRIBUTES";
    "- **Comprehensive:** Cover all aspects implied by the description and research.";
    "- **Clear & Concise:** Use unambiguous language.";
    "- **Structured:** Strictly adhere to the specified Markdown format and sections.";
    "- **Actionable:** Requirements should be clear enough for design and development teams.";
    "- **Accurate:** Reflect the product description and research context faithfully.";
    "- **Modern:** Incorporate current best practices identified in research.";
    EmptyString;
    "# CONSTRAINTS (Do NOT Do the Following)";
    "- **NO Conversational Filler:** Do not include greetings, apologies, self-references (" +:+ Js.dquote +:+ "Here is the PRD..." +:+ Js.dquote +:+ ", " +:+ Js.dquote +:+ "I have generated..." +:+ Js.dquote +:+ "). Start directly with the '# PRD: ...' title.";
    "- **NO Markdown Violations:** Ensure all formatting is correct Markdown. Do not use unsupported syntax.";
    "- **NO External Knowledge:** Base the PRD *only* on the provided product description and research context. Do not invent unrelated features or use external data.";
    "- **NO Process Commentary:** Do not mention the research process or the models used (Perplexity/Gemini) within the PRD output itself.";
    "- **Strict Formatting:** Adhere strictly to the section structure and Markdown heading levels specified.";
    EmptyString
  ].

Definition RULES_SYSTEM_PROMPT : string :=
  Js.join Js.nl [
    EmptyString;
    "# ROLE & GOAL";
    "You are an expert Software Architect and Lead Developer AI assistant. Your goal is to generate a clear, actionable, and comprehensive set of development rules (guidelines and standards) in Markdown format for a specific software project.";
    EmptyString;
    "# CORE TASK";
    "Generate a detailed set of development rules based on the user's product description, optional user stories, optional specified rule categories, and the provided research context.";
    EmptyString;
    "# INPUT HANDLING";
    "- Analyze the 'productDescription' to understand the project type, potential tech stack (if implied), and complexity.";
    "- Consider the optional 'userStories' to infer requirements that might influence rules (e.g., performance needs for specific features).";
    "- If 'ruleCategories' are provided, prioritize generating rules within those categories. If not, cover a broad range of standard categories.";
    "- You will also receive 'Pre-Generation Research Context'.";
    EmptyString;
    "# RESEARCH CONTEXT INTEGRATION";
    "- **CRITICAL:** Carefully review the '## Pre-Generation Research Context (From Perplexity Sonar Deep Research)' section provided in the user prompt.";
    "- This section contains insights on: Best Practices & Coding Standards, Rule Categories, and Architecture Patterns & File Organization.";
    "- **Use these insights** to:";
    "    - Select relevant rule categories if not specified by the user.";
    "    - Define rules that align with modern best practices for the identified product type/tech stack.";
    "    - Suggest appropriate architecture and file structure conventions based on the research.";
    "    - Provide strong rationale for rules, referencing industry standards where applicable.";
    "- **Synthesize**, don't just copy. Tailor the research findings to the specific project context.";
    EmptyString;
    "# OUTPUT FORMAT & STRUCTURE (Strict Markdown)";
    "- Your entire response **MUST** be valid Markdown.";
    "- Start **directly** with the main title: '# Development Rules: [Inferred Project Name/Type]'";
    "- Organize rules under relevant category headings (e.g., `## Category: Code Style & Formatting`). Use the rule categories identified from input or research. Standard categories include:";
    "    - Code Style & Formatting";
    "    - Naming Conventions";
    "    - Architecture & Design Patterns";
    "    - File & Project Structure";
    "    - State Management (if applicable)";
    "    - API Design (if applicable)";
    "    - Error Handling & Logging";
    "    - Security Practices";
    "    - Performance Optimization";
    "    - Testing Standards";
    "    - Documentation Standards";
    "    - Dependency Management";
    "    - Version Control (Git Flow)";
    "- For **each rule**, use the following precise template:";
    EmptyString;
    "  ### Rule: [Clear Rule Title Starting with a Verb, e.g., Use PascalCase for Components]";
    "  ";
    "  **Description:** [Concise explanation of what the rule entails.]";
    "  ";
    "  **Rationale:** [Why this rule is important for this specific project. Reference research/best practices.]";
    "  ";
    "  **Applicability:** [Glob patterns or description of where this rule applies (e.g., `src/components/**/*.tsx`, " +:+ Js.dquote +:+ "All API endpoint handlers" +:+ Js.dquote +:+ ").]";
    "  ";
    "  **Guidelines / Examples:**";
    "  ```[language, e.g., javascript, typescript, css, python]";
    "  // Good Example:";
    "  [Code snippet illustrating the correct way]";
    EmptyString;
    "  // Bad Example:";
    "  [Code snippet illustrating the incorrect way]";
    "  ```";
    "  *(Or provide bulleted guidelines if code examples are not suitable)*";
    EmptyString;
    "# QUALITY ATTRIBUTES";
    "- **Actionable:** Rules should be concrete and easy to follow.";
    "- **Specific:** Avoid vague statements.";
    "- **Relevant:** Tailored to the project described and informed by research.";
    "- **Comprehensive:** Cover key areas of development.";
    "- **Justified:** Provide clear rationale for each rule.";
    "- **Consistent:** Maintain a uniform format for all rules.";
    "- **Modern:** Reflect current best practices from the research.";
    EmptyString;
    "# CONSTRAINTS (Do NOT Do the Following)";
    "- **NO Conversational Filler:** Start directly with the '# Development Rules: ...' title. No greetings, summaries, or apologies.";
    "- **NO Markdown Violations:** Strictly adhere to the specified Markdown format, especially the rule template.";
    "- **NO External Knowledge:** Base rules *only* on the provided inputs and research context.";
    "- **NO Process Commentary:** Do not mention Perplexity, Gemini, or the generation process in the output.";
    "- **Strict Formatting:** Use `##` for categories and `###` for individual rule titles. Use the exact field names (Description, Rationale, etc.) in bold. Use code blocks with language hints for examples.";
    EmptyString
  ].

Definition TASK_LIST_SYSTEM_PROMPT : string :=
  Js.join Js.nl [
    EmptyString;
    "# ROLE & GOAL";
    "You are an expert Project Manager and Technical Lead AI assistant. Your goal is to generate a detailed, actionable, and well-structured development task list in Markdown format, breaking down user stories into concrete development tasks.";
    EmptyString;
    "# CORE TASK";
    "Generate a hierarchical development task list based on the user's product description, provided user stories, and the research context.";
    EmptyString;
    "# INPUT HANDLING";
    "- Analyze the 'productDescription' for overall project scope and context.";
    "- **Critically analyze the provided 'userStories'.** Each user story should be broken down into specific development tasks.";
    "- You will also receive 'Pre-Generation Research Context'.";
    EmptyString;
    "# RESEARCH CONTEXT INTEGRATION";
    "- **CRITICAL:** Carefully review the '## Pre-Generation Research Context (From Perplexity Sonar Deep Research)' section provided in the user prompt.";
    "- This section contains insights on: Development Lifecycle & Milestones, Task Estimation & Dependencies, and Team Structure & Work Breakdown.";
    "- **Use these insights** heavily to:";
    "    - Structure the task list logically according to standard 'Development Lifecycle & Milestones' (e.g., Setup, Backend API, Frontend UI, Testing, Deployment phases).";
    "    - Define realistic 'Dependencies' between tasks based on best practices.";
    "    - Apply appropriate relative 'Estimated Effort' (Small, Medium, Large) based on research findings on task estimation.";
    "    - Break down tasks to a suitable level of granularity, considering typical 'Work Breakdown' structures.";
    "- **Synthesize**, don't just list research findings. Apply the research principles to the specific tasks derived from the user stories.";
    EmptyString;
    "# OUTPUT FORMAT & STRUCTURE (Strict Markdown)";
    "- Your entire response **MUST** be valid Markdown.";
    "- Start **directly** with the main title: '# Task List: [Inferred Product Name]'";
    "- Organize tasks hierarchically using Markdown headings and nested lists:";
    "    - `## Phase: [Phase Name]` (e.g., `## Phase: Project Setup`, `## Phase: Backend API Development`, `## Phase: Frontend UI Implementation`) - Derived from research context on lifecycle.";
    "    - `### Epic/Feature: [Related Epic or Feature from User Stories]` (Optional grouping under phases)";
    "    - Use nested bullet points (`-`, `  -`, `    -`) for Main Tasks and Sub-Tasks.";
    "- For **each Task/Sub-Task**, include the following details clearly formatted within the list item:";
    "    - **ID:** T-[auto-incrementing number, e.g., T-101]";
    "    - **Title:** [Clear, Action-Oriented Task Title (e.g., Implement user registration endpoint)]";
    "    - *(Description):* [Brief explanation of the task.]";
    "    - *(User Story):* [ID(s) of related User Story, e.g., US-101]";
    "    - *(Priority):* [High | Medium | Low]";
    "    - *(Dependencies):* [List of Task IDs, e.g., T-100, T-105 | None]";
    "    - *(Est. Effort):* [Small | Medium | Large - informed by research]";
    EmptyString;
    "**Example Task Format:**";
    "```markdown";
    "- **ID:** T-201";
    "  **Title:** Create User Model and Database Migration";
    "  *(Description):* Define the data structure for users and create the necessary database migration scripts.";
    "  *(User Story):* US-101";
    "  *(Priority):* High";
    "  *(Dependencies):* T-101 (Project Setup Complete)";
    "  *(Est. Effort):* Medium";
    "    - **ID:** T-201.1";
    "      **Title:** Define User schema (username, password_hash, email)";
    "      *(Description):* Specify fields and types for the user data model.";
    "      *(User Story):* US-101";
    "      *(Priority):* High";
    "      *(Dependencies):* T-201";
    "      *(Est. Effort):* Small";
    "    - **ID:** T-201.2";
    "      **Title:** Write database migration script using [ORM/Tool]";
    "      *(Description):* Create the script to apply the User schema to the database.";
    "      *(User Story):* US-101";
    "      *(Priority):* High";
    "      *(Dependencies):* T-201.1";
    "      *(Est. Effort):* Small";
    "```";
    EmptyString;
    "# QUALITY ATTRIBUTES";
    "- **Actionable:** Tasks should be specific enough to be assigned and worked on.";
    "- **Comprehensive:** Cover all user stories provided. Include setup, development, testing, and potentially deployment tasks based on lifecycle research.";
    "- **Logical Flow:** Dependencies should reflect a realistic development sequence informed by research.";
    "- **Well-Estimated:** Relative effort should be consistent and based on research insights.";
    "- **Clearly Structured:** Adhere strictly to the hierarchical Markdown format.";
    "- **Traceable:** Link tasks back to user stories.";
    EmptyString;
    "# CONSTRAINTS (Do NOT Do the Following)";
    "- **NO Conversational Filler:** Start directly with the '# Task List: ...' title. No introductions or summaries.";
    "- **NO Markdown Violations:** Strictly adhere to the specified Markdown format (headings, nested lists, bold field names).";
    "- **NO External Knowledge:** Base tasks *only* on the provided inputs (description, stories) and research context.";
    "- **NO Process Commentary:** Do not mention the research process in the output.";
    "- **Strict Formatting:** Use `##` for Phases, `###` for Epics (optional), nested `-` for tasks/sub-tasks. Use the exact field names (ID, Title, etc.) in bold, followed by `:`.";
    EmptyString
  ].

Section Generators.
Context `{Runtime} `{Builtins} `{System}.

(** The research block, which the three generators repeat word for word
    but for their queries and labels: the three queries are started, and
    the context has one section for each, in order. *)
Definition research_phase (queries labels : list string) (config : ResearchConfig)
    : M string :=
  try_catch
    (researchResults <-
       allSettled (map (fun query => performResearchQuery query config) queries) ;;
     ret (RESEARCH_HEADER +:+ research_sections labels researchResults))
    (fun researchError => ret RESEARCH_ERROR_CONTEXT).

Definition timestamp : string := Text.dash_colons_and_dots now_iso.

Definition generated_stamp : string := "_Generated: " +:+ now_locale +:+ "_".

(** *** The task list generator *)

Definition TASK_LIST_DIR : string :=
  path_join [cwd; "workflow-agent-files"; "task-list-generator"].

Definition task_list_labels : list string :=
  ["Development Lifecycle & Milestones"; "Task Estimation & Dependencies";
   "Team Structure & Work Breakdown"].

Definition task_list_queries (productDescription : string) : list string :=
  ["Software development lifecycle tasks and milestones for: " +:+ productDescription;
   "Task estimation and dependency management best practices for software projects";
   "Development team structures and work breakdown for projects similar to: " +:+
   productDescription].

Definition task_list_prompt (productDescription userStories researchContext : string)
    : string :=
  "Create a detailed task list for the following product:" +:+ Js.nl +:+ Js.nl +:+
  productDescription +:+ Js.nl +:+ Js.nl +:+
  "Based on these user stories:" +:+ Js.nl +:+ Js.nl +:+
  userStories +:+ Js.nl +:+ Js.nl +:+ researchContext.

Definition task_list_document (productDescription taskListResult : string) : string :=
  "# Task List: " +:+ Text.substring0 50 productDescription +:+ "..." +:+
  Js.nl +:+ Js.nl +:+ taskListResult +:+ Js.nl +:+ Js.nl +:+ generated_stamp.

Definition task_list_path (productDescription : string) : string :=
  path_join [TASK_LIST_DIR;
             timestamp +:+ "-" +:+ sanitized_name productDescription +:+
             "-task-list.md"].

Definition generateTaskList (fuel : nat) (productDescription userStories : string)
    (config : ResearchConfig) : M CallToolResult :=
  try_catch
    (ready <- attempt (ensureDir TASK_LIST_DIR) ;;
     researchContext <-
       research_phase (task_list_queries productDescription) task_list_labels config ;;
     taskListResult <-
       processWithSequentialThinking fuel
         (task_list_prompt productDescription userStories researchContext)
         (openRouter config) (Some TASK_LIST_SYSTEM_PROMPT) ;;
     let formattedResult := task_list_document productDescription taskListResult in
     saved <- attempt (writeFile (task_list_path productDescription) formattedResult) ;;
     ret {| content := [TextContent formattedResult]; isError := None |})
    (fun error => ret (error_text "Error generating task list: " (message_of error))).

(** *** The rules generator *)

Definition RULES_DIR : string :=
  path_join [cwd; "workflow-agent-files"; "rules-generator"].

Definition rules_labels : list string :=
  ["Best Practices"; "Rule Categories"; "Architecture Patterns"].

(** [ruleCategories && ruleCategories.length > 0]. *)
Definition given_categories (ruleCategories : option (list string))
    : option (list string) :=
  match ruleCategories with
  | Some (c :: cs) => Some (c :: cs)
  | _ => None
  end.

(** The kind of product the third query asks about. *)
Definition product_type (productDescription : string) : string :=
  let productTypeLowercase := Js.toLowerCase productDescription in
  if Js.includes productTypeLowercase "web" || Js.includes productTypeLowercase "website"
  then "web application"
  else if Js.includes productTypeLowercase "mobile" ||
          Js.includes productTypeLowercase "app"
  then "mobile application"
  else if Js.includes productTypeLowercase "api" then "API service"
  else if Js.includes productTypeLowercase "game" then "game"
  else "software application".

Definition rules_queries (productDescription : string)
    (ruleCategories : option (list string)) : list string :=
  ["Best development practices and coding standards for building: " +:+
   productDescription;
   match given_categories ruleCategories with
   | Some categories =>
       "Specific rules and guidelines for these categories in software development: " +:+
       Js.join ", " categories
   | None =>
       "Common software development rule categories for: " +:+ productDescription
   end;
   "Modern architecture patterns and file organization for " +:+
   product_type productDescription +:+ " development"].

Definition rules_prompt (productDescription : string) (userStories : option string)
    (ruleCategories : option (list string)) (researchContext : string) : string :=
  "Create a comprehensive set of development rules for the following product:" +:+
  Js.nl +:+ Js.nl +:+ productDescription +:+
  match userStories with
  | Some stories =>
      if Js.truthy stories
      then Js.nl +:+ Js.nl +:+ "Based on these user stories:" +:+ Js.nl +:+ Js.nl +:+
           stories
      else EmptyString
  | None => EmptyString
  end +:+
  match given_categories ruleCategories with
  | Some categories =>
      Js.nl +:+ Js.nl +:+ "Focus on these rule categories:" +:+ Js.nl +:+
      Js.join Js.nl (map (fun c => "- " +:+ c) categories)
  | None => EmptyString
  end +:+
  Js.nl +:+ Js.nl +:+ researchContext.

Definition rules_document (productDescription rulesResult : string) : string :=
  "# Development Rules: " +:+
  Text.keep_alnum_and_spaces (Text.substring0 30 productDescription) +:+
  Js.nl +:+ Js.nl +:+ rulesResult +:+ Js.nl +:+ Js.nl +:+ generated_stamp.

Definition rules_path (productDescription : string) : string :=
  path_join [RULES_DIR;
             timestamp +:+ "-" +:+ sanitized_name productDescription +:+ "-rules.md"].

Definition generateRules (fuel : nat) (productDescription : string)
    (userStories : option string) (ruleCategories : option (list string))
    (config : option ResearchConfig) : M CallToolResult :=
  try_catch
    (ready <- attempt (ensureDir RULES_DIR) ;;
     match config with
     | None => throw (Error "Error" "OpenRouter configuration is required")
     | Some config =>
         researchContext <-
           research_phase (rules_queries productDescription ruleCategories)
             rules_labels config ;;
         rulesResult <-
           processWithSequentialThinking fuel
             (rules_prompt productDescription userStories ruleCategories researchContext)
             (openRouter config) (Some RULES_SYSTEM_PROMPT) ;;
         let formattedResult := rules_document productDescription rulesResult in
         saved <- attempt (writeFile (rules_path productDescription) formattedResult) ;;
         ret {| content := [TextContent formattedResult]; isError := None |}
     end)
    (fun error => ret (error_text "Error generating rules: " (message_of error))).

(** *** The PRD generator *)

Definition PRD_DIR : string :=
  path_join [cwd; "workflow-agent-files"; "prd-generator"].

Definition prd_labels : list string :=
  ["Market Analysis"; "User Needs & Expectations";
   "Industry Standards & Best Practices"].

Definition prd_queries (productDescription : string) : list string :=
  ["Market analysis and competitive landscape for: " +:+ productDescription;
   "User needs, demographics, and expectations for: " +:+ productDescription;
   "Industry standards, best practices, and common feature sets for products like: " +:+
   productDescription].

Definition prd_prompt (productDescription researchContext : string) : string :=
  "Create a comprehensive PRD for the following product:" +:+ Js.nl +:+ Js.nl +:+
  productDescription +:+ Js.nl +:+ Js.nl +:+ researchContext.

(** The title: the first heading of the text of the model, or one made
    from the description. *)
Definition prd_title (productDescription prdResult : string) : string :=
  match Text.find_heading true prdResult with
  | Some title => title
  | None => "PRD: " +:+ Text.substring0 50 productDescription +:+ "..."
  end.

Definition prd_document (productDescription prdResult : string) : string :=
  "# " +:+ prd_title productDescription prdResult +:+ Js.nl +:+ Js.nl +:+
  prdResult +:+ Js.nl +:+ Js.nl +:+ generated_stamp.

Definition prd_path (productDescription : string) : string :=
  path_join [PRD_DIR;
             timestamp +:+ "-" +:+ sanitized_name productDescription +:+ "-prd.md"].

Definition generatePRD (fuel : nat) (productDescription : string)
    (config : ResearchConfig) : M CallToolResult :=
  try_catch
    (ready <- attempt (ensureDir PRD_DIR) ;;
     researchContext <-
       research_phase (prd_queries productDescription) prd_labels config ;;
     prdResult <-
       processWithSequentialThinking fuel
         (prd_prompt productDescription researchContext)
         (openRouter config) (Some PRD_SYSTEM_PROMPT) ;;
     let formattedResult := prd_document productDescription prdResult in
     saved <- attempt (writeFile (prd_path productDescription) formattedResult) ;;
     ret {| content := [TextContent formattedResult]; isError := None |})
    (fun error => ret (error_text "Error generating PRD: " (message_of error))).

End Generators.

(* ===================================================================== *)
(** ** The tool [process-request] of the server *)
(* ===================================================================== *)

(** The input of the starter kit generator. *)
Record StarterKitInput := {
  use_case : string;
  tech_stack_preferences : json;
  request_recommendation : bool;
  include_optional_features : list string
}.

(** The generators whose code is not to hand. *)
Class Tools := {
  generateFullstackStarterKit : StarterKitInput -> ResearchConfig -> M CallToolResult;
  performResearch : string -> ResearchConfig -> M CallToolResult;
  generateUserStories : string -> ResearchConfig -> M CallToolResult
}.

(** The names under which every object literal answers besides its own
    keys: the properties of [Object.prototype]. *)
Definition Object_prototype_names : list string :=
  ["constructor"; "hasOwnProperty"; "isPrototypeOf"; "propertyIsEnumerable";
   "toLocaleString"; "toString"; "valueOf"; "__proto__";
   "__defineGetter__"; "__defineSetter__"; "__lookupGetter__"; "__lookupSetter__"].

Definition is_prototype_name (name : string) : bool :=
  existsb (String.eqb name) Object_prototype_names.

(** What [toolExecutors[name]] finds on the object literal of the server
    tool: an executor of its own, a value inherited from
    [Object.prototype], or [undefined]. *)
Inductive Property :=
| Own (executor : Executor)
| Inherited
| Undefined.

Definition lookup_executor (executors : gmap string Executor) (name : string)
    : Property :=
  match executors !! name with
  | Some executor => Own executor
  | None => if is_prototype_name name then Inherited else Undefined
  end.

(** [params.name], when it is truthy. *)
Definition param (params : gmap string string) (name : string) : option string :=
  match params !! name with
  | Some value => if Js.truthy value then Some value else None
  | None => None
  end.

(** [params.a || params.b || fallback]. *)
Fixpoint first_param (params : gmap string string) (names : list string)
    (fallback : string) : string :=
  match names with
  | [] => fallback
  | name :: rest =>
      match param params name with
      | Some value => value
      | None => first_param params rest fallback
      end
  end.

Section ProcessRequest.
Context `{Runtime} `{Services} `{Builtins} `{System} `{Tools}.

Definition starter_kit_executor (request : string) (config : ResearchConfig)
    : Executor :=
  fun params =>
    preferences <-
      match param params "tech_stack_preferences" with
      | Some text => lift (parse text)
      | None => ret (JObject [])
      end ;;
    result <-
      generateFullstackStarterKit
        {| use_case := first_param params ["use_case"; "project"] request;
           tech_stack_preferences := preferences;
           request_recommendation :=
             is_string (params !! "request_recommendation") "true";
           include_optional_features :=
             match param params "include_optional_features" with
             | Some features => Text.split_on ","%char features
             | None => []
             end |}
        config ;;
    ret {| content := content result; isError := isError result |}.

(** The executors the tool builds for a request. *)
Definition tool_executors (fuel : nat) (request : string) (config : ResearchConfig)
    : gmap string Executor :=
  list_to_map
    [("fullstack-starter-kit-generator", starter_kit_executor request config);
     ("research-manager",
      fun params =>
        performResearch (first_param params ["query"; "topic"] request) config);
     ("rules-generator",
      fun params =>
        generateRules fuel (first_param params ["productDescription"] request)
          (params !! "userStories")
          (Text.split_on ","%char <$> params !! "ruleCategories")
          (Some config));
     ("prd-generator",
      fun params =>
        generatePRD fuel (first_param params ["productDescription"] request) config);
     ("user-stories-generator",
      fun params =>
        generateUserStories (first_param params ["productDescription"] request) config);
     ("task-list-generator",
      fun params =>
        generateTaskList fuel (first_param params ["productDescription"] request)
          (first_param params ["userStories"] EmptyString) config)].

(** The text that asks for a confirmation. *)
Definition confirmation_text (processedRequest : ProcessedRequest) : string :=
  "I'll use the " +:+ pr_toolName processedRequest +:+ " for this request." +:+
  Js.nl +:+ Js.nl +:+ pr_explanation processedRequest +:+ Js.nl +:+ Js.nl +:+
  "Confidence: " +:+
  Number_toString (Math_round (pr_confidence processedRequest * 100)%float) +:+ "%".

(** The text that goes before the result of the tool. *)
Definition using_text (processedRequest : ProcessedRequest) : string :=
  "Using " +:+ pr_toolName processedRequest +:+ ":" +:+ Js.nl +:+ Js.nl +:+
  pr_explanation processedRequest +:+ Js.nl +:+ Js.nl +:+ "---" +:+ Js.nl +:+ Js.nl.

(** The handler of the tool [process-request], for a call of [hybridMatch]
    that is any computation.  Under a name inherited from
    [Object.prototype] the lookup finds a value that is no executor, and the
    outcome is the one the runtime gives. *)
Definition process_request_with (matching : M EnhancedMatchResult) (fuel : nat)
    (request : string) (config : ResearchConfig) : M CallToolResult :=
  result <- process_match matching ;;
  match content result with
  | TextContent text :: _ =>
      processedRequest <-
        match parse_request text with
        | Some parsed => ret parsed
        | None => throw (Error "SyntaxError" "Unexpected token in JSON")
        end ;;
      if pr_requiresConfirmation processedRequest then
        ret {| content := [TextContent (confirmation_text processedRequest)];
               isError := None |}
      else
        match lookup_executor (tool_executors fuel request config)
                (pr_toolName processedRequest) with
        | Inherited =>
            lift (inherited_call (pr_toolName processedRequest)
                    (pr_parameters processedRequest))
        | _ =>
            toolResult <-
              executeProcessedRequest processedRequest
                (fun name => tool_executors fuel request config !! name) ;;
            ret {| content :=
                     TextContent (using_text processedRequest) :: content toolResult;
                   isError := isError toolResult |}
        end
  | _ =>
      ret {| content :=
               [TextContent "Error: Failed to process request - invalid response format"];
             isError := Some true |}
  end.

(** The handler as the server registers it. *)
Definition process_request_tool (fuel : nat) (request : string)
    (config : ResearchConfig) : M CallToolResult :=
  process_request_with (hybridMatch fuel request (openRouter config))
    fuel request config.

End ProcessRequest.

(* ===================================================================== *)
(** ** Fixtures for the generators and the server tool *)
(* ===================================================================== *)

Module Fixtures.

(** The value a run has returned, or [fallback]. *)
Definition returned {A} (fallback : A) (run : Outcome A * Trace) : A :=
  match fst run with
  | Return a => a
  | _ => fallback
  end.

Definition no_result : CallToolResult := {| content := []; isError := None |}.

(** A disk that takes everything. *)
Definition disk : System :=
  {| cwd := "/srv/app";
     path_join := Js.join "/";
     ensureDir := fun _ => None;
     writeFile := fun _ _ => None;
     now_iso := "2025-01-02T03:04:05.678Z";
     now_locale := "1/2/2025, 3:04:05 AM" |}.

(** A disk on which no directory can be made. *)
Definition locked_disk : System :=
  {| cwd := "/srv/app";
     path_join := Js.join "/";
     ensureDir := fun _ => Some (Error "Error" "EACCES: permission denied");
     writeFile := fun _ _ => None;
     now_iso := "2025-01-02T03:04:05.678Z";
     now_locale := "1/2/2025, 3:04:05 AM" |}.

Definition text_result (text : string) : CallToolResult :=
  {| content := [TextContent text]; isError := None |}.

Definition tools : Tools :=
  {| generateFullstackStarterKit := fun input _ => ret (text_result (use_case input));
     performResearch := fun query _ => ret (text_result query);
     generateUserStories := fun description _ => ret (text_result description) |}.

(** Builtins whose [JSON.parse] reads back the text of the one processed
    request [p]. *)
Definition reading (p : ProcessedRequest) : Builtins :=
  {| Math_round := MoreSamples.round;
     stringify_request := MoreSamples.request_text;
     parse_request := fun text =>
       if String.eqb text (MoreSamples.request_text p) then Some p else None;
     axios_message := fun _ => "Network Error";
     axios_request_made := true;
     raw_content := fun _ _ => None;
     inherited_call := MoreSamples.no_result |}.



(** Numbers as texts: the three percentages, and what the other samples
    show. *)
Definition show_number (n : float) : string :=
  if PrimFloat.eqb n 20 then "20"
  else if PrimFloat.eqb n 50 then "50"
  else if PrimFloat.eqb n 90 then "90"
  else Samples.show_number n.

(** A runtime whose endpoint gives the scripted answers in order, and
    fails once the script is over. *)
Definition scripted (script : list HttpOutcome) : Runtime :=
  {| axios_post := fun n _ => nth n script Samples.network_failure;
     JSON_parse := Samples.parse_text;
     JSON_stringify := Samples.stringify;
     Number_toString := show_number |}.

(** A model that answers three research queries, then names a tool in one
    thought. *)
Definition researcher : Runtime :=
  scripted
    [Samples.answer "  findings  "; Samples.answer "more findings";
     Samples.answer "last findings";
     Samples.answer (Samples.thought_text "task-list-generator" "false" "1" "1")].

Definition server_config : ResearchConfig :=
  {| openRouter := Samples.config;
     perplexityModel := Some "perplexity/sonar-deep-research" |}.

Definition no_research_config : ResearchConfig :=
  {| openRouter := Samples.config; perplexityModel := None |}.

End Fixtures.

(* ===================================================================== *)
(** ** More fixtures: runs of the endpoint, results, environments *)
(* ===================================================================== *)

Module Runs.

(** An endpoint that is not reachable. *)
Definition offline : Runtime := Fixtures.scripted [].

(** An endpoint that answers with no choice at all. *)
Definition speechless : Runtime :=
  Fixtures.scripted [Resolved {| choices := Some [] |}].

(** An endpoint that fails with status 500. *)
Definition overloaded : Runtime := Fixtures.scripted [Samples.server_error].

(** An endpoint whose first answer is padded with spaces. *)
Definition padded : Runtime := Fixtures.scripted [Samples.answer "  findings  "].

(** An environment that sets the research model to the empty text. *)
Definition empty_model_env : gmap string string :=
  {[ "PERPLEXITY_MODEL" := EmptyString; "OPENROUTER_API_KEY" := "sk-test" ]}.

(** What the matcher gives when nothing matches and the endpoint is not
    reachable, as a processed request. *)
Definition default_request : ProcessedRequest :=
  processed_request (H := offline) (H1 := MoreSamples.builtins)
    (default_match "please help").


(** A model that asks twice for another thought, with an estimate of one
    thought in all, and answers in its third thought. *)
Definition answer_in_third_round : Runtime :=
  Samples.scripted
    [Samples.answer (Samples.thought_text "let me think" "true" "1" "1");
     Samples.answer (Samples.thought_text "let me think" "true" "2" "1");
     Samples.answer (Samples.thought_text "Tool: PRD-Generator" "false" "2" "3")].

Definition first_thought : SequentialThought :=
  {| thought := "let me think"; next_thought_needed := true;
     thought_number := 1; total_thoughts := 1 |}.

Definition second_thought : SequentialThought :=
  {| thought := "let me think"; next_thought_needed := true;
     thought_number := 2; total_thoughts := 1 |}.

Definition third_thought : SequentialThought :=
  {| thought := "Tool: PRD-Generator"; next_thought_needed := false;
     thought_number := 2; total_thoughts := 3 |}.

(** A call of the matcher that throws, as a matcher function may. *)
Definition broken_matcher : M EnhancedMatchResult :=
  throw (Error "TypeError" "Cannot read properties of undefined (reading 'length')").



(** A requirements document with a heading. *)
Definition prd_text : string :=
  "# Pet Shop" +:+ Js.nl +:+ Js.nl +:+ "## Introduction".

End Runs.

(* ===================================================================== *)
(** ** Numbers: what the comparisons give *)
(* ===================================================================== *)

Lemma compare_cont_swap (p q : positive) :
  PosDef.Pos.compare_cont Eq q p = CompOpp (PosDef.Pos.compare_cont Eq p q).
Proof.
  change (Pos.compare_cont Eq q p = CompOpp (Pos.compare_cont Eq p q)).
  rewrite Pos.compare_cont_antisym. reflexivity.
Qed.

Lemma SFcompare_swap (x y : spec_float) :
  SFcompare y x = option_map CompOpp (SFcompare x y).
Proof.
  destruct x as [sx|sx| |sx mx ex], y as [sy|sy| |sy my ey]; simpl;
    try reflexivity;
    try (destruct sx; reflexivity);
    try (destruct sy; reflexivity);
    try (destruct sx, sy; reflexivity).
  f_equal.
  destruct sx, sy; simpl; try reflexivity;
    rewrite (Z.compare_antisym ex ey), (compare_cont_swap mx my);
    destruct (ex ?= ey)%Z; simpl; try reflexivity.
  all: now rewrite ?CompOpp_involutive.
Qed.

Lemma SFcompare_defined (x y : spec_float) :
  x <> S754_nan -> y <> S754_nan -> exists c, SFcompare x y = Some c.
Proof.
  destruct x, y; simpl; try congruence; eauto.
Qed.

Lemma SFleb_not_nan (x y : spec_float) :
  SFleb x y = true -> x <> S754_nan /\ y <> S754_nan.
Proof.
  unfold SFleb. destruct x, y; simpl; try congruence; split; congruence.
Qed.

(** A number below [b] is not at least [b]. *)
Lemma lt_not_ge (a b : float) : Js.lt a b = true -> Js.ge a b = false.
Proof.
  unfold Js.lt, Js.ge. rewrite ltb_spec, leb_spec. unfold SFltb, SFleb.
  rewrite (SFcompare_swap (Prim2SF a) (Prim2SF b)).
  destruct (SFcompare (Prim2SF a) (Prim2SF b)) as [[]|]; simpl; congruence.
Qed.

(** [a >= t] shows that [a] is not NaN; then [a < b] fails only when
    [a >= b], for any [b] that is not NaN either. *)
Lemma not_lt_ge (t a b : float) :
  Js.ge a t = true -> Js.ge b b = true -> Js.lt a b = false -> Js.ge a b = true.
Proof.
  unfold Js.lt, Js.ge. rewrite ltb_spec, !leb_spec. intros Ha Hb.
  apply SFleb_not_nan in Ha as [_ Ha]. apply SFleb_not_nan in Hb as [_ Hb].
  unfold SFltb, SFleb.
  rewrite (SFcompare_swap (Prim2SF a) (Prim2SF b)).
  destruct (SFcompare_defined _ _ Ha Hb) as [c ->].
  destruct c; simpl; congruence.
Qed.

(* ===================================================================== *)
(** ** Traces *)
(* ===================================================================== *)

Lemma count_posts_app (t u : Trace) :
  count_posts (t ++ u) = count_posts t + count_posts u.
Proof.
  unfold count_posts. rewrite List.filter_app, List.length_app. reflexivity.
Qed.

Lemma count_posts_posts (reqs : list LLMRequest) :
  count_posts (map Ev_post reqs) = length reqs.
Proof.
  induction reqs as [|r reqs IH]; [reflexivity|].
  unfold count_posts in *. simpl. now rewrite IH.
Qed.

Lemma count_posts_post (t : Trace) (req : LLMRequest) :
  count_posts (t ++ [Ev_post req]) = S (count_posts t).
Proof.
  rewrite count_posts_app. unfold count_posts at 2. simpl. lia.
Qed.

(* ===================================================================== *)
(** ** The reasoning engine *)
(* ===================================================================== *)

(** The validation returns a thought or throws. *)
Lemma validate_thought_answers (v : json) : validate_thought v <> OutOfFuel.
Proof.
  destruct v as [| | | | |fields]; simpl; try discriminate.
  repeat match goal with
         | |- context [match ?x with _ => _ end] => destruct x
         end; discriminate.
Qed.

Section EngineFacts.
Context `{Runtime}.

(** One call of [getNextThought] makes one call of [axios.post], and its
    outcome is a function of what that call gives. *)
Lemma getNextThought_run (prompt systemPrompt : string)
    (config : OpenRouterConfig) (t : Trace) :
  let req := completion_request prompt systemPrompt config in
  getNextThought prompt systemPrompt config t =
    (round_of (axios_post (count_posts t) req), t ++ [Ev_post req]).
Proof.
  intros req. unfold getNextThought, try_catch, bind, post. fold req.
  destruct (axios_post (count_posts t) req) as [body|e]; simpl; [|reflexivity].
  destruct (choices body) as [[|first rest]|]; simpl; try reflexivity.
  destruct (message_content first) as [content|]; simpl; [|reflexivity].
  unfold thought_of_content, lift, parse.
  destruct (JSON_parse content) as [v|]; simpl; [|reflexivity].
  destruct (validate_thought v) eqn:Hv; try reflexivity.
  now apply validate_thought_answers in Hv.
Qed.

Lemma round_of_answers (o : HttpOutcome) : round_of o <> OutOfFuel.
Proof.
  destruct o as [body|e]; simpl; [|discriminate].
  destruct (choices body) as [[|first rest]|]; try discriminate.
  destruct (message_content first); discriminate.
Qed.

Lemma thinking_loop_stop (fuel : nat) (userPrompt sp : string)
    (config : OpenRouterConfig) (thoughts : list SequentialThought)
    (cur : SequentialThought) (t : Trace) :
  next_thought_needed cur = false ->
  thinking_loop fuel userPrompt sp config thoughts cur t = (Return (thoughts, cur), t).
Proof.
  intros Hcur. destruct fuel; simpl; rewrite Hcur; reflexivity.
Qed.

(** One turn of the loop: the call is made, and the loop goes on with the
    thought it gave, or the error leaves the loop. *)
Lemma thinking_loop_round (fuel : nat) (userPrompt sp : string)
    (config : OpenRouterConfig) (thoughts : list SequentialThought)
    (cur : SequentialThought) (t : Trace) :
  next_thought_needed cur = true ->
  let req := completion_request (round_prompt thoughts userPrompt) sp config in
  thinking_loop (S fuel) userPrompt sp config thoughts cur t =
    match round_of (axios_post (count_posts t) req) with
    | Return next =>
        thinking_loop fuel userPrompt sp config (thoughts ++ [next]) next
          (t ++ [Ev_post req])
    | Throw e => (Throw e, t ++ [Ev_post req])
    | OutOfFuel => (OutOfFuel, t ++ [Ev_post req])
    end.
Proof.
  intros Hcur req. simpl. rewrite Hcur. unfold bind.
  rewrite getNextThought_run. fold req.
  destruct (round_of (axios_post (count_posts t) req)); reflexivity.
Qed.

(** What a run of the loop that returns has done. *)
Lemma thinking_loop_returns (fuel : nat) (userPrompt sp : string)
    (config : OpenRouterConfig) :
  forall (thoughts : list SequentialThought) (cur : SequentialThought)
         (t : Trace) (history : list SequentialThought)
         (final : SequentialThought) (t' : Trace),
    thinking_loop fuel userPrompt sp config thoughts cur t =
      (Return (history, final), t') ->
    exists reqs new,
      t' = t ++ map Ev_post reqs /\
      history = thoughts ++ new /\
      rounds_from (count_posts t) reqs new /\
      next_thought_needed final = false /\
      (next_thought_needed cur = false -> new = [] /\ final = cur) /\
      (next_thought_needed cur = true ->
       exists earlier, new = earlier ++ [final] /\
         Forall (fun th => next_thought_needed th = true) earlier).
Proof.
  induction fuel as [|fuel IH]; intros thoughts cur t history final t' Hrun.
  - simpl in Hrun. destruct (next_thought_needed cur) eqn:Hcur; [discriminate|].
    injection Hrun as <- <- <-. exists [], []. simpl.
    rewrite !app_nil_r. repeat split; try constructor; try congruence.
  - destruct (next_thought_needed cur) eqn:Hcur.
    + rewrite thinking_loop_round in Hrun by exact Hcur.
      set (req := completion_request (round_prompt thoughts userPrompt) sp config) in *.
      destruct (round_of (axios_post (count_posts t) req)) as [next| |] eqn:Hround;
        try discriminate.
      destruct (IH _ _ _ _ _ _ Hrun) as (reqs & new & Ht' & Hh & Hr & Hf & Hstop & Hgo).
      exists (req :: reqs), (next :: new). simpl.
      rewrite count_posts_post in Hr.
      rewrite <- !app_assoc in *. simpl in *.
      repeat split; try assumption; try congruence.
      * now constructor.
      * intros _. destruct (next_thought_needed next) eqn:Hnext.
        -- destruct (Hgo eq_refl) as (earlier & -> & Hall).
           exists (next :: earlier). split; [reflexivity|]. now constructor.
        -- destruct (Hstop eq_refl) as [-> ->]. exists []. split; [reflexivity|constructor].
    + rewrite thinking_loop_stop in Hrun by exact Hcur.
      injection Hrun as <- <- <-. exists [], []. simpl.
      rewrite !app_nil_r. repeat split; try constructor; try congruence.
Qed.

Lemma rounds_from_length (n : nat) (reqs : list LLMRequest)
    (ts : list SequentialThought) :
  rounds_from n reqs ts -> length reqs = length ts.
Proof.
  induction 1; simpl; congruence.
Qed.

(** [processWithSequentialThinking] returns the text of the current thought
    the loop ends with, and lets through what leaves the loop otherwise. *)
Lemma process_of_session (fuel : nat) (userPrompt : string)
    (config : OpenRouterConfig) (systemPrompt : option string) (t : Trace) :
  processWithSequentialThinking fuel userPrompt config systemPrompt t =
    match thinking_session fuel userPrompt config systemPrompt t with
    | (Return final, t') => (Return (thought (snd final)), t')
    | (Throw e, t') => (Throw e, t')
    | (OutOfFuel, t') => (OutOfFuel, t')
    end.
Proof.
  unfold processWithSequentialThinking, bind.
  destruct (thinking_session fuel userPrompt config systemPrompt t) as [[final|e|] t'];
    reflexivity.
Qed.

(** A model that always asks for one more thought keeps the loop going for
    as long as there is fuel. *)
Lemma thinking_loop_goes_on (userPrompt sp : string) (config : OpenRouterConfig) :
  (forall n req, exists next,
      round_of (axios_post n req) = Return next /\ next_thought_needed next = true) ->
  forall (fuel : nat) (thoughts : list SequentialThought) (cur : SequentialThought)
         (t : Trace),
    next_thought_needed cur = true ->
    exists t',
      thinking_loop fuel userPrompt sp config thoughts cur t = (OutOfFuel, t') /\
      count_posts t' = count_posts t + fuel.
Proof.
  intros Hmodel. induction fuel as [|fuel IH]; intros thoughts cur t Hcur.
  - simpl. rewrite Hcur. exists t. split; [reflexivity|lia].
  - rewrite thinking_loop_round by exact Hcur.
    destruct (Hmodel (count_posts t)
                (completion_request (round_prompt thoughts userPrompt) sp config))
      as (next & -> & Hnext).
    destruct (IH (thoughts ++ [next]) next
                 (t ++ [Ev_post (completion_request (round_prompt thoughts userPrompt)
                                   sp config)]) Hnext) as (t' & -> & Hcount).
    exists t'. split; [reflexivity|]. rewrite Hcount, count_posts_post. lia.
Qed.

(** Rounds that all ask for another thought, and then one that does not:
    the loop makes these calls and returns with the last of them. *)
Lemma thinking_loop_finishes (userPrompt sp : string) (config : OpenRouterConfig)
    (final : SequentialThought) :
  next_thought_needed final = false ->
  forall (earlier thoughts : list SequentialThought) (cur : SequentialThought)
         (t : Trace) (fuel : nat),
    next_thought_needed cur = true ->
    Forall (fun th => next_thought_needed th = true) earlier ->
    rounds_from (count_posts t)
      (loop_requests userPrompt sp config thoughts (earlier ++ [final]))
      (earlier ++ [final]) ->
    length earlier < fuel ->
    thinking_loop fuel userPrompt sp config thoughts cur t =
      (Return (thoughts ++ earlier ++ [final], final),
       t ++ map Ev_post
              (loop_requests userPrompt sp config thoughts (earlier ++ [final]))).
Proof.
  intros Hfinal.
  induction earlier as [|next later IH]; intros thoughts cur t fuel Hcur Hall Hrounds Hfuel;
    (destruct fuel as [|fuel]; [simpl in Hfuel; lia|]);
    rewrite thinking_loop_round by exact Hcur;
    inversion Hrounds as [|n req reqs th ths Hround Hrest]; subst;
    rewrite Hround.
  - now rewrite thinking_loop_stop.
  - inversion Hall as [|th ths Hnext Hlater]; subst.
    rewrite (IH _ _ _ fuel Hnext Hlater); [|now rewrite count_posts_post|simpl in Hfuel; lia].
    simpl. now rewrite <- !app_assoc.
Qed.

(** Rounds that all ask for another thought: the loop makes these calls
    and is not done. *)
Lemma thinking_loop_still_running (userPrompt sp : string)
    (config : OpenRouterConfig) :
  forall (new thoughts : list SequentialThought) (cur : SequentialThought)
         (t : Trace),
    next_thought_needed cur = true ->
    Forall (fun th => next_thought_needed th = true) new ->
    rounds_from (count_posts t) (loop_requests userPrompt sp config thoughts new) new ->
    thinking_loop (length new) userPrompt sp config thoughts cur t =
      (OutOfFuel, t ++ map Ev_post (loop_requests userPrompt sp config thoughts new)).
Proof.
  induction new as [|next later IH]; intros thoughts cur t Hcur Hall Hrounds.
  - simpl. rewrite Hcur, app_nil_r. reflexivity.
  - cbn [length]. rewrite thinking_loop_round by exact Hcur.
    inversion Hrounds as [|n req reqs th ths Hround Hrest]; subst.
    inversion Hall as [|th ths Hnext Hlater]; subst.
    rewrite Hround, (IH _ _ _ Hnext Hlater) by now rewrite count_posts_post.
    simpl. now rewrite <- !app_assoc.
Qed.

(** Rounds that all ask for another thought, and then a call whose round
    throws: the loop makes these calls and the error leaves it. *)
Lemma thinking_loop_fails (userPrompt sp : string) (config : OpenRouterConfig)
    (e : JsError) :
  forall (earlier thoughts : list SequentialThought) (cur : SequentialThought)
         (t : Trace) (fuel : nat),
    next_thought_needed cur = true ->
    Forall (fun th => next_thought_needed th = true) earlier ->
    rounds_from (count_posts t) (loop_requests userPrompt sp config thoughts earlier)
      earlier ->
    round_of (axios_post (count_posts t + length earlier)
                (completion_request (round_prompt (thoughts ++ earlier) userPrompt)
                   sp config)) = Throw e ->
    length earlier < fuel ->
    thinking_loop fuel userPrompt sp config thoughts cur t =
      (Throw e,
       (t ++ map Ev_post (loop_requests userPrompt sp config thoughts earlier)) ++
       [Ev_post (completion_request (round_prompt (thoughts ++ earlier) userPrompt)
                   sp config)]).
Proof.
  induction earlier as [|next later IH];
    intros thoughts cur t fuel Hcur Hall Hrounds Hfail Hfuel;
    (destruct fuel as [|fuel]; [simpl in Hfuel; lia|]);
    rewrite thinking_loop_round by exact Hcur.
  - rewrite app_nil_r, Nat.add_0_r in Hfail. rewrite Hfail.
    simpl. now rewrite !app_nil_r.
  - inversion Hrounds as [|n req0 reqs th ths Hround Hrest]; subst.
    inversion Hall as [|th ths Hnext Hlater]; subst.
    rewrite Hround.
    rewrite (IH (thoughts ++ [next]) next _ fuel Hnext Hlater).
    + simpl. now rewrite <- !app_assoc.
    + now rewrite count_posts_post.
    + rewrite count_posts_post, <- app_assoc. simpl.
      replace (S (count_posts t + length later))
        with (count_posts t + length (next :: later)) by (simpl; lia).
      exact Hfail.
    + simpl in Hfuel. lia.
Qed.

Lemma validate_thought_refuses (v : json) :
  ~ has_required_fields v -> exists e, validate_thought v = Throw e.
Proof.
  intros Hv. destruct v as [| | | | |fields]; simpl; eauto.
  destruct (get_field "thought" fields) as [[| | |th| |]|] eqn:H1; eauto.
  destruct (get_field "next_thought_needed" fields) as [[|b| | | |]|] eqn:H2; eauto.
  destruct (get_field "thought_number" fields) as [[| |n| | |]|] eqn:H3; eauto.
  destruct (get_field "total_thoughts" fields) as [[| |k| | |]|] eqn:H4; eauto.
  exfalso. apply Hv. exists fields, th, b, n, k. auto.
Qed.

Lemma thought_of_malformed (content : string) :
  malformed content -> thought_of_content content = fallback_thought content.
Proof.
  unfold malformed, thought_of_content, parse.
  destruct (JSON_parse content) as [v|]; [|reflexivity].
  intros Hv. destruct (validate_thought_refuses v Hv) as [e ->]. reflexivity.
Qed.

End EngineFacts.

(* ===================================================================== *)
(** ** The reasoning engine: termination, malformed answers, failures *)
(* ===================================================================== *)

Section EngineClaims.
Context `{Runtime}.

(** C2.  The loop of [processWithSequentialThinking] goes on exactly while
    the current thought asks for another one; [total_thoughts] plays no part
    in stopping it.
    (1) For every sequence of answers: when the rounds all ask for another
        thought but the last, which does not, the run makes exactly these
        calls, one per round, each with the history as it stands, and
        returns the text of that last round, whatever the numbers
        [thought_number] and [total_thoughts] of the rounds are.
    (2) When the rounds made so far all ask for another thought, the run
        has made one call for each and has not returned.
    (3) When the first answer does not ask for another thought, the run
        makes exactly one model call and returns the text of that round.
    (4) Conversely, a run that returns made one model call per round, every
        round but the last asked for another thought, the last did not, and
        the value returned is the text of that last appended round.
    (5) When every answer asks for another thought, the run never returns:
        it makes as many calls as it has fuel. *)
Theorem loop_runs_while_thought_needed (userPrompt : string)
    (config : OpenRouterConfig) (systemPrompt : option string) (t : Trace) :
  (forall fuel earlier final,
      let rounds := earlier ++ [final] in
      let reqs :=
        loop_requests userPrompt (full_system_prompt systemPrompt) config [] rounds in
      Forall (fun th => next_thought_needed th = true) earlier ->
      next_thought_needed final = false ->
      rounds_from (count_posts t) reqs rounds ->
      length earlier < fuel ->
      processWithSequentialThinking fuel userPrompt config systemPrompt t =
        (Return (thought final), t ++ map Ev_post reqs) /\
      thinking_session fuel userPrompt config systemPrompt t =
        (Return (rounds, final), t ++ map Ev_post reqs) /\
      length reqs = length rounds) /\
  (forall rounds,
      let reqs :=
        loop_requests userPrompt (full_system_prompt systemPrompt) config [] rounds in
      Forall (fun th => next_thought_needed th = true) rounds ->
      rounds_from (count_posts t) reqs rounds ->
      processWithSequentialThinking (length rounds) userPrompt config systemPrompt t =
        (OutOfFuel, t ++ map Ev_post reqs)) /\
  (forall fuel first,
      let req := completion_request (round_prompt [] userPrompt)
                   (full_system_prompt systemPrompt) config in
      round_of (axios_post (count_posts t) req) = Return first ->
      next_thought_needed first = false ->
      processWithSequentialThinking (S fuel) userPrompt config systemPrompt t =
        (Return (thought first), t ++ [Ev_post req])) /\
  (forall fuel s t',
      processWithSequentialThinking fuel userPrompt config systemPrompt t =
        (Return s, t') ->
      exists earlier final reqs,
        thinking_session fuel userPrompt config systemPrompt t =
          (Return (earlier ++ [final], final), t') /\
        t' = t ++ map Ev_post reqs /\
        length reqs = length (earlier ++ [final]) /\
        Forall (fun th => next_thought_needed th = true) earlier /\
        next_thought_needed final = false /\
        s = thought final) /\
  ((forall n req, exists next,
       round_of (axios_post n req) = Return next /\
       next_thought_needed next = true) ->
   forall fuel, exists t',
       processWithSequentialThinking fuel userPrompt config systemPrompt t =
         (OutOfFuel, t') /\
       count_posts t' = count_posts t + fuel).
Proof.
  split; [|split; [|split; [|split]]].
  - intros fuel earlier final rounds reqs Hall Hfinal Hrounds Hfuel.
    assert (Hsession :
      thinking_session fuel userPrompt config systemPrompt t =
        (Return (rounds, final), t ++ map Ev_post reqs)).
    { unfold thinking_session.
      now rewrite (thinking_loop_finishes userPrompt _ config final Hfinal
                     earlier [] initial_thought t fuel eq_refl Hall Hrounds Hfuel). }
    split; [|split].
    + now rewrite process_of_session, Hsession.
    + exact Hsession.
    + now apply rounds_from_length in Hrounds.
  - intros rounds reqs Hall Hrounds. rewrite process_of_session.
    unfold thinking_session.
    now rewrite (thinking_loop_still_running userPrompt _ config rounds []
                   initial_thought t eq_refl Hall Hrounds).
  - intros fuel first req Hfirst Hdone.
    rewrite process_of_session. unfold thinking_session.
    rewrite thinking_loop_round by reflexivity. fold req. rewrite Hfirst.
    rewrite thinking_loop_stop by exact Hdone. reflexivity.
  - intros fuel s t' Hrun. rewrite process_of_session in Hrun.
    destruct (thinking_session fuel userPrompt config systemPrompt t)
      as [[[history final]| |] t1] eqn:Hsession; try discriminate.
    injection Hrun as <- <-. unfold thinking_session in Hsession.
    destruct (thinking_loop_returns _ _ _ _ _ _ _ _ _ _ Hsession)
      as (reqs & new & Ht1 & Hh & Hr & Hf & _ & Hgo).
    destruct (Hgo eq_refl) as (earlier & Hnew & Hall).
    simpl in Hh. subst new history.
    exists earlier, final, reqs. unfold thinking_session.
    repeat split; try assumption. now apply rounds_from_length in Hr.
  - intros Hmodel fuel. rewrite process_of_session. unfold thinking_session.
    destruct (thinking_loop_goes_on userPrompt (full_system_prompt systemPrompt)
                config Hmodel fuel [] initial_thought t eq_refl) as (t' & -> & Hc).
    exists t'. split; [reflexivity|exact Hc].
Qed.

(** C3.  A content that is not parseable JSON, or lacks a required field,
    makes [getNextThought] return, without throwing, a thought whose text is
    the content as it came and that asks for no other thought; the loop ends
    in that round, and [processWithSequentialThinking] returns the content. *)
Theorem malformed_answer_ends_the_session (content : string) :
  malformed content ->
  (forall prompt sp config t,
      let req := completion_request prompt sp config in
      answers_with (axios_post (count_posts t) req) content ->
      getNextThought prompt sp config t =
        (Return {| thought := content; next_thought_needed := false;
                   thought_number := 1; total_thoughts := 1 |},
         t ++ [Ev_post req])) /\
  (forall fuel userPrompt sp config thoughts cur t,
      let req := completion_request (round_prompt thoughts userPrompt) sp config in
      next_thought_needed cur = true ->
      answers_with (axios_post (count_posts t) req) content ->
      thinking_loop (S fuel) userPrompt sp config thoughts cur t =
        (Return (thoughts ++ [fallback_thought content], fallback_thought content),
         t ++ [Ev_post req])) /\
  (forall fuel userPrompt config systemPrompt t,
      let req := completion_request (round_prompt [] userPrompt)
                   (full_system_prompt systemPrompt) config in
      answers_with (axios_post (count_posts t) req) content ->
      processWithSequentialThinking (S fuel) userPrompt config systemPrompt t =
        (Return content, t ++ [Ev_post req])).
Proof.
  intros Hbad.
  assert (Hround : forall o, answers_with o content ->
                             round_of o = Return (fallback_thought content)).
  { intros o [rest ->]. simpl. now rewrite thought_of_malformed. }
  split; [|split].
  - intros prompt sp config t req Hanswer.
    rewrite getNextThought_run. fold req. now rewrite (Hround _ Hanswer).
  - intros fuel userPrompt sp config thoughts cur t req Hcur Hanswer.
    rewrite thinking_loop_round by exact Hcur. fold req.
    rewrite (Hround _ Hanswer). now rewrite thinking_loop_stop.
  - intros fuel userPrompt config systemPrompt t req Hanswer.
    rewrite process_of_session. unfold thinking_session.
    rewrite thinking_loop_round by reflexivity. fold req.
    rewrite (Hround _ Hanswer). now rewrite thinking_loop_stop.
Qed.

(** C8.  When the call of the completion endpoint fails with an
    [AxiosError] (no answer from the network, or a status outside 2xx),
    [getNextThought] throws after that one call, without another attempt; the
    message of the error has the status and the body of the response when
    there is one, and [undefined] and the empty object when there is none.
    The error leaves the loop in the round it occurs in, and it leaves
    [processWithSequentialThinking]: whatever rounds went before, the run
    ends with that error, and the failed call is the last call it made. *)
Theorem transport_failure_reaches_the_caller (response : option AxiosResponse) :
  (forall prompt sp config t,
      let req := completion_request prompt sp config in
      axios_post (count_posts t) req = Rejected (AxiosError response) ->
      getNextThought prompt sp config t =
        (Throw (Error "Error" (api_error_message response)), t ++ [Ev_post req])) /\
  (forall st body,
      response = Some {| status := st; data := body |} ->
      json_truthy body = true ->
      api_error_message response =
        "API error: " +:+ Number_toString st +:+ " - " +:+ JSON_stringify body) /\
  (response = None ->
   api_error_message response =
     "API error: undefined - " +:+ JSON_stringify (JObject [])) /\
  (forall fuel userPrompt sp config thoughts cur t,
      let req := completion_request (round_prompt thoughts userPrompt) sp config in
      next_thought_needed cur = true ->
      axios_post (count_posts t) req = Rejected (AxiosError response) ->
      thinking_loop (S fuel) userPrompt sp config thoughts cur t =
        (Throw (Error "Error" (api_error_message response)), t ++ [Ev_post req])) /\
  (forall fuel userPrompt config systemPrompt t,
      let req := completion_request (round_prompt [] userPrompt)
                   (full_system_prompt systemPrompt) config in
      axios_post (count_posts t) req = Rejected (AxiosError response) ->
      processWithSequentialThinking (S fuel) userPrompt config systemPrompt t =
        (Throw (Error "Error" (api_error_message response)), t ++ [Ev_post req])) /\
  (forall fuel userPrompt config systemPrompt t earlier,
      let sp := full_system_prompt systemPrompt in
      let req := completion_request (round_prompt earlier userPrompt) sp config in
      Forall (fun th => next_thought_needed th = true) earlier ->
      rounds_from (count_posts t) (loop_requests userPrompt sp config [] earlier)
        earlier ->
      axios_post (count_posts t + length earlier) req =
        Rejected (AxiosError response) ->
      length earlier < fuel ->
      processWithSequentialThinking fuel userPrompt config systemPrompt t =
        (Throw (Error "Error" (api_error_message response)),
         (t ++ map Ev_post (loop_requests userPrompt sp config [] earlier)) ++
         [Ev_post req])) /\
  (forall fuel userPrompt config systemPrompt t e t',
      thinking_session fuel userPrompt config systemPrompt t = (Throw e, t') ->
      processWithSequentialThinking fuel userPrompt config systemPrompt t =
        (Throw e, t')).
Proof.
  split; [|split; [|split; [|split; [|split; [|split]]]]].
  - intros prompt sp config t req Hfail.
    rewrite getNextThought_run. fold req. now rewrite Hfail.
  - intros st body -> Hbody. unfold api_error_message. simpl. now rewrite Hbody.
  - intros ->. reflexivity.
  - intros fuel userPrompt sp config thoughts cur t req Hcur Hfail.
    rewrite thinking_loop_round by exact Hcur. fold req. now rewrite Hfail.
  - intros fuel userPrompt config systemPrompt t req Hfail.
    rewrite process_of_session. unfold thinking_session.
    rewrite thinking_loop_round by reflexivity. fold req. now rewrite Hfail.
  - intros fuel userPrompt config systemPrompt t earlier sp req Hall Hrounds Hfail Hfuel.
    rewrite process_of_session. unfold thinking_session. fold sp.
    rewrite (thinking_loop_fails userPrompt sp config
               (Error "Error" (api_error_message response))
               earlier [] initial_thought t fuel eq_refl Hall Hrounds);
      [reflexivity| |exact Hfuel].
    cbn [app]. fold req. now rewrite Hfail.
  - intros fuel userPrompt config systemPrompt t e t' Hsession.
    rewrite process_of_session. now rewrite Hsession.
Qed.


End EngineClaims.

(* ===================================================================== *)
(** ** Reading the tool name *)
(* ===================================================================== *)

Lemma after_label_eq (s : string) :
  Js.after_label s =
    match Js.strip_prefix ": " s with
    | Some rest => Some rest
    | None =>
        match s with
        | EmptyString => None
        | String c r => if Js.is_line_terminator c then None else Js.after_label r
        end
    end.
Proof. destruct s; reflexivity. Qed.

Lemma after_first_colon_space_eq (s : string) :
  after_first_colon_space s =
    match Js.strip_prefix ": " s with
    | Some rest => Some rest
    | None =>
        match s with
        | EmptyString => None
        | String _ r => after_first_colon_space r
        end
    end.
Proof. destruct s; reflexivity. Qed.

Lemma terminator_before_label_eq (s : string) :
  terminator_before_label s =
    match Js.strip_prefix ": " s with
    | Some _ => false
    | None =>
        match s with
        | EmptyString => false
        | String c r => Js.is_line_terminator c || terminator_before_label r
        end
    end.
Proof. destruct s; reflexivity. Qed.

(** The regular expression finds the first colon-and-space unless a line
    terminator stands before it. *)
Lemma after_label_spec (s : string) :
  Js.after_label s =
    if terminator_before_label s then None else after_first_colon_space s.
Proof.
  induction s as [|c r IH].
  - reflexivity.
  - rewrite after_label_eq, terminator_before_label_eq, after_first_colon_space_eq.
    destruct (Js.strip_prefix ": " (String c r)); [reflexivity|].
    destruct (Js.is_line_terminator c); [reflexivity|]. exact IH.
Qed.

Lemma strip_label_spec (line : string) :
  Js.strip_label line =
    if terminator_before_label line then line else spec_strip_label line.
Proof.
  unfold Js.strip_label, spec_strip_label. rewrite after_label_spec.
  destruct (terminator_before_label line); reflexivity.
Qed.

Lemma strip_prefix_starts_with (p s : string) :
  Js.starts_with p s = false -> Js.strip_prefix p s = None.
Proof.
  revert s. induction p as [|a p IH]; intros s; simpl; [discriminate|].
  destruct s as [|b s]; [reflexivity|].
  destruct (Ascii.eqb a b); [apply IH|reflexivity].
Qed.

Lemma after_label_none (s : string) :
  Js.includes s ": " = false -> Js.after_label s = None.
Proof.
  induction s as [|c r IH]; intros Hs.
  - reflexivity.
  - rewrite after_label_eq.
    change (Js.includes (String c r) ": ")
      with (Js.starts_with ": " (String c r) || Js.includes r ": ") in Hs.
    apply orb_false_iff in Hs as [Hhere Hrest].
    rewrite (strip_prefix_starts_with _ _ Hhere), (IH Hrest).
    destruct (Js.is_line_terminator c); reflexivity.
Qed.

(** A line without colon-and-space is the tool name as it stands. *)
Lemma strip_label_no_label (line : string) :
  Js.includes line ": " = false -> Js.strip_label line = line.
Proof.
  intros Hline. unfold Js.strip_label. now rewrite after_label_none.
Qed.

Lemma looks_like_tool_spec (toolName : string) :
  looks_like_tool toolName =
    Js.includes toolName "generator" || Js.includes toolName "manager".
Proof.
  unfold looks_like_tool. destruct toolName; reflexivity.
Qed.

Example candidate_of_plain_answer :
  candidate_tool_name "Task-List-Generator" = "task-list-generator".
Proof. reflexivity. Qed.

Example candidate_of_labelled_answer :
  candidate_tool_name
    ("  Tool: PRD-Generator" +:+ Js.nl +:+ "It writes requirements.  ") =
  "prd-generator".
Proof. reflexivity. Qed.

Example candidate_after_carriage_return :
  candidate_tool_name Samples.cr_answer = Samples.cr_answer /\
  spec_candidate_tool_name Samples.cr_answer = "prd-generator".
Proof. split; reflexivity. Qed.

(** The scenario of a healthy model that names [task-list-generator] in its
    first thought. *)
Example sequential_scenario :
  fst (hybridMatch
         (H := Samples.scripted
                 [Samples.answer
                    (Samples.thought_text "task-list-generator" "false" "1" "1")])
         (H0 := Samples.no_match) 1 "what should come first" Samples.config []) =
  Return {| em_toolName := "task-list-generator";
            em_confidence := 0.5;
            em_matchedPattern := Some "sequential_thinking";
            parameters := {[ "query" := "what should come first" ]};
            matchMethod := sequential;
            requiresConfirmation := true |}.
Proof. vm_compute. reflexivity. Qed.

(* ===================================================================== *)
(** ** The hybrid matcher: the stages *)
(* ===================================================================== *)

Lemma accepted_Some (threshold : float) (result : option MatchResult)
    (m : MatchResult) :
  accepted threshold result = Some m <->
  result = Some m /\ Js.ge (confidence m) threshold = true.
Proof.
  unfold accepted. destruct result as [m'|].
  - destruct (Js.ge (confidence m') threshold) eqn:Hge; split.
    + intros [= ->]. auto.
    + intros [[= ->] _]. reflexivity.
    + discriminate.
    + intros [[= ->] Hc]. congruence.
  - split; [discriminate|]. intros [? _]. discriminate.
Qed.

Lemma declines_accepted (threshold : float) (result : option MatchResult) :
  declines threshold result -> accepted threshold result = None.
Proof.
  intros [->|(m & -> & Hlt)]; [reflexivity|].
  unfold accepted. now rewrite (lt_not_ge _ _ Hlt).
Qed.

Section MatcherFacts.
Context `{Runtime} `{Services}.

Lemma hybridMatch_rule (fuel : nat) (request : string)
    (config : OpenRouterConfig) (t : Trace) (m : MatchResult) :
  accepted MEDIUM_CONFIDENCE (matchRequest request) = Some m ->
  hybridMatch fuel request config t =
    rule_stage request m (t ++ [Ev_matchRequest request]).
Proof.
  intros Hm. unfold hybridMatch, bind, call. now rewrite Hm.
Qed.

Lemma hybridMatch_intent (fuel : nat) (request : string)
    (config : OpenRouterConfig) (t : Trace) (i : MatchResult) :
  accepted MEDIUM_CONFIDENCE (matchRequest request) = None ->
  accepted LOW_CONFIDENCE (detectIntent request) = Some i ->
  hybridMatch fuel request config t =
    intent_stage request i
      ((t ++ [Ev_matchRequest request]) ++ [Ev_detectIntent request]).
Proof.
  intros Hm Hi. unfold hybridMatch, bind, call. now rewrite Hm, Hi.
Qed.

Lemma hybridMatch_sequential (fuel : nat) (request : string)
    (config : OpenRouterConfig) (t : Trace) :
  accepted MEDIUM_CONFIDENCE (matchRequest request) = None ->
  accepted LOW_CONFIDENCE (detectIntent request) = None ->
  hybridMatch fuel request config t =
    sequential_stage fuel request config
      ((t ++ [Ev_matchRequest request]) ++ [Ev_detectIntent request]).
Proof.
  intros Hm Hi. unfold hybridMatch, bind, call. now rewrite Hm, Hi.
Qed.

(** Step 3 by the outcome of the reasoning engine. *)
Lemma sequential_stage_run (fuel : nat) (request : string)
    (config : OpenRouterConfig) (t : Trace) :
  sequential_stage fuel request config t =
    match performSequentialThinking fuel request TOOL_QUESTION config t with
    | (Return sequentialResult, t') =>
        let toolName := candidate_tool_name sequentialResult in
        if looks_like_tool toolName
        then (Return {| em_toolName := toolName;
                        em_confidence := 0.5;
                        em_matchedPattern := Some "sequential_thinking";
                        parameters := extractContextParameters request;
                        matchMethod := sequential;
                        requiresConfirmation := true |},
              t' ++ [Ev_extractContextParameters request])
        else (Return (default_match request), t')
    | (Throw e, t') => (Return (default_match request), t')
    | (OutOfFuel, t') => (OutOfFuel, t')
    end.
Proof.
  unfold sequential_stage, sequential_attempt, try_catch, bind.
  destruct (performSequentialThinking fuel request TOOL_QUESTION config t)
    as [[sequentialResult|e|] t']; try reflexivity.
  destruct (looks_like_tool (candidate_tool_name sequentialResult)); reflexivity.
Qed.

Lemma rule_stage_run (request : string) (m : MatchResult) (t : Trace) :
  rule_stage request m t =
    (Return {| em_toolName := toolName m;
               em_confidence := confidence m;
               em_matchedPattern := matchedPattern m;
               parameters :=
                 match is_literal_pattern (matchedPattern m) with
                 | Some p => extractParameters request p
                 | None => ∅
                 end;
               matchMethod := rule;
               requiresConfirmation := Js.lt (confidence m) HIGH_CONFIDENCE |},
     t ++ match is_literal_pattern (matchedPattern m) with
          | Some p => [Ev_extractParameters request p]
          | None => []
          end).
Proof.
  unfold rule_stage, bind.
  destruct (is_literal_pattern (matchedPattern m)); simpl.
  - reflexivity.
  - unfold ret, lift. now rewrite app_nil_r.
Qed.

End MatcherFacts.

(* ===================================================================== *)
(** ** The hybrid matcher: what it returns *)
(* ===================================================================== *)

Section MatcherClaims.
Context `{Runtime} `{Services}.

(** C1.  When the rule matcher gives nothing or a confidence below 0.6, the
    intent detector gives nothing or a confidence below 0.4, and the call of
    the reasoning engine throws, [hybridMatch] returns, without throwing,
    the default match: [research-manager], confidence 0.2, pattern
    [fallback], confirmation required, and the whole request as the single
    parameter [query]. *)
Theorem fallback_when_every_stage_fails (fuel : nat) (request : string)
    (config : OpenRouterConfig) (t : Trace) (e : JsError) (t' : Trace) :
  declines 0.6 (matchRequest request) ->
  declines 0.4 (detectIntent request) ->
  performSequentialThinking fuel request TOOL_QUESTION config
    ((t ++ [Ev_matchRequest request]) ++ [Ev_detectIntent request]) = (Throw e, t') ->
  exists r,
    hybridMatch fuel request config t = (Return r, t') /\
    em_toolName r = "research-manager" /\
    em_confidence r = 0.2%float /\
    em_matchedPattern r = Some "fallback" /\
    requiresConfirmation r = true /\
    parameters r = {[ "query" := request ]} /\
    parameters r !! "query" = Some request /\
    size (parameters r) = 1.
Proof.
  intros Hrule Hintent Hthrow.
  exists (default_match request).
  rewrite hybridMatch_sequential
    by (apply declines_accepted; assumption).
  rewrite sequential_stage_run, Hthrow. simpl.
  repeat split; try reflexivity.
  all: first [apply lookup_singleton_eq | apply map_size_singleton].
Qed.

(** C4.  A match returned by [hybridMatch] requires confirmation whenever
    its method is [sequential] (the default match included) and whenever its
    confidence is below 0.8; confirmation is not required only for a rule or
    intent match of confidence at least 0.8. *)
Theorem confirmation_is_required_unless_confident (fuel : nat)
    (request : string) (config : OpenRouterConfig) (t : Trace)
    (r : EnhancedMatchResult) (t' : Trace) :
  hybridMatch fuel request config t = (Return r, t') ->
  (matchMethod r = sequential -> requiresConfirmation r = true) /\
  (Js.lt (em_confidence r) 0.8 = true -> requiresConfirmation r = true) /\
  (requiresConfirmation r = false ->
   (matchMethod r = rule \/ matchMethod r = intent) /\
   Js.ge (em_confidence r) 0.8 = true).
Proof.
  intros Hrun.
  destruct (accepted MEDIUM_CONFIDENCE (matchRequest request)) as [m|] eqn:Hm.
  - rewrite (hybridMatch_rule _ _ _ _ _ Hm), rule_stage_run in Hrun.
    apply accepted_Some in Hm as [_ Hm].
    injection Hrun as <- <-. simpl.
    split; [discriminate|]. split; [auto|]. intros Hno. split; [auto|].
    now apply (not_lt_ge MEDIUM_CONFIDENCE).
  - destruct (accepted LOW_CONFIDENCE (detectIntent request)) as [i|] eqn:Hi.
    + rewrite (hybridMatch_intent _ _ _ _ _ Hm Hi) in Hrun.
      apply accepted_Some in Hi as [_ Hi].
      unfold intent_stage, bind, call, ret, lift in Hrun.
      injection Hrun as <- <-. simpl.
      split; [discriminate|]. split; [auto|]. intros Hno. split; [auto|].
      now apply (not_lt_ge LOW_CONFIDENCE).
    + rewrite (hybridMatch_sequential _ _ _ _ Hm Hi), sequential_stage_run in Hrun.
      destruct (performSequentialThinking _ _ _ _ _) as [[s|e|] t1];
        try discriminate.
      * simpl in Hrun.
        destruct (looks_like_tool (candidate_tool_name s));
          injection Hrun as <- <-; simpl; repeat split; auto; discriminate.
      * injection Hrun as <- <-. simpl. repeat split; auto; discriminate.
Qed.


(** C6.  When the rule matcher gives a candidate of confidence at least
    0.6, [hybridMatch] returns that candidate with method [rule] and
    confirmation required exactly when the confidence is below 0.8.  The
    parameters are those extracted for the matched pattern when it is a
    literal pattern, and empty when the pattern is [description_match],
    missing or empty.  Besides the rule matcher, only the parameter
    extraction of a literal pattern is called: neither the intent detector
    nor the model. *)
Theorem rule_match_is_returned (fuel : nat) (request : string)
    (config : OpenRouterConfig) (t : Trace) (m : MatchResult) :
  matchRequest request = Some m ->
  Js.ge (confidence m) 0.6 = true ->
  exists params calls,
    hybridMatch fuel request config t =
      (Return {| em_toolName := toolName m;
                 em_confidence := confidence m;
                 em_matchedPattern := matchedPattern m;
                 parameters := params;
                 matchMethod := rule;
                 requiresConfirmation := Js.lt (confidence m) 0.8 |},
       (t ++ [Ev_matchRequest request]) ++ calls) /\
    (forall p, matchedPattern m = Some p ->
               p <> EmptyString -> p <> "description_match" ->
               params = extractParameters request p /\
               calls = [Ev_extractParameters request p]) /\
    (matchedPattern m = Some "description_match" \/
     matchedPattern m = None \/
     matchedPattern m = Some EmptyString ->
     params = ∅ /\ calls = []) /\
    (forall request', ~ In (Ev_detectIntent request') calls) /\
    (forall request', ~ In (Ev_extractContextParameters request') calls) /\
    count_posts ((t ++ [Ev_matchRequest request]) ++ calls) = count_posts t.
Proof.
  intros Hm Hconf.
  assert (Hacc : accepted MEDIUM_CONFIDENCE (matchRequest request) = Some m)
    by (apply accepted_Some; auto).
  rewrite (hybridMatch_rule _ _ _ _ _ Hacc), rule_stage_run.
  eexists _, _. split; [reflexivity|].
  split; [|split; [|split; [|split]]].
  - intros p Hp Hne Hnd. rewrite Hp. unfold is_literal_pattern.
    destruct p as [|c p]; [congruence|].
    change (Js.truthy (String c p)) with true.
    destruct (String.eqb_spec (String c p) "description_match") as [Heq|_];
      [contradiction|]. auto.
  - intros [-> | [-> | ->]]; auto.
  - intros request'.
    destruct (is_literal_pattern (matchedPattern m)); simpl; intuition congruence.
  - intros request'.
    destruct (is_literal_pattern (matchedPattern m)); simpl; intuition congruence.
  - rewrite !count_posts_app.
    destruct (is_literal_pattern (matchedPattern m)); unfold count_posts; simpl; lia.
Qed.

(** Step 3 when the engine has returned: the candidate is accepted when it
    contains [generator] or [manager], and the default match is returned
    otherwise. *)
Lemma sequential_stage_returned (fuel : nat) (request : string)
    (config : OpenRouterConfig) (t : Trace) (s : string) (t' : Trace) :
  performSequentialThinking fuel request TOOL_QUESTION config t = (Return s, t') ->
  let token := candidate_tool_name s in
  (Js.includes token "generator" = true \/ Js.includes token "manager" = true ->
   sequential_stage fuel request config t =
     (Return {| em_toolName := token;
                em_confidence := 0.5;
                em_matchedPattern := Some "sequential_thinking";
                parameters := extractContextParameters request;
                matchMethod := sequential;
                requiresConfirmation := true |},
      t' ++ [Ev_extractContextParameters request])) /\
  (Js.includes token "generator" = false /\ Js.includes token "manager" = false ->
   sequential_stage fuel request config t = (Return (default_match request), t')).
Proof.
  intros Hrun token. rewrite sequential_stage_run, Hrun. simpl. fold token.
  rewrite looks_like_tool_spec. split.
  - intros Hin. apply orb_true_iff in Hin. now rewrite Hin.
  - intros [-> ->]. reflexivity.
Qed.

(** C7, as amended.  In the sequential stage the candidate tool name is the
    first line of the lowercased, trimmed answer of the engine, without the
    text up to its first colon-and-space; when a line terminator (a carriage
    return) stands before that colon, the line is kept whole.  The candidate
    is accepted only if it contains [generator] or [manager]; the match then
    has the candidate as tool name, confidence 0.5, pattern
    [sequential_thinking], confirmation required and the parameters of the
    context extraction. *)
Theorem sequential_match_from_first_line (fuel : nat) (request : string)
    (config : OpenRouterConfig) (t : Trace) (s : string) (t' : Trace) :
  accepted MEDIUM_CONFIDENCE (matchRequest request) = None ->
  accepted LOW_CONFIDENCE (detectIntent request) = None ->
  performSequentialThinking fuel request TOOL_QUESTION config
    ((t ++ [Ev_matchRequest request]) ++ [Ev_detectIntent request]) = (Return s, t') ->
  let line := Js.first_line (Js.trim (Js.toLowerCase s)) in
  let token := if terminator_before_label line then line else spec_strip_label line in
  candidate_tool_name s = token /\
  (Js.includes token "generator" = true \/ Js.includes token "manager" = true ->
   hybridMatch fuel request config t =
     (Return {| em_toolName := token;
                em_confidence := 0.5;
                em_matchedPattern := Some "sequential_thinking";
                parameters := extractContextParameters request;
                matchMethod := sequential;
                requiresConfirmation := true |},
      t' ++ [Ev_extractContextParameters request])) /\
  (Js.includes token "generator" = false /\ Js.includes token "manager" = false ->
   hybridMatch fuel request config t = (Return (default_match request), t')).
Proof.
  intros Hm Hi Hrun line token.
  assert (Htoken : candidate_tool_name s = token)
    by (unfold candidate_tool_name; apply strip_label_spec).
  rewrite (hybridMatch_sequential _ _ _ _ Hm Hi).
  destruct (sequential_stage_returned _ _ _ _ _ _ Hrun) as [Hyes Hno].
  rewrite Htoken in Hyes, Hno. auto.
Qed.

End MatcherClaims.

(* ===================================================================== *)
(** ** The tool name of a sequential match need not be an offered tool *)
(* ===================================================================== *)

(** C10.  The tool name accepted in the sequential stage need not be one of
    the six tools the question offers: for the answer [asset-manager] the
    match has that name, with confidence 0.5.  Any candidate that contains
    [generator] or [manager] is accepted as it is, and a first line without
    colon-and-space is the candidate as it is. *)
Theorem sequential_match_may_be_unregistered :
  (exists r t',
      hybridMatch
        (H := Samples.scripted
                [Samples.answer (Samples.thought_text "asset-manager" "false" "1" "1")])
        (H0 := Samples.no_match) 1 "please help" Samples.config [] = (Return r, t') /\
      em_toolName r = "asset-manager" /\
      em_confidence r = 0.5%float /\
      matchMethod r = sequential /\
      ~ In (em_toolName r) offered_tools) /\
  (forall (R : Runtime) (S : Services) fuel request config t s t',
      accepted MEDIUM_CONFIDENCE (matchRequest request) = None ->
      accepted LOW_CONFIDENCE (detectIntent request) = None ->
      performSequentialThinking fuel request TOOL_QUESTION config
        ((t ++ [Ev_matchRequest request]) ++ [Ev_detectIntent request]) = (Return s, t') ->
      Js.includes (candidate_tool_name s) "generator" = true \/
      Js.includes (candidate_tool_name s) "manager" = true ->
      exists r,
        hybridMatch fuel request config t =
          (Return r, t' ++ [Ev_extractContextParameters request]) /\
        em_toolName r = candidate_tool_name s /\
        em_confidence r = 0.5%float /\
        matchMethod r = sequential) /\
  (forall s,
      let line := Js.first_line (Js.trim (Js.toLowerCase s)) in
      Js.includes line ": " = false -> candidate_tool_name s = line).
Proof.
  split; [|split].
  - eexists _, _. split; [vm_compute; reflexivity|]. simpl.
    repeat split; try reflexivity. intuition discriminate.
  - intros R S fuel request config t s t' Hm Hi Hrun Hin.
    rewrite (hybridMatch_sequential _ _ _ _ Hm Hi).
    destruct (sequential_stage_returned _ _ _ _ _ _ Hrun) as [Hyes _].
    rewrite (Hyes Hin). eexists. split; [reflexivity|]. simpl. auto.
  - intros s line Hline. unfold candidate_tool_name. now apply strip_label_no_label.
Qed.

(* ===================================================================== *)
(** ** The theorems at sample inputs *)
(* ===================================================================== *)

(** A rule match of confidence 0.5 and no intent; the network fails. *)
Lemma fallback_when_every_stage_fails_witness :
  exists r t',
    hybridMatch (H := Samples.scripted [Samples.network_failure])
      (H0 := Samples.research_rule 0.5) 1 "research quantum computing"
      Samples.config [] = (Return r, t') /\
    em_toolName r = "research-manager" /\
    em_confidence r = 0.2%float /\
    requiresConfirmation r = true /\
    parameters r !! "query" = Some "research quantum computing".
Proof.
  destruct (@fallback_when_every_stage_fails
              (Samples.scripted [Samples.network_failure])
              (Samples.research_rule 0.5) 1 "research quantum computing"
              Samples.config []
              (Error "Error" "API error: undefined - {}")
              (snd (performSequentialThinking
                      (H := Samples.scripted [Samples.network_failure]) 1
                      "research quantum computing" TOOL_QUESTION Samples.config
                      [Ev_matchRequest "research quantum computing";
                       Ev_detectIntent "research quantum computing"])))
    as (r & Hrun & Hname & Hconf & _ & Hreq & _ & Hquery & _).
  - right. eexists. split; reflexivity.
  - left. reflexivity.
  - vm_compute. reflexivity.
  - exists r. eexists. eauto.
Defined.

(** The model is done with its first thought. *)
Lemma loop_runs_while_thought_needed_witness :
  processWithSequentialThinking (H := Runs.answer_in_third_round) 5
    "Which tool?" Samples.config None [] =
  (Return "Tool: PRD-Generator",
   map Ev_post
     (map (fun history =>
             completion_request
               (round_prompt (H := Runs.answer_in_third_round) history "Which tool?")
               SEQUENTIAL_THINKING_SYSTEM_PROMPT Samples.config)
          [ [];
            [Runs.first_thought];
            [Runs.first_thought; Runs.second_thought] ])).
Proof.
  destruct (proj1 (@loop_runs_while_thought_needed Runs.answer_in_third_round
                     "Which tool?" Samples.config None [])
              5 [Runs.first_thought; Runs.second_thought] Runs.third_thought)
    as (Hrun & _).
  - repeat constructor.
  - reflexivity.
  - apply rounds_next; [vm_compute; reflexivity|].
    apply rounds_next; [vm_compute; reflexivity|].
    apply rounds_next; [vm_compute; reflexivity|].
    apply rounds_done.
  - simpl. lia.
  - rewrite Hrun. reflexivity.
Defined.

(** The model sends text that is no JSON. *)
Lemma malformed_answer_ends_the_session_witness :
  exists t',
    processWithSequentialThinking (H := Samples.scripted [Samples.answer "garbage"])
      1 "Which tool?" Samples.config None [] = (Return "garbage", t') /\
    count_posts t' = 1.
Proof.
  eexists. split.
  - apply (proj2 (proj2 (@malformed_answer_ends_the_session
                           (Samples.scripted [Samples.answer "garbage"]) "garbage" I))).
    exists []. reflexivity.
  - reflexivity.
Defined.

(** The server answers with status 500. *)
Lemma transport_failure_reaches_the_caller_witness :
  exists t',
    processWithSequentialThinking
      (H := Samples.scripted
              [Samples.answer (Samples.thought_text "let me think" "true" "1" "1");
               Samples.server_error])
      5 "Which tool?" Samples.config None [] =
    (Throw (Error "Error"
              ("API error: 500 - {" +:+ Samples.quoted "error" +:+ ":" +:+
               Samples.quoted "overloaded" +:+ "}")), t') /\
    count_posts t' = 2.
Proof.
  eexists. split.
  - apply (proj1 (proj2 (proj2 (proj2 (proj2 (proj2
             (@transport_failure_reaches_the_caller
                (Samples.scripted
                   [Samples.answer
                      (Samples.thought_text "let me think" "true" "1" "1");
                    Samples.server_error])
                (Some {| status := 500;
                         data := JObject [("error", JString "overloaded")] |})))))))
             5 "Which tool?" Samples.config None []
             [ {| thought := "let me think"; next_thought_needed := true;
                  thought_number := 1; total_thoughts := 1 |} ]).
    + repeat constructor.
    + apply rounds_next; [vm_compute; reflexivity|]. apply rounds_done.
    + reflexivity.
    + simpl. lia.
  - reflexivity.
Defined.



(** An intent match of confidence 0.5 requires confirmation. *)
Lemma confirmation_is_required_unless_confident_witness :
  exists r t',
    hybridMatch (H := Samples.scripted []) (H0 := Samples.prd_intent 0.5) 1
      "write the requirements" Samples.config [] = (Return r, t') /\
    matchMethod r = intent /\
    requiresConfirmation r = true.
Proof.
  assert (Hrun :
    hybridMatch (H := Samples.scripted []) (H0 := Samples.prd_intent 0.5) 1
      "write the requirements" Samples.config [] =
    (Return {| em_toolName := "prd-generator";
               em_confidence := 0.5;
               em_matchedPattern := Some "intent_matching";
               parameters := {[ "query" := "write the requirements" ]};
               matchMethod := intent;
               requiresConfirmation := true |},
     [Ev_matchRequest "write the requirements";
      Ev_detectIntent "write the requirements";
      Ev_extractContextParameters "write the requirements"]))
    by (vm_compute; reflexivity).
  destruct (@confirmation_is_required_unless_confident
              (Samples.scripted []) (Samples.prd_intent 0.5) 1
              "write the requirements" Samples.config [] _ _ Hrun)
    as (_ & Hlow & _).
  eexists _, _. split; [exact Hrun|]. split; [reflexivity|].
  apply Hlow. reflexivity.
Defined.


(** The pattern [research {topic}], matched with confidence 0.9. *)
Lemma rule_match_is_returned_witness :
  exists r,
    hybridMatch (H := Samples.scripted []) (H0 := Samples.research_rule 0.9) 0
      "research the latest advancements in quantum computing" Samples.config [] =
    (Return r,
     [Ev_matchRequest "research the latest advancements in quantum computing";
      Ev_extractParameters "research the latest advancements in quantum computing"
        "research {topic}"]) /\
    em_toolName r = "research-manager" /\
    matchMethod r = rule /\
    requiresConfirmation r = false /\
    parameters r = {[ "topic" := "the latest advancements in quantum computing" ]}.
Proof.
  destruct (@rule_match_is_returned (Samples.scripted []) (Samples.research_rule 0.9) 0
              "research the latest advancements in quantum computing"
              Samples.config []
              {| toolName := "research-manager"; confidence := 0.9;
                 matchedPattern := Some "research {topic}" |}
              eq_refl eq_refl)
    as (params & calls & Hrun & Hlit & _).
  destruct (Hlit "research {topic}" eq_refl) as [-> ->]; try discriminate.
  eexists. split; [exact Hrun|]. simpl. repeat split; reflexivity.
Defined.

(** C7 as stated fails: with a carriage return before the colon, the text
    up to the first colon-and-space is not removed. *)
Lemma label_after_carriage_return_is_kept :
  exists r t',
    hybridMatch (H := Samples.scripted [Samples.answer Samples.cr_answer])
      (H0 := Samples.no_match) 1 "please help" Samples.config [] = (Return r, t') /\
    em_toolName r = Samples.cr_answer /\
    em_matchedPattern r = Some "sequential_thinking" /\
    spec_candidate_tool_name Samples.cr_answer = "prd-generator" /\
    em_toolName r <> spec_candidate_tool_name Samples.cr_answer.
Proof.
  eexists _, _. split; [vm_compute; reflexivity|].
  repeat split; try reflexivity. vm_compute. discriminate.
Qed.

(** The final thought [Tool: PRD-Generator] of the second round. *)
Lemma sequential_match_from_first_line_witness :
  exists t',
    hybridMatch (H := Samples.answer_in_second_round) (H0 := Samples.no_match)
      2 "please help" Samples.config [] =
    (Return {| em_toolName := "prd-generator";
               em_confidence := 0.5;
               em_matchedPattern := Some "sequential_thinking";
               parameters := {[ "query" := "please help" ]};
               matchMethod := sequential;
               requiresConfirmation := true |}, t') /\
    count_posts t' = 2.
Proof.
  assert (Hrun :
    performSequentialThinking (H := Samples.answer_in_second_round) 2
      "please help" TOOL_QUESTION Samples.config
      [Ev_matchRequest "please help"; Ev_detectIntent "please help"] =
    (Return "Tool: PRD-Generator",
     snd (performSequentialThinking (H := Samples.answer_in_second_round) 2
            "please help" TOOL_QUESTION Samples.config
            [Ev_matchRequest "please help"; Ev_detectIntent "please help"])))
    by (vm_compute; reflexivity).
  destruct (@sequential_match_from_first_line Samples.answer_in_second_round
              Samples.no_match 2 "please help" Samples.config []
              "Tool: PRD-Generator" _ eq_refl eq_refl Hrun)
    as (_ & Hyes & _).
  eexists. split.
  - apply Hyes. left. reflexivity.
  - vm_compute. reflexivity.
Defined.

(** The answer [asset-manager]. *)
Lemma sequential_match_may_be_unregistered_witness :
  exists r,
    hybridMatch
      (H := Samples.scripted
              [Samples.answer (Samples.thought_text "asset-manager" "false" "1" "1")])
      (H0 := Samples.no_match) 1 "please help" Samples.config [] =
    (Return r,
     snd (performSequentialThinking
            (H := Samples.scripted
                    [Samples.answer (Samples.thought_text "asset-manager" "false" "1" "1")])
            1 "please help" TOOL_QUESTION Samples.config
            [Ev_matchRequest "please help"; Ev_detectIntent "please help"])
     ++ [Ev_extractContextParameters "please help"]) /\
    em_toolName r = "asset-manager".
Proof.
  destruct (proj1 (proj2 sequential_match_may_be_unregistered)
              (Samples.scripted
                 [Samples.answer (Samples.thought_text "asset-manager" "false" "1" "1")])
              Samples.no_match 1 "please help" Samples.config []
              "asset-manager"
              (snd (performSequentialThinking
                      (H := Samples.scripted
                              [Samples.answer
                                 (Samples.thought_text "asset-manager" "false" "1" "1")])
                      1 "please help" TOOL_QUESTION Samples.config
                      [Ev_matchRequest "please help"; Ev_detectIntent "please help"]))
              eq_refl eq_refl)
    as (r & Hrun & Hname & _).
  - vm_compute. reflexivity.
  - right. reflexivity.
  - exists r. split; [exact Hrun|exact Hname].
Defined.

(* ===================================================================== *)
(** ** Substrings *)
(* ===================================================================== *)

Lemma append_assoc (a b c : string) : (a +:+ b) +:+ c = a +:+ b +:+ c.
Proof.
  induction a as [|x a IH]; [reflexivity|].
  change (String x ((a +:+ b) +:+ c) = String x (a +:+ b +:+ c)).
  now rewrite IH.
Qed.

Lemma append_empty (a : string) : a +:+ EmptyString = a.
Proof.
  induction a as [|x a IH]; [reflexivity|].
  change (String x (a +:+ EmptyString) = String x a).
  now rewrite IH.
Qed.

Lemma starts_with_append (p s : string) : Js.starts_with p (p +:+ s) = true.
Proof.
  induction p as [|a p IH]; simpl; [reflexivity|].
  now rewrite Ascii.eqb_refl.
Qed.

Lemma starts_with_append_l (p s b : string) :
  Js.starts_with p s = true -> Js.starts_with p (s +:+ b) = true.
Proof.
  revert s. induction p as [|a p IH]; intros s; simpl; [reflexivity|].
  destruct s as [|c s]; simpl; [discriminate|].
  destruct (Ascii.eqb a c); [apply IH|discriminate].
Qed.

Lemma includes_eq (s p : string) :
  Js.includes s p =
    (Js.starts_with p s ||
     match s with EmptyString => false | String _ r => Js.includes r p end).
Proof. destruct s; reflexivity. Qed.

Lemma includes_append_r (a s p : string) :
  Js.includes s p = true -> Js.includes (a +:+ s) p = true.
Proof.
  intros Hs. induction a as [|c a IH]; [exact Hs|].
  change (String c a +:+ s) with (String c (a +:+ s)).
  rewrite includes_eq, IH. apply orb_true_r.
Qed.

Lemma includes_append_l (s b p : string) :
  Js.includes s p = true -> Js.includes (s +:+ b) p = true.
Proof.
  induction s as [|c s IH]; intros Hs.
  - rewrite includes_eq in Hs. rewrite orb_false_r in Hs.
    rewrite includes_eq. change (EmptyString +:+ b) with b.
    destruct p; [|discriminate]. destruct b; reflexivity.
  - rewrite includes_eq in Hs.
    change (String c s +:+ b) with (String c (s +:+ b)). rewrite includes_eq.
    apply orb_true_iff in Hs as [Hhere|Hrest].
    + change (String c (s +:+ b)) with (String c s +:+ b).
      now rewrite (starts_with_append_l _ _ _ Hhere).
    + rewrite (IH Hrest). apply orb_true_r.
Qed.

Lemma includes_start (p s : string) : Js.includes (p +:+ s) p = true.
Proof.
  rewrite includes_eq, starts_with_append. reflexivity.
Qed.

(** A string includes what stands between a prefix and a suffix of it. *)
Lemma includes_middle (a p b : string) : Js.includes (a +:+ p +:+ b) p = true.
Proof.
  apply includes_append_r, includes_start.
Qed.

Lemma includes_end (a p : string) : Js.includes (a +:+ p) p = true.
Proof.
  apply includes_append_r. rewrite includes_eq.
  assert (Hp : Js.starts_with p p = true).
  { induction p as [|c p IH]; simpl; [reflexivity|]. now rewrite Ascii.eqb_refl. }
  now rewrite Hp.
Qed.

(* ===================================================================== *)
(** ** More on the hybrid matcher and the reasoning engine *)
(* ===================================================================== *)

Lemma all_chars_weaken (P Q : ascii -> bool) (s : string) :
  (forall c, P c = true -> Q c = true) ->
  all_chars P s = true -> all_chars Q s = true.
Proof.
  intros HPQ. induction s as [|c r IH]; simpl; [reflexivity|].
  intros Hs. apply andb_true_iff in Hs as [Hc Hr].
  now rewrite (HPQ _ Hc), IH.
Qed.

Lemma all_chars_trimStart (P : ascii -> bool) (s : string) :
  all_chars P s = true -> all_chars P (Js.trimStart s) = true.
Proof.
  induction s as [|c r IH]; simpl; [reflexivity|].
  intros Hs. destruct (Js.is_space c); [|exact Hs].
  apply andb_true_iff in Hs as [_ Hr]. now apply IH.
Qed.

Lemma all_chars_trimEnd (P : ascii -> bool) (s : string) :
  all_chars P s = true -> all_chars P (Js.trimEnd s) = true.
Proof.
  induction s as [|c r IH]; simpl; [reflexivity|].
  intros Hs. apply andb_true_iff in Hs as [Hc Hr]. specialize (IH Hr).
  destruct (Js.trimEnd r) as [|c' r'].
  - destruct (Js.is_space c); simpl; [reflexivity|]. now rewrite Hc.
  - simpl in *. now rewrite Hc, IH.
Qed.

Lemma all_chars_first_line (P : ascii -> bool) (s : string) :
  all_chars P s = true -> all_chars P (Js.first_line s) = true.
Proof.
  induction s as [|c r IH]; simpl; [reflexivity|].
  intros Hs. apply andb_true_iff in Hs as [Hc Hr].
  destruct (nat_of_ascii c =? 10)%nat; simpl; [reflexivity|].
  now rewrite Hc, IH.
Qed.

Lemma all_chars_strip_prefix (P : ascii -> bool) (p s r : string) :
  Js.strip_prefix p s = Some r -> all_chars P s = true -> all_chars P r = true.
Proof.
  revert s. induction p as [|a p IH]; intros s; simpl.
  - now intros [= ->].
  - destruct s as [|b s]; [discriminate|].
    destruct (Ascii.eqb a b); [|discriminate].
    intros Hr Hs. simpl in Hs. apply andb_true_iff in Hs as [_ Hs]. eauto.
Qed.

Lemma all_chars_after_label (P : ascii -> bool) (s r : string) :
  Js.after_label s = Some r -> all_chars P s = true -> all_chars P r = true.
Proof.
  revert r. induction s as [|c s IH]; intros r; rewrite after_label_eq.
  - simpl. discriminate.
  - destruct (Js.strip_prefix ": " (String c s)) as [rest|] eqn:Hp.
    + intros [= ->]. now apply all_chars_strip_prefix with (1 := Hp).
    + destruct (Js.is_line_terminator c); [discriminate|].
      intros Hr Hs. simpl in Hs. apply andb_true_iff in Hs as [_ Hs]. eauto.
Qed.

Lemma all_chars_strip_label (P : ascii -> bool) (s : string) :
  all_chars P s = true -> all_chars P (Js.strip_label s) = true.
Proof.
  unfold Js.strip_label. destruct (Js.after_label s) as [r|] eqn:Hr; [|auto].
  now apply all_chars_after_label.
Qed.

Lemma lower_char_idempotent (c : ascii) : is_lowered (Js.lower_char c) = true.
Proof.
  destruct c as [[] [] [] [] [] [] [] []]; reflexivity.
Qed.

Lemma all_lowered_toLowerCase (s : string) :
  all_chars is_lowered (Js.toLowerCase s) = true.
Proof.
  induction s as [|c r IH]; simpl; [reflexivity|].
  now rewrite lower_char_idempotent, IH.
Qed.

Lemma toLowerCase_fixed (s : string) :
  all_chars is_lowered s = true -> Js.toLowerCase s = s.
Proof.
  induction s as [|c r IH]; simpl; [reflexivity|].
  intros Hs. apply andb_true_iff in Hs as [Hc Hr].
  unfold is_lowered in Hc. apply Ascii.eqb_eq in Hc. now rewrite Hc, IH.
Qed.

Lemma first_line_no_line_feed (s : string) :
  all_chars (fun c => negb (is_line_feed c)) (Js.first_line s) = true.
Proof.
  induction s as [|c r IH]; simpl; [reflexivity|].
  destruct (nat_of_ascii c =? 10)%nat eqn:Hc; simpl; [reflexivity|].
  unfold is_line_feed at 1. now rewrite Hc, IH.
Qed.

Lemma no_line_feed_includes (s : string) :
  all_chars (fun c => negb (is_line_feed c)) s = true ->
  Js.includes s Js.nl = false.
Proof.
  induction s as [|c r IH]; [reflexivity|].
  intros Hs. simpl in Hs. apply andb_true_iff in Hs as [Hc Hr].
  rewrite includes_eq, (IH Hr), orb_false_r.
  change (Js.starts_with Js.nl (String c r))
    with (if Ascii.eqb "010"%char c then true else false).
  unfold is_line_feed in Hc.
  destruct (Ascii.eqb_spec "010"%char c) as [<-|_]; [discriminate Hc|reflexivity].
Qed.

(** X2.  The candidate tool name read off the answer of the engine is a
    single line in lower case: it has no line feed, and [toLowerCase]
    leaves it as it is. *)
Theorem candidate_is_one_lowercase_line (sequentialResult : string) :
  Js.includes (candidate_tool_name sequentialResult) Js.nl = false /\
  Js.toLowerCase (candidate_tool_name sequentialResult) =
    candidate_tool_name sequentialResult.
Proof.
  unfold candidate_tool_name. split.
  - apply no_line_feed_includes, all_chars_strip_label, first_line_no_line_feed.
  - apply toLowerCase_fixed, all_chars_strip_label, all_chars_first_line.
    unfold Js.trim.
    apply all_chars_trimEnd, all_chars_trimStart, all_lowered_toLowerCase.
Qed.

Section MoreMatcherFacts.
Context `{Runtime} `{Services}.

(** X1.  When the rule matcher is not accepted and the intent detector
    gives a candidate of confidence at least 0.4, [hybridMatch] returns that
    candidate with method [intent], confirmation required exactly when the
    confidence is below 0.8, and the parameters of the context extraction.
    The calls made are the rule matcher, the intent detector and the context
    extraction, in that order: no pattern extraction and no model call. *)
Theorem intent_match_is_returned (fuel : nat) (request : string)
    (config : OpenRouterConfig) (t : Trace) (i : MatchResult) :
  accepted 0.6 (matchRequest request) = None ->
  detectIntent request = Some i ->
  Js.ge (confidence i) 0.4 = true ->
  hybridMatch fuel request config t =
    (Return {| em_toolName := toolName i;
               em_confidence := confidence i;
               em_matchedPattern := matchedPattern i;
               parameters := extractContextParameters request;
               matchMethod := intent;
               requiresConfirmation := Js.lt (confidence i) 0.8 |},
     t ++ [Ev_matchRequest request; Ev_detectIntent request;
           Ev_extractContextParameters request]).
Proof.
  intros Hm Hi Hconf.
  assert (Hacc : accepted LOW_CONFIDENCE (detectIntent request) = Some i)
    by (apply accepted_Some; auto).
  rewrite (hybridMatch_intent _ _ _ _ _ Hm Hacc).
  unfold intent_stage, bind, call, ret, lift.
  now rewrite <- !app_assoc.
Qed.

End MoreMatcherFacts.

Section MoreEngineFacts.
Context `{Runtime}.

(** X3.  An answer without choices (the field missing, or an empty list)
    is an error of its own: [getNextThought] throws, after that one call, the
    error [No response received from model], which its own handler has
    wrapped as an unknown error; the error leaves
    [processWithSequentialThinking] when it occurs in the first round. *)
Theorem answer_without_choices_is_thrown (body : CompletionData) :
  choices body = None \/ choices body = Some [] ->
  (forall prompt sp config t,
      let req := completion_request prompt sp config in
      axios_post (count_posts t) req = Resolved body ->
      getNextThought prompt sp config t =
        (Throw (Error "Error"
                  "Unknown error: Error: No response received from model"),
         t ++ [Ev_post req])) /\
  (forall fuel userPrompt config systemPrompt t,
      let req := completion_request (round_prompt [] userPrompt)
                   (full_system_prompt systemPrompt) config in
      axios_post (count_posts t) req = Resolved body ->
      processWithSequentialThinking (S fuel) userPrompt config systemPrompt t =
        (Throw (Error "Error"
                  "Unknown error: Error: No response received from model"),
         t ++ [Ev_post req])).
Proof.
  intros Hbody.
  assert (Hround : round_of (Resolved body) =
                   Throw (Error "Error"
                            "Unknown error: Error: No response received from model"))
    by (simpl; destruct Hbody as [-> | ->]; reflexivity).
  split.
  - intros prompt sp config t req Hanswer.
    rewrite getNextThought_run. fold req. now rewrite Hanswer, Hround.
  - intros fuel userPrompt config systemPrompt t req Hanswer.
    rewrite process_of_session. unfold thinking_session.
    rewrite thinking_loop_round by reflexivity. fold req.
    now rewrite Hanswer, Hround.
Qed.

Lemma round_prompt_includes_task (thoughts : list SequentialThought)
    (userPrompt : string) :
  Js.includes (round_prompt thoughts userPrompt) userPrompt = true.
Proof.
  unfold round_prompt.
  destruct (Js.truthy (getThoughtContext thoughts)).
  - do 4 apply includes_append_r. apply includes_start.
  - apply includes_middle.
Qed.

(** The requests of a run of the loop, however it ends. *)
Lemma thinking_loop_requests (fuel : nat) (userPrompt sp : string)
    (config : OpenRouterConfig) :
  forall (thoughts : list SequentialThought) (cur : SequentialThought)
         (t : Trace) (o : Outcome LoopState) (t' : Trace),
    thinking_loop fuel userPrompt sp config thoughts cur t = (o, t') ->
    exists reqs,
      t' = t ++ map Ev_post reqs /\
      Forall (session_request userPrompt sp config) reqs.
Proof.
  induction fuel as [|fuel IH]; intros thoughts cur t o t' Hrun.
  - simpl in Hrun. exists []. simpl. rewrite app_nil_r.
    destruct (next_thought_needed cur); injection Hrun as <- <-; auto.
  - destruct (next_thought_needed cur) eqn:Hcur.
    + rewrite thinking_loop_round in Hrun by exact Hcur.
      set (req := completion_request (round_prompt thoughts userPrompt) sp config) in *.
      assert (Hreq : session_request userPrompt sp config req).
      { unfold session_request, req. simpl.
        repeat split; try reflexivity. apply round_prompt_includes_task. }
      destruct (round_of (axios_post (count_posts t) req)) as [next|e|].
      * destruct (IH _ _ _ _ _ Hrun) as (reqs & -> & Hall).
        exists (req :: reqs). simpl. rewrite <- app_assoc. split; [reflexivity|].
        now constructor.
      * injection Hrun as <- <-. exists [req]. split; [reflexivity|]. now constructor.
      * injection Hrun as <- <-. exists [req]. split; [reflexivity|]. now constructor.
    + rewrite thinking_loop_stop in Hrun by exact Hcur.
      injection Hrun as <- <-. exists []. simpl. rewrite app_nil_r. auto.
Qed.

Lemma processWithSequentialThinking_requests (fuel : nat) (userPrompt : string)
    (config : OpenRouterConfig) (systemPrompt : option string) (t : Trace)
    (o : Outcome string) (t' : Trace) :
  processWithSequentialThinking fuel userPrompt config systemPrompt t = (o, t') ->
  exists reqs,
    t' = t ++ map Ev_post reqs /\
    Forall (session_request userPrompt (full_system_prompt systemPrompt) config) reqs.
Proof.
  rewrite process_of_session. unfold thinking_session.
  destruct (thinking_loop fuel userPrompt (full_system_prompt systemPrompt) config
              [] initial_thought t) as [o1 t1] eqn:Hloop.
  intros Hrun.
  assert (t1 = t') as -> by (destruct o1; now injection Hrun).
  exact (thinking_loop_requests _ _ _ _ _ _ _ _ _ Hloop).
Qed.

(** X4.  Whatever the outcome of [processWithSequentialThinking] (a
    result, an error, or a run cut short), the calls it has made are model
    calls only, each to the completion endpoint of the configuration, with
    its model and key, the same system prompt, and a user message that
    includes the task. *)
Theorem session_calls_the_configured_model (fuel : nat) (userPrompt : string)
    (config : OpenRouterConfig) (systemPrompt : option string) (t : Trace)
    (o : Outcome string) (t' : Trace) :
  processWithSequentialThinking fuel userPrompt config systemPrompt t = (o, t') ->
  exists reqs,
    t' = t ++ map Ev_post reqs /\
    Forall (session_request userPrompt (full_system_prompt systemPrompt) config) reqs.
Proof.
  apply processWithSequentialThinking_requests.
Qed.

Lemma join_includes (sep : string) (parts : list string) (part p : string) :
  In part parts -> Js.includes part p = true ->
  Js.includes (Js.join sep parts) p = true.
Proof.
  induction parts as [|x rest IH]; intros Hin Hp; [contradiction|].
  destruct rest as [|y rest].
  - destruct Hin as [<-|[]]. exact Hp.
  - change (Js.join sep (x :: y :: rest))
      with (x +:+ sep +:+ Js.join sep (y :: rest)).
    destruct Hin as [<-|Hin].
    + now apply includes_append_l.
    + do 2 apply includes_append_r. now apply IH.
Qed.

(** The prompt of a round repeats the text of every thought so far. *)
Lemma round_prompt_includes_thought (thoughts : list SequentialThought)
    (userPrompt : string) (th : SequentialThought) :
  In th thoughts ->
  Js.includes (round_prompt thoughts userPrompt) (thought th) = true.
Proof.
  intros Hin. unfold round_prompt.
  assert (Hctx : exists rest,
            getThoughtContext thoughts = "Previous thoughts:" +:+ rest /\
            Js.includes rest (thought th) = true).
  { destruct thoughts as [|th0 thoughts]; [contradiction|].
    eexists. split; [reflexivity|].
    apply includes_append_r.
    apply join_includes with
      (part := "[Thought " +:+ Number_toString (thought_number th) +:+ "/" +:+
               Number_toString (total_thoughts th) +:+ "]: " +:+ thought th).
    - apply (in_map (fun t0 =>
               "[Thought " +:+ Number_toString (thought_number t0) +:+ "/" +:+
               Number_toString (total_thoughts t0) +:+ "]: " +:+ thought t0)),
        Hin.
    - do 4 apply includes_append_r. apply includes_end. }
  destruct Hctx as (rest & -> & Hrest).
  change (Js.truthy ("Previous thoughts:" +:+ rest)) with true. cbv iota.
  apply includes_append_l, includes_append_r, Hrest.
Qed.

(** The user message of each request of a returning run is the prompt built
    from the history as it was before that round. *)
Lemma thinking_loop_prompts (fuel : nat) (userPrompt sp : string)
    (config : OpenRouterConfig) :
  forall (thoughts : list SequentialThought) (cur : SequentialThought)
         (t : Trace) (history : list SequentialThought)
         (final : SequentialThought) (t' : Trace),
    thinking_loop fuel userPrompt sp config thoughts cur t =
      (Return (history, final), t') ->
    exists reqs new,
      t' = t ++ map Ev_post reqs /\
      history = thoughts ++ new /\
      length reqs = length new /\
      forall (k : nat) (req : LLMRequest),
        reqs !! k = Some req ->
        user_content req = round_prompt (thoughts ++ take k new) userPrompt.
Proof.
  induction fuel as [|fuel IH]; intros thoughts cur t history final t' Hrun.
  - simpl in Hrun. destruct (next_thought_needed cur); [discriminate|].
    injection Hrun as <- <- <-. exists [], []. simpl. rewrite !app_nil_r.
    repeat split; auto. intros k req Hk. destruct k; discriminate.
  - destruct (next_thought_needed cur) eqn:Hcur.
    + rewrite thinking_loop_round in Hrun by exact Hcur.
      set (req0 := completion_request (round_prompt thoughts userPrompt) sp config) in *.
      destruct (round_of (axios_post (count_posts t) req0)) as [next| |];
        try discriminate.
      destruct (IH _ _ _ _ _ _ Hrun) as (reqs & new & -> & -> & Hlen & Hprompts).
      exists (req0 :: reqs), (next :: new). simpl.
      rewrite <- !app_assoc. simpl. repeat split; auto.
      intros [|k] req Hk.
      * injection Hk as <-. simpl. now rewrite app_nil_r.
      * simpl in Hk. rewrite (Hprompts _ _ Hk), <- app_assoc. reflexivity.
    + rewrite thinking_loop_stop in Hrun by exact Hcur.
      injection Hrun as <- <- <-. exists [], []. simpl. rewrite !app_nil_r.
      repeat split; auto. intros k req Hk. destruct k; discriminate.
Qed.

(** X5.  In a session that returns, the first prompt asks for a first
    thought, and the prompt of every later round repeats the text of each
    round before it: the history is sent again in full with every call. *)
Theorem every_round_repeats_the_history (fuel : nat) (userPrompt : string)
    (config : OpenRouterConfig) (systemPrompt : option string) (t : Trace)
    (history : list SequentialThought) (final : SequentialThought) (t' : Trace) :
  thinking_session fuel userPrompt config systemPrompt t =
    (Return (history, final), t') ->
  exists reqs,
    t' = t ++ map Ev_post reqs /\
    length reqs = length history /\
    (forall req, reqs !! 0 = Some req ->
       user_content req =
         "Task: " +:+ userPrompt +:+ Js.nl +:+ Js.nl +:+ "Provide your first thought:") /\
    (forall k j req th,
       reqs !! k = Some req -> history !! j = Some th -> j < k ->
       Js.includes (user_content req) (thought th) = true).
Proof.
  intros Hrun. unfold thinking_session in Hrun.
  destruct (thinking_loop_prompts _ _ _ _ _ _ _ _ _ _ Hrun)
    as (reqs & new & Ht' & Hh & Hlen & Hprompts).
  simpl in Hh. subst new. exists reqs. repeat split; auto.
  - intros req Hreq. now rewrite (Hprompts _ _ Hreq).
  - intros k j req th Hreq Hth Hjk.
    rewrite (Hprompts _ _ Hreq). simpl.
    apply round_prompt_includes_thought.
    apply list_elem_of_In, list_elem_of_lookup. exists j.
    rewrite lookup_take_lt by exact Hjk. exact Hth.
Qed.

End MoreEngineFacts.

(* ===================================================================== *)
(** ** The explanation of a match and the request processor *)
(* ===================================================================== *)

Section ProcessorFacts.
Context `{Runtime} `{Services} `{Builtins}.

(** X6.  Whatever the match, its explanation names the tool that was
    chosen. *)
Theorem explanation_names_the_tool (m : EnhancedMatchResult) :
  Js.includes (getMatchExplanation m) (em_toolName m) = true.
Proof.
  unfold getMatchExplanation.
  destruct (matchMethod m);
    repeat match goal with
           | |- context [if ?b then _ else _] => destruct b
           end;
    apply includes_middle.
Qed.

(** X7.  A match of method [sequential] that [hybridMatch] returns is
    explained in one of two ways: the default match by the sentence that
    says the research manager is the default, and an accepted candidate, of
    confidence 0.5, by the sentence that names it after analysis. *)
Theorem sequential_match_is_explained (fuel : nat) (request : string)
    (config : OpenRouterConfig) (t : Trace) (r : EnhancedMatchResult)
    (t' : Trace) :
  hybridMatch fuel request config t = (Return r, t') ->
  matchMethod r = sequential ->
  (r = default_match request /\
   getMatchExplanation r =
     "I wasn't sure which tool to use, so I'm defaulting to the research-manager. Please let me know if you'd prefer a different tool.") \/
  (em_matchedPattern r = Some "sequential_thinking" /\
   em_confidence r = 0.5%float /\
   getMatchExplanation r =
     "After analyzing your request, I believe the " +:+ em_toolName r +:+
     " is the most appropriate tool to use.").
Proof.
  intros Hrun Hmethod.
  destruct (accepted MEDIUM_CONFIDENCE (matchRequest request)) as [m|] eqn:Hm.
  - rewrite (hybridMatch_rule _ _ _ _ _ Hm), rule_stage_run in Hrun.
    injection Hrun as <- <-. discriminate.
  - destruct (accepted LOW_CONFIDENCE (detectIntent request)) as [i|] eqn:Hi.
    + rewrite (hybridMatch_intent _ _ _ _ _ Hm Hi) in Hrun.
      unfold intent_stage, bind, call, ret, lift in Hrun.
      injection Hrun as <- <-. discriminate.
    + rewrite (hybridMatch_sequential _ _ _ _ Hm Hi), sequential_stage_run in Hrun.
      destruct (performSequentialThinking _ _ _ _ _) as [[s|e|] t1];
        try discriminate.
      * simpl in Hrun.
        destruct (looks_like_tool (candidate_tool_name s));
          injection Hrun as <- <-; [right|left]; repeat split; reflexivity.
      * injection Hrun as <- <-. left. split; reflexivity.
Qed.

(** X8.  [processUserRequest] reports an error of the matcher as a result:
    whatever the call of [hybridMatch] does, the body never throws.  When
    the call returns a match, the result is not marked as an error and its
    content is the one text of the processed request made from the match;
    when the call throws, the result is marked as an error and its one text
    is [Error processing request: ] with the message of the error.  Either
    way the calls are those of the matcher, and the result has exactly one
    text. *)
Theorem request_processing_reports_errors (matching : M EnhancedMatchResult)
    (t : Trace) :
  (forall e, fst (process_match matching t) <> Throw e) /\
  (forall m t',
      matching t = (Return m, t') ->
      process_match matching t =
        (Return {| content :=
                     [TextContent
                        (stringify_request
                           {| pr_toolName := em_toolName m;
                              pr_parameters := parameters m;
                              pr_explanation := getMatchExplanation m;
                              pr_confidence := em_confidence m;
                              pr_requiresConfirmation := requiresConfirmation m |})];
                   isError := None |}, t')) /\
  (forall e t',
      matching t = (Throw e, t') ->
      process_match matching t =
        (Return {| content :=
                     [TextContent ("Error processing request: " +:+ message_of e)];
                   isError := Some true |}, t')) /\
  (forall result t',
      process_match matching t = (Return result, t') ->
      exists text o,
        content result = [TextContent text] /\ matching t = (o, t')) /\
  (forall fuel request config m t',
      hybridMatch fuel request config t = (Return m, t') ->
      processUserRequest fuel request config t =
        (Return {| content := [TextContent (stringify_request (processed_request m))];
                   isError := None |}, t')).
Proof.
  unfold processUserRequest, process_match, try_catch, bind.
  split; [|split; [|split; [|split]]].
  - intros e. destruct (matching t) as [[m|e'|] t1]; discriminate.
  - intros m t' ->. reflexivity.
  - intros e t' ->. reflexivity.
  - intros result t'. destruct (matching t) as [[m|e'|] t1]; simpl.
    + intros [= <- <-]. eauto.
    + intros [= <- <-]. eauto.
    + discriminate.
  - intros fuel request config m t' ->. reflexivity.
Qed.

(** X9.  [executeProcessedRequest] never throws.  Without an executor for
    the tool name it returns, without calling anything, an error result that
    names the tool; an error of the executor becomes an error result with
    the message of the error; the result of an executor that returns is
    passed on as it is. *)
Theorem execution_reports_errors_as_results (processedRequest : ProcessedRequest)
    (toolExecutors : string -> option Executor) (t : Trace) :
  (forall e,
      fst (executeProcessedRequest processedRequest toolExecutors t) <> Throw e) /\
  (toolExecutors (pr_toolName processedRequest) = None ->
   executeProcessedRequest processedRequest toolExecutors t =
     (Return {| content :=
                  [TextContent ("Error executing tool: No executor found for tool: " +:+
                                pr_toolName processedRequest)];
                isError := Some true |}, t)) /\
  (forall executor e t',
      toolExecutors (pr_toolName processedRequest) = Some executor ->
      executor (pr_parameters processedRequest) t = (Throw e, t') ->
      executeProcessedRequest processedRequest toolExecutors t =
        (Return {| content := [TextContent ("Error executing tool: " +:+ message_of e)];
                   isError := Some true |}, t')) /\
  (forall executor result t',
      toolExecutors (pr_toolName processedRequest) = Some executor ->
      executor (pr_parameters processedRequest) t = (Return result, t') ->
      executeProcessedRequest processedRequest toolExecutors t = (Return result, t')).
Proof.
  unfold executeProcessedRequest, try_catch.
  split; [|split; [|split]].
  - intros e.
    destruct (toolExecutors (pr_toolName processedRequest)) as [executor|].
    + destruct (executor (pr_parameters processedRequest) t) as [[r|e'|] t'];
        discriminate.
    + discriminate.
  - intros ->. reflexivity.
  - intros executor e t' -> ->. reflexivity.
  - intros executor result t' -> ->. reflexivity.
Qed.

End ProcessorFacts.

(* ===================================================================== *)
(** ** Trimming *)
(* ===================================================================== *)







(* ===================================================================== *)
(** ** Research queries and the configuration *)
(* ===================================================================== *)

Lemma env_or_truthy (env : gmap string string) (name fallback : string) :
  Js.truthy fallback = true -> Js.truthy (env_or env name fallback) = true.
Proof.
  intros Hf. unfold env_or. destruct (env !! name) as [value|]; [|exact Hf].
  destruct (Js.truthy value) eqn:Hv; [exact Hv|exact Hf].
Qed.

Section ResearchFacts.
Context `{Runtime} `{Builtins}.

(** X10.  Without a model name (the field missing or empty),
    [performResearchQuery] throws [Perplexity model name is not configured.]
    as it is, and makes no call. *)
Theorem research_needs_a_model_name (query : string) (config : ResearchConfig)
    (t : Trace) :
  perplexityModel config = None \/ perplexityModel config = Some EmptyString ->
  performResearchQuery query config t =
    (Throw (Error "Error" "Perplexity model name is not configured."), t).
Proof.
  unfold performResearchQuery. intros [-> | ->]; reflexivity.
Qed.

(** [performResearchQuery] with a model name, by the outcome of its one
    call and the content of the answer. *)
Lemma performResearchQuery_run (query model : string) (config : ResearchConfig)
    (t : Trace) :
  perplexityModel config = Some model ->
  Js.truthy model = true ->
  let req := research_request query model (openRouter config) in
  performResearchQuery query config t =
    (match axios_post (count_posts t) req with
     | Resolved body =>
         match research_content (raw_content (count_posts t) req) with
         | Throw e =>
             Throw (Error "Error"
                      (research_failure_prefix query model +:+
                       research_failure_detail e))
         | o => o
         end
     | Rejected e =>
         Throw (Error "Error"
                  (research_failure_prefix query model +:+ research_failure_detail e))
     end, t ++ [Ev_post req]).
Proof.
  intros Hmodel Htruthy req. unfold performResearchQuery. rewrite Hmodel.
  destruct model as [|c m]; [discriminate|].
  unfold research_post, try_catch, bind, post, ret, lift. fold req.
  destruct (axios_post (count_posts t) req) as [body|e]; [|reflexivity].
  destruct (research_content (raw_content (count_posts t) req)); reflexivity.
Qed.

(** What [research_content] returns is a trimmed string. *)
Lemma research_content_returns (value : option json) (s : string) :
  research_content value = Return s ->
  exists text, value = Some (JString text) /\ Js.truthy text = true /\ s = Js.trim text.
Proof.
  destruct value as [v|]; [|discriminate]. unfold research_content.
  destruct (json_truthy v) eqn:Hv; [|discriminate].
  destruct v; try discriminate. intros [= <-]. eauto.
Qed.

Lemma research_content_answers (value : option json) :
  research_content value <> OutOfFuel.
Proof.
  destruct value as [v|]; [|discriminate]. unfold research_content.
  destruct (json_truthy v); [|discriminate]. destruct v; discriminate.
Qed.


(** X12.  With a model name, [performResearchQuery] makes exactly one call,
    whatever comes of it, and never makes another attempt.  It returns only
    with a trimmed content; every error it throws has a message that starts
    by naming the query and the model, and for a response of the server the
    message goes on with its status and body. *)
Theorem research_failure_names_the_query (query model : string)
    (config : ResearchConfig) (t : Trace) :
  perplexityModel config = Some model ->
  Js.truthy model = true ->
  let req := research_request query model (openRouter config) in
  (exists o,
      performResearchQuery query config t = (o, t ++ [Ev_post req]) /\
      ((exists text, o = Return (Js.trim text)) \/
       (exists rest,
           o = Throw (Error "Error" (research_failure_prefix query model +:+ rest))))) /\
  (forall response,
      axios_post (count_posts t) req = Rejected (AxiosError (Some response)) ->
      json_truthy (data response) = true ->
      performResearchQuery query config t =
        (Throw (Error "Error"
                  ("Perplexity research failed for query: " +:+ Js.dquote +:+ query +:+
                   Js.dquote +:+ ". Model: " +:+ model +:+ "." +:+
                   " Status: " +:+ Number_toString (status response) +:+
                   ", Data: " +:+ JSON_stringify (data response))),
         t ++ [Ev_post req])).
Proof.
  intros Hmodel Htruthy req. split.
  - eexists. split; [apply (performResearchQuery_run _ _ _ _ Hmodel Htruthy)|].
    fold req. destruct (axios_post (count_posts t) req) as [body|e].
    + destruct (research_content (raw_content (count_posts t) req))
        as [s|e|] eqn:Hcontent.
      * left. destruct (research_content_returns _ _ Hcontent) as (text & _ & _ & ->).
        eauto.
      * right. eauto.
      * now destruct (research_content_answers _ Hcontent).
    + right. eauto.
  - intros response Hfail Hdata.
    rewrite (performResearchQuery_run _ _ _ _ Hmodel Htruthy). fold req.
    rewrite Hfail. simpl. rewrite Hdata.
    unfold research_failure_prefix. now rewrite !append_assoc.
Qed.

(** X13.  The configuration read from the environment never lacks a model
    name or an endpoint: a variable that is missing or empty gives way to
    its default.  So a research query under that configuration always gets
    as far as its one call, and names the default model when
    [PERPLEXITY_MODEL] is missing or empty. *)
Theorem environment_configuration_is_complete (env : gmap string string)
    (query : string) (t : Trace) :
  Js.truthy (baseUrl (openRouter (config_from_env env))) = true /\
  Js.truthy (geminiModel (openRouter (config_from_env env))) = true /\
  (exists model o,
      perplexityModel (config_from_env env) = Some model /\
      Js.truthy model = true /\
      performResearchQuery query (config_from_env env) t =
        (o, t ++ [Ev_post (research_request query model
                             (openRouter (config_from_env env)))]) /\
      (env !! "PERPLEXITY_MODEL" = None \/
       env !! "PERPLEXITY_MODEL" = Some EmptyString ->
       model = "perplexity/sonar-deep-research")) /\
  (env !! "OPENROUTER_API_KEY" = None ->
   authorization (research_request query "m" (openRouter (config_from_env env))) =
     "Bearer ").
Proof.
  split; [|split; [|split]].
  - now apply env_or_truthy.
  - now apply env_or_truthy.
  - assert (Htruthy : Js.truthy (env_or env "PERPLEXITY_MODEL"
                                   "perplexity/sonar-deep-research") = true)
      by now apply env_or_truthy.
    eexists _, _. split; [reflexivity|]. split; [exact Htruthy|]. split.
    + apply (performResearchQuery_run query _ (config_from_env env) t eq_refl Htruthy).
    + unfold env_or. intros [-> | ->]; reflexivity.
  - intros Hkey. simpl. unfold env_or. now rewrite Hkey.
Qed.

End ResearchFacts.

(* ===================================================================== *)
(** ** File names *)
(* ===================================================================== *)

Lemma substring0_length (n : nat) (s : string) :
  String.length (Text.substring0 n s) <= n.
Proof.
  revert s. induction n as [|n IH]; intros [|c r]; simpl; try lia.
  specialize (IH r). lia.
Qed.

Lemma toLowerCase_append (a b : string) :
  Js.toLowerCase (a +:+ b) = Js.toLowerCase a +:+ Js.toLowerCase b.
Proof.
  induction a as [|c a IH]; [reflexivity|].
  change (String c a +:+ b) with (String c (a +:+ b)).
  cbn [Js.toLowerCase]. rewrite IH. reflexivity.
Qed.

Lemma dash_runs_length (b : bool) (s : string) :
  String.length (Text.dash_runs b s) <= String.length s.
Proof.
  revert b. induction s as [|c r IH]; intros b; simpl; [lia|].
  destruct (Text.is_lower_alnum c); simpl.
  - specialize (IH false). lia.
  - destruct b; simpl; specialize (IH true); lia.
Qed.

Lemma dash_runs_chars (b : bool) (s : string) :
  all_chars is_name_char (Text.dash_runs b s) = true.
Proof.
  revert b. induction s as [|c r IH]; intros b; simpl; [reflexivity|].
  destruct (Text.is_lower_alnum c) eqn:Hc; simpl.
  - unfold is_name_char at 1. now rewrite Hc, IH.
  - destruct b; simpl; now rewrite IH.
Qed.

Lemma starts_with_cons (a : ascii) (p : string) (s : string) :
  Js.starts_with (String a p) s =
    match s with
    | EmptyString => false
    | String b s' => if Ascii.eqb a b then Js.starts_with p s' else false
    end.
Proof. destruct s; reflexivity. Qed.

Lemma dash_is_no_alnum (c : ascii) :
  Text.is_lower_alnum c = true -> Ascii.eqb "-"%char c = false.
Proof.
  intros Hc. destruct (Ascii.eqb_spec "-"%char c) as [<-|]; [discriminate Hc|reflexivity].
Qed.

(** No two dashes in a row, and no dash at the start of the rest of a run. *)
Lemma dash_runs_no_double_dash (b : bool) (s : string) :
  Js.includes (Text.dash_runs b s) "--" = false /\
  (b = true -> Js.starts_with "-" (Text.dash_runs b s) = false).
Proof.
  revert b. induction s as [|c r IH]; intros b.
  - split; reflexivity.
  - simpl Text.dash_runs.
    destruct (Text.is_lower_alnum c) eqn:Hc.
    + destruct (IH false) as [Hin _].
      rewrite includes_eq, Hin, !starts_with_cons, (dash_is_no_alnum _ Hc).
      split; reflexivity.
    + destruct (IH true) as [Hin Hstart]. destruct b.
      * split; [exact Hin|intros _; now apply Hstart].
      * rewrite includes_eq, Hin, starts_with_cons.
        change (Ascii.eqb "-"%char "-"%char) with true. cbv iota.
        rewrite (Hstart eq_refl). split; [reflexivity|discriminate].
Qed.

(** X14.  The name a generator puts in a file name is made of small
    letters, digits and dashes only, and has no two dashes in a row; so it
    has no dot, no slash and no space.  It is no longer than the lowered
    start of the description it is made from, and that start is cut from
    the description at 30 characters, before it is lowered. *)
Theorem sanitized_name_is_safe (productDescription : string) :
  all_chars is_name_char (sanitized_name productDescription) = true /\
  Js.includes (sanitized_name productDescription) "--" = false /\
  all_chars
    (fun c => negb (Ascii.eqb c "."%char || Ascii.eqb c "/"%char ||
                    Ascii.eqb c "092"%char || Js.is_space c))
    (sanitized_name productDescription) = true /\
  String.length (sanitized_name productDescription) <=
    String.length (Js.toLowerCase (Text.substring0 30 productDescription)) /\
  String.length (Text.substring0 30 productDescription) <= 30.
Proof.
  unfold sanitized_name. split; [|split; [|split; [|split]]].
  - apply dash_runs_chars.
  - apply dash_runs_no_double_dash.
  - apply all_chars_weaken with (P := is_name_char); [|apply dash_runs_chars].
    intros c. destruct c as [[] [] [] [] [] [] [] []]; vm_compute; congruence.
  - apply dash_runs_length.
  - apply substring0_length.
Qed.

Lemma dash_colons_and_dots_chars (s : string) :
  all_chars (fun c => negb (Text.is_colon_or_dot c)) (Text.dash_colons_and_dots s) = true /\
  String.length (Text.dash_colons_and_dots s) = String.length s.
Proof.
  induction s as [|c r [IH1 IH2]]; simpl; [split; reflexivity|].
  rewrite IH1, IH2. split; [|reflexivity].
  destruct (Text.is_colon_or_dot c) eqn:Hc; [reflexivity|]. now rewrite Hc.
Qed.

(* ===================================================================== *)
(** ** More on substrings *)
(* ===================================================================== *)

Lemma starts_with_split (p s : string) :
  Js.starts_with p s = true -> exists b, s = p +:+ b.
Proof.
  revert s. induction p as [|a p IH]; intros s Hs.
  - exists s. reflexivity.
  - rewrite starts_with_cons in Hs. destruct s as [|c s]; [discriminate|].
    destruct (Ascii.eqb_spec a c) as [<-|]; [|discriminate].
    destruct (IH _ Hs) as [b ->]. exists b. reflexivity.
Qed.

(** [s.includes(p)] holds exactly when [p] stands somewhere in [s]. *)
Lemma includes_split (s p : string) :
  Js.includes s p = true <-> exists a b, s = a +:+ p +:+ b.
Proof.
  split.
  - induction s as [|c s IH]; rewrite includes_eq; intros Hs.
    + rewrite orb_false_r in Hs. destruct (starts_with_split _ _ Hs) as [b ->].
      exists EmptyString, b. reflexivity.
    + apply orb_true_iff in Hs as [Hhere|Hrest].
      * destruct (starts_with_split _ _ Hhere) as [b ->].
        exists EmptyString, b. reflexivity.
      * destruct (IH Hrest) as (a & b & ->). exists (String c a), b. reflexivity.
  - intros (a & b & ->). apply includes_middle.
Qed.

Lemma includes_trans (s p q : string) :
  Js.includes s p = true -> Js.includes p q = true -> Js.includes s q = true.
Proof.
  intros Hs Hp.
  apply includes_split in Hs as (a & b & ->).
  apply includes_split in Hp as (c & d & ->).
  apply includes_split. exists (a +:+ c), (d +:+ b).
  now rewrite !append_assoc.
Qed.

(** A string that includes the longer of two words includes its start. *)
Lemma includes_shorter (s p q : string) :
  Js.includes s (p +:+ q) = true -> Js.includes s p = true.
Proof.
  intros Hs. apply includes_trans with (1 := Hs).
  rewrite <- (append_empty (p +:+ q)), append_assoc.
  change (p +:+ q +:+ EmptyString) with (EmptyString +:+ p +:+ q +:+ EmptyString).
  apply includes_middle.
Qed.

(* ===================================================================== *)
(** ** The document generators *)
(* ===================================================================== *)

Section GeneratorFacts.
Context `{Runtime} `{Builtins} `{System}.

Lemma allSettled_cons {A} (call : M A) (rest : list (M A)) (t : Trace) :
  allSettled (call :: rest) t =
    match allSettled rest (snd (call t)) with
    | (Return outcomes, t') => (Return (fst (call t) :: outcomes), t')
    | (Throw e, t') => (Throw e, t')
    | (OutOfFuel, t') => (OutOfFuel, t')
    end.
Proof.
  simpl. destruct (call t) as [o t1]. unfold bind. simpl.
  destruct (allSettled rest t1) as [[outcomes| |] t2]; reflexivity.
Qed.

(** The research calls with a model name: one call for each query, in
    order. *)
Lemma research_calls_configured (queries : list string) (config : ResearchConfig)
    (perplexity : string) :
  perplexityModel config = Some perplexity ->
  Js.truthy perplexity = true ->
  forall t, exists results,
    allSettled (map (fun query => performResearchQuery query config) queries) t =
      (Return results,
       t ++ map Ev_post
              (map (fun query => research_request query perplexity (openRouter config))
                   queries)) /\
    length results = length queries.
Proof.
  intros Hmodel Htruthy. induction queries as [|q queries IH]; intros t.
  - exists []. simpl. unfold ret, lift. now rewrite app_nil_r.
  - cbn [map]. rewrite allSettled_cons.
    rewrite (performResearchQuery_run q _ _ t Hmodel Htruthy). cbn [fst snd].
    destruct (IH (t ++ [Ev_post (research_request q perplexity (openRouter config))]))
      as (results & -> & Hlen).
    eexists. split; [now rewrite <- app_assoc|]. simpl. now rewrite Hlen.
Qed.

(** The research calls without a model name: no call, and every query
    fails. *)
Lemma research_calls_not_configured (queries : list string) (config : ResearchConfig) :
  perplexityModel config = None \/ perplexityModel config = Some EmptyString ->
  forall t,
    allSettled (map (fun query => performResearchQuery query config) queries) t =
      (Return (map (fun _ => not_configured) queries), t).
Proof.
  intros Hmodel. induction queries as [|q queries IH]; intros t; [reflexivity|].
  cbn [map]. rewrite allSettled_cons.
  assert (Hq : performResearchQuery q config t = (not_configured, t))
    by (unfold performResearchQuery; destruct Hmodel as [-> | ->]; reflexivity).
  rewrite Hq. cbn [fst snd]. now rewrite IH.
Qed.

Lemma model_name_cases (config : ResearchConfig) :
  (exists perplexity,
      perplexityModel config = Some perplexity /\ Js.truthy perplexity = true) \/
  (perplexityModel config = None \/ perplexityModel config = Some EmptyString).
Proof.
  destruct (perplexityModel config) as [[|c m]|]; eauto.
Qed.

(** X15.  The research block of a generator never fails and never keeps
    the generator waiting: it always gives a context, the header followed by
    one section for each result.  With a model name it makes one call for
    each query, in the order of the queries; without one it makes no call,
    and every section says that the research failed. *)
Theorem research_phase_always_gives_a_context (queries labels : list string)
    (config : ResearchConfig) (t : Trace) :
  exists results t',
    research_phase queries labels config t =
      (Return (RESEARCH_HEADER +:+ research_sections labels results), t') /\
    length results = length queries /\
    (forall perplexity,
        perplexityModel config = Some perplexity ->
        Js.truthy perplexity = true ->
        t' = t ++ map Ev_post
                    (map (fun query =>
                            research_request query perplexity (openRouter config))
                         queries)) /\
    (perplexityModel config = None \/ perplexityModel config = Some EmptyString ->
     t' = t /\ results = map (fun _ => not_configured) queries).
Proof.
  unfold research_phase, try_catch, bind.
  destruct (model_name_cases config) as [(perplexity & Hmodel & Htruthy)|Hnone].
  - destruct (research_calls_configured queries config perplexity Hmodel Htruthy t)
      as (results & -> & Hlen).
    eexists _, _. split; [reflexivity|]. split; [exact Hlen|]. split.
    + intros p Hp _. rewrite Hmodel in Hp. now injection Hp as <-.
    + intros [Hp|Hp]; rewrite Hmodel in Hp; [discriminate|].
      injection Hp as ->. discriminate.
  - rewrite (research_calls_not_configured queries config Hnone t).
    eexists _, _. split; [reflexivity|]. split; [now rewrite length_map|]. split.
    + intros p Hp Htruthy. destruct Hnone as [Hn|Hn]; rewrite Hn in Hp;
        [discriminate|]. injection Hp as <-. discriminate.
    + auto.
Qed.

End GeneratorFacts.

Section TaskListFacts.
Context `{Runtime} `{Builtins} `{System}.

Lemma research_phase_returns (queries labels : list string)
    (config : ResearchConfig) (t : Trace) :
  exists context, fst (research_phase queries labels config t) = Return context.
Proof.
  unfold research_phase, try_catch, bind.
  destruct (model_name_cases config) as [(perplexity & Hmodel & Htruthy)|Hnone].
  - destruct (research_calls_configured queries config perplexity Hmodel Htruthy t)
      as (results & -> & _). eexists. reflexivity.
  - rewrite (research_calls_not_configured queries config Hnone t).
    eexists. reflexivity.
Qed.

(** [generateTaskList], step by step. *)
Lemma generateTaskList_run (fuel : nat) (productDescription userStories : string)
    (config : ResearchConfig) (t : Trace) :
  generateTaskList fuel productDescription userStories config t =
    match ensureDir TASK_LIST_DIR with
    | Some e => (Return (error_text "Error generating task list: " (message_of e)), t)
    | None =>
        let (researched, t1) :=
          research_phase (task_list_queries productDescription) task_list_labels
            config t in
        match researched with
        | Return researchContext =>
            let (thought, t2) :=
              processWithSequentialThinking fuel
                (task_list_prompt productDescription userStories researchContext)
                (openRouter config) (Some TASK_LIST_SYSTEM_PROMPT) t1 in
            match thought with
            | Return taskListResult =>
                match writeFile (task_list_path productDescription)
                        (task_list_document productDescription taskListResult) with
                | None =>
                    (Return {| content :=
                                 [TextContent
                                    (task_list_document productDescription taskListResult)];
                               isError := None |}, t2)
                | Some e =>
                    (Return (error_text "Error generating task list: " (message_of e)),
                     t2)
                end
            | Throw e =>
                (Return (error_text "Error generating task list: " (message_of e)), t2)
            | OutOfFuel => (OutOfFuel, t2)
            end
        | Throw e =>
            (Return (error_text "Error generating task list: " (message_of e)), t1)
        | OutOfFuel => (OutOfFuel, t1)
        end
    end.
Proof.
  unfold generateTaskList, try_catch, bind, attempt.
  destruct (ensureDir TASK_LIST_DIR) as [e|]; [reflexivity|].
  unfold ret, lift.
  destruct (research_phase _ _ config t) as [[researchContext|e|] t1]; try reflexivity.
  destruct (processWithSequentialThinking fuel _ _ _ t1) as [[taskListResult|e|] t2];
    try reflexivity.
  destruct (writeFile _ _); reflexivity.
Qed.

(** X16.  [generateTaskList] never throws.  What it returns is never
    marked as an error and has one text: the document, which starts with the
    title [# Task List: ], or a message that starts with [Error generating
    task list: ]. *)
Theorem task_list_errors_are_texts (fuel : nat)
    (productDescription userStories : string) (config : ResearchConfig)
    (t : Trace) :
  (forall e,
      fst (generateTaskList fuel productDescription userStories config t) <> Throw e) /\
  (forall result t',
      generateTaskList fuel productDescription userStories config t =
        (Return result, t') ->
      isError result = None /\
      exists text,
        content result = [TextContent text] /\
        (Js.starts_with "# Task List: " text = true \/
         Js.starts_with "Error generating task list: " text = true)).
Proof.
  rewrite generateTaskList_run.
  destruct (ensureDir TASK_LIST_DIR) as [e0|].
  { split; [discriminate|]. intros result t' [= <- <-]. split; [reflexivity|].
    eexists. split; [reflexivity|]. right. apply starts_with_append. }
  destruct (research_phase _ _ config t) as [[researchContext|e1|] t1].
  - destruct (processWithSequentialThinking fuel _ _ _ t1)
      as [[taskListResult|e2|] t2].
    + destruct (writeFile _ _) as [e3|].
      * split; [discriminate|]. intros result t' [= <- <-]. split; [reflexivity|].
        eexists. split; [reflexivity|]. right. apply starts_with_append.
      * split; [discriminate|]. intros result t' [= <- <-]. split; [reflexivity|].
        eexists. split; [reflexivity|]. left. apply starts_with_append.
    + split; [discriminate|]. intros result t' [= <- <-]. split; [reflexivity|].
      eexists. split; [reflexivity|]. right. apply starts_with_append.
    + split; discriminate.
  - split; [discriminate|]. intros result t' [= <- <-]. split; [reflexivity|].
    eexists. split; [reflexivity|]. right. apply starts_with_append.
  - split; discriminate.
Qed.

(** X17.  When the directory of the task lists cannot be made,
    [generateTaskList] returns the message of that error without any call to
    a model.  When the document cannot be written, the document is not
    returned either: the result is the message of the write error, after all
    the model calls have been made. *)
Theorem task_list_needs_its_files (fuel : nat)
    (productDescription userStories : string) (config : ResearchConfig)
    (t : Trace) :
  (forall e,
      ensureDir TASK_LIST_DIR = Some e ->
      generateTaskList fuel productDescription userStories config t =
        (Return {| content :=
                     [TextContent ("Error generating task list: " +:+ message_of e)];
                   isError := None |}, t)) /\
  (forall researchContext t1 taskListResult t2 e,
      ensureDir TASK_LIST_DIR = None ->
      research_phase (task_list_queries productDescription) task_list_labels config t =
        (Return researchContext, t1) ->
      processWithSequentialThinking fuel
        (task_list_prompt productDescription userStories researchContext)
        (openRouter config) (Some TASK_LIST_SYSTEM_PROMPT) t1 =
        (Return taskListResult, t2) ->
      writeFile (task_list_path productDescription)
        (task_list_document productDescription taskListResult) = Some e ->
      generateTaskList fuel productDescription userStories config t =
        (Return {| content :=
                     [TextContent ("Error generating task list: " +:+ message_of e)];
                   isError := None |}, t2)).
Proof.
  split.
  - intros e Hdir. rewrite generateTaskList_run, Hdir. reflexivity.
  - intros researchContext t1 taskListResult t2 e Hdir Hresearch Hthought Hwrite.
    rewrite generateTaskList_run, Hdir, Hresearch, Hthought, Hwrite. reflexivity.
Qed.

Lemma task_list_prompt_includes (productDescription userStories researchContext : string) :
  Js.includes (task_list_prompt productDescription userStories researchContext)
    productDescription = true /\
  Js.includes (task_list_prompt productDescription userStories researchContext)
    userStories = true /\
  Js.includes (task_list_prompt productDescription userStories researchContext)
    researchContext = true.
Proof.
  unfold task_list_prompt. split; [|split].
  - do 3 apply includes_append_r. apply includes_start.
  - do 9 apply includes_append_r. apply includes_start.
  - do 11 apply includes_append_r. apply includes_end.
Qed.

(** X18.  With its directory in place and a model name for research,
    [generateTaskList] first makes the three research calls, in order and
    whatever their outcome, and after them only calls of the reasoning
    engine: each to the reasoning model, with the system prompt of the task
    lists, and with a user message that includes the product description
    and the user stories. *)
Theorem task_list_researches_then_reasons (fuel : nat)
    (productDescription userStories : string) (config : ResearchConfig)
    (perplexity : string) (t : Trace) (o : Outcome CallToolResult) (t' : Trace) :
  ensureDir TASK_LIST_DIR = None ->
  perplexityModel config = Some perplexity ->
  Js.truthy perplexity = true ->
  generateTaskList fuel productDescription userStories config t = (o, t') ->
  exists reasoning,
    t' = (t ++ map Ev_post
                 (map (fun query =>
                         research_request query perplexity (openRouter config))
                      (task_list_queries productDescription)))
         ++ map Ev_post reasoning /\
    Forall (fun req =>
              model req = geminiModel (openRouter config) /\
              system_content req = full_system_prompt (Some TASK_LIST_SYSTEM_PROMPT) /\
              Js.includes (user_content req) productDescription = true /\
              Js.includes (user_content req) userStories = true)
           reasoning.
Proof.
  intros Hdir Hmodel Htruthy. rewrite generateTaskList_run, Hdir.
  unfold research_phase, try_catch, bind.
  destruct (research_calls_configured (task_list_queries productDescription)
              config perplexity Hmodel Htruthy t) as (results & -> & _).
  unfold ret, lift.
  set (researchContext := RESEARCH_HEADER +:+ research_sections task_list_labels results).
  set (t1 := t ++ map Ev_post _).
  destruct (processWithSequentialThinking fuel _ _ _ t1) as [thought t2] eqn:Hthought.
  destruct (processWithSequentialThinking_requests _ _ _ _ _ _ _ Hthought)
    as (reasoning & Ht2 & Hall).
  intros Hrun.
  assert (t' = t1 ++ map Ev_post reasoning) as ->.
  { rewrite <- Ht2. destruct thought as [r| |]; try (now injection Hrun).
    destruct (writeFile _ _); now injection Hrun. }
  exists reasoning. split; [reflexivity|].
  eapply Forall_impl; [exact Hall|].
  intros req (_ & Hm & _ & Hs & Hu).
  destruct (task_list_prompt_includes productDescription userStories researchContext)
    as (Hd & Hus & _).
  repeat split; auto; eapply includes_trans; eauto.
Qed.

End TaskListFacts.

Lemma keep_alnum_and_spaces_chars (s : string) :
  all_chars Text.is_alnum_or_space (Text.keep_alnum_and_spaces s) = true /\
  String.length (Text.keep_alnum_and_spaces s) <= String.length s /\
  (all_chars Text.is_alnum_or_space s = true -> Text.keep_alnum_and_spaces s = s).
Proof.
  induction s as [|c r (IH1 & IH2 & IH3)]; simpl; [repeat split; auto|].
  destruct (Text.is_alnum_or_space c) eqn:Hc; simpl.
  - rewrite Hc, IH1. repeat split; [lia|]. intros Hr. now rewrite (IH3 Hr).
  - repeat split; [exact IH1|lia|discriminate].
Qed.

(** X19.  The kind of product the rules generator asks about, by the first
    keyword found in the lowered description: [web] gives a web application
    (the test for [website] never matters, since a description with
    [website] has [web]); [app] without [web] gives a mobile application, so
    every description that says [Application] is a web or a mobile one; and
    a game is one whose description has neither [app] nor [api]. *)
Theorem product_type_by_first_keyword (productDescription : string) :
  let s := Js.toLowerCase productDescription in
  (Js.includes s "web" = true ->
   product_type productDescription = "web application") /\
  (Js.includes s "web" = false -> Js.includes s "app" = true ->
   product_type productDescription = "mobile application") /\
  (forall before after,
      productDescription = before +:+ "Application" +:+ after ->
      product_type productDescription = "web application" \/
      product_type productDescription = "mobile application") /\
  (product_type productDescription = "game" ->
   Js.includes s "app" = false /\ Js.includes s "api" = false).
Proof.
  intros s.
  assert (Hsite : Js.includes s "website" = true -> Js.includes s "web" = true)
    by apply (includes_shorter s "web" "site").
  assert (Hweb : Js.includes s "web" = true ->
                 product_type productDescription = "web application").
  { intros Hweb. unfold product_type. fold s. now rewrite Hweb. }
  assert (Happ : Js.includes s "web" = false -> Js.includes s "app" = true ->
                 product_type productDescription = "mobile application").
  { intros Hno Happ. unfold product_type. fold s. rewrite Hno, Happ.
    destruct (Js.includes s "website");
      [rewrite Hno in Hsite; discriminate (Hsite eq_refl)|].
    now rewrite orb_true_r. }
  split; [exact Hweb|]. split; [exact Happ|]. split.
  - intros before after Hdescription.
    destruct (Js.includes s "web") eqn:Hw; [left; now apply Hweb|right].
    apply Happ; [reflexivity|].
    unfold s. rewrite Hdescription, !toLowerCase_append.
    apply includes_trans with (p := "application"); [|reflexivity].
    apply includes_middle.
  - unfold product_type. fold s.
    destruct (Js.includes s "web" || Js.includes s "website"); [discriminate|].
    destruct (Js.includes s "mobile"); [discriminate|].
    destruct (Js.includes s "app"); [discriminate|].
    destruct (Js.includes s "api"); [discriminate|].
    intros _. split; reflexivity.
Qed.

Section RulesFacts.
Context `{Runtime} `{Builtins} `{System}.

(** [generateRules], step by step. *)
Lemma generateRules_run (fuel : nat) (productDescription : string)
    (userStories : option string) (ruleCategories : option (list string))
    (config : option ResearchConfig) (t : Trace) :
  generateRules fuel productDescription userStories ruleCategories config t =
    match ensureDir RULES_DIR with
    | Some e => (Return (error_text "Error generating rules: " (message_of e)), t)
    | None =>
        match config with
        | None =>
            (Return (error_text "Error generating rules: "
                       "OpenRouter configuration is required"), t)
        | Some config =>
            let (researched, t1) :=
              research_phase (rules_queries productDescription ruleCategories)
                rules_labels config t in
            match researched with
            | Return researchContext =>
                let (thought, t2) :=
                  processWithSequentialThinking fuel
                    (rules_prompt productDescription userStories ruleCategories
                       researchContext)
                    (openRouter config) (Some RULES_SYSTEM_PROMPT) t1 in
                match thought with
                | Return rulesResult =>
                    match writeFile (rules_path productDescription)
                            (rules_document productDescription rulesResult) with
                    | None =>
                        (Return {| content :=
                                     [TextContent
                                        (rules_document productDescription rulesResult)];
                                   isError := None |}, t2)
                    | Some e =>
                        (Return (error_text "Error generating rules: " (message_of e)),
                         t2)
                    end
                | Throw e =>
                    (Return (error_text "Error generating rules: " (message_of e)), t2)
                | OutOfFuel => (OutOfFuel, t2)
                end
            | Throw e =>
                (Return (error_text "Error generating rules: " (message_of e)), t1)
            | OutOfFuel => (OutOfFuel, t1)
            end
        end
    end.
Proof.
  unfold generateRules, try_catch, bind, attempt.
  destruct (ensureDir RULES_DIR) as [e|]; [reflexivity|].
  unfold ret, lift. destruct config as [config|]; [|reflexivity].
  destruct (research_phase _ _ config t) as [[researchContext|e|] t1]; try reflexivity.
  destruct (processWithSequentialThinking fuel _ _ _ t1) as [[rulesResult|e|] t2];
    try reflexivity.
  destruct (writeFile _ _); reflexivity.
Qed.

(** X20.  The title of a rules document takes from the first 30 characters
    of the description its letters, digits and spaces, and nothing else: it
    has at most 30 characters, and it is that start of the description as it
    is when that start has no other character.  The document starts with
    that title on a line of its own, whatever the text of the model. *)
Theorem rules_title_is_plain (productDescription : string) :
  let ruleset := Text.keep_alnum_and_spaces (Text.substring0 30 productDescription) in
  all_chars Text.is_alnum_or_space ruleset = true /\
  String.length ruleset <= 30 /\
  (all_chars Text.is_alnum_or_space (Text.substring0 30 productDescription) = true ->
   ruleset = Text.substring0 30 productDescription) /\
  forall rulesResult,
    Js.starts_with ("# Development Rules: " +:+ ruleset +:+ Js.nl)
      (rules_document productDescription rulesResult) = true.
Proof.
  intros ruleset.
  destruct (keep_alnum_and_spaces_chars (Text.substring0 30 productDescription))
    as (Hchars & Hlen & Hsame).
  repeat split; auto.
  - pose proof (substring0_length 30 productDescription). unfold ruleset. lia.
  - intros rulesResult.
    assert (Hdoc : rules_document productDescription rulesResult =
                   ("# Development Rules: " +:+ ruleset +:+ Js.nl) +:+
                   Js.nl +:+ rulesResult +:+ Js.nl +:+ Js.nl +:+ generated_stamp)
      by (unfold rules_document; fold ruleset; now rewrite !append_assoc).
    rewrite Hdoc. apply starts_with_append.
Qed.

(** X21.  [generateRules] never throws: every failure is returned as a
    text that starts with [Error generating rules: ], and a result is never
    marked as an error.  Without a configuration, and with its directory in
    place, it returns the message [OpenRouter configuration is required]
    without any call to a model. *)
Theorem rules_errors_are_texts (fuel : nat) (productDescription : string)
    (userStories : option string) (ruleCategories : option (list string))
    (config : option ResearchConfig) (t : Trace) :
  (forall e,
      fst (generateRules fuel productDescription userStories ruleCategories config t)
      <> Throw e) /\
  (forall result t',
      generateRules fuel productDescription userStories ruleCategories config t =
        (Return result, t') ->
      isError result = None /\
      exists text,
        content result = [TextContent text] /\
        (Js.starts_with "# Development Rules: " text = true \/
         Js.starts_with "Error generating rules: " text = true)) /\
  (config = None -> ensureDir RULES_DIR = None ->
   generateRules fuel productDescription userStories ruleCategories config t =
     (Return {| content :=
                  [TextContent
                     "Error generating rules: OpenRouter configuration is required"];
                isError := None |}, t)).
Proof.
  rewrite generateRules_run.
  split; [|split].
  - intros e0.
    destruct (ensureDir RULES_DIR); [discriminate|].
    destruct config as [config|]; [|discriminate].
    destruct (research_phase _ _ config t) as [[researchContext| |] t1];
      try discriminate.
    destruct (processWithSequentialThinking fuel _ _ _ t1) as [[rulesResult| |] t2];
      try discriminate.
    destruct (writeFile _ _); discriminate.
  - intros result t' Hrun.
    assert (Hcases :
      (exists message,
          result = error_text "Error generating rules: " message) \/
      (exists rulesResult,
          result = {| content :=
                        [TextContent (rules_document productDescription rulesResult)];
                      isError := None |})).
    { destruct (ensureDir RULES_DIR); [injection Hrun as <- _; eauto|].
      destruct config as [config|]; [|injection Hrun as <- _; eauto].
      destruct (research_phase _ _ config t) as [[researchContext| |] t1];
        try discriminate; [|injection Hrun as <- _; eauto].
      destruct (processWithSequentialThinking fuel _ _ _ t1) as [[rulesResult| |] t2];
        try discriminate; [|injection Hrun as <- _; eauto].
      destruct (writeFile _ _); injection Hrun as <- _; eauto. }
    destruct Hcases as [[message ->]|[rulesResult ->]]; (split; [reflexivity|]);
      eexists; (split; [reflexivity|]).
    + right. apply starts_with_append.
    + left. apply starts_with_append.
  - intros -> ->. reflexivity.
Qed.

(** X22.  The prompt of the rules generator includes the product
    description and the research context, the user stories when they are
    given and not empty, and a line for each category that is given. *)
Theorem rules_prompt_includes_its_inputs (productDescription : string)
    (userStories : option string) (ruleCategories : option (list string))
    (researchContext : string) :
  let prompt :=
    rules_prompt productDescription userStories ruleCategories researchContext in
  Js.includes prompt productDescription = true /\
  Js.includes prompt researchContext = true /\
  (forall stories, userStories = Some stories -> Js.truthy stories = true ->
     Js.includes prompt stories = true) /\
  (forall categories category,
     ruleCategories = Some categories -> In category categories ->
     Js.includes prompt ("- " +:+ category) = true).
Proof.
  intros prompt. unfold prompt, rules_prompt. split; [|split; [|split]].
  - do 3 apply includes_append_r. apply includes_start.
  - do 7 apply includes_append_r. apply includes_end.
  - intros stories -> ->.
    do 4 apply includes_append_r. apply includes_append_l.
    do 4 apply includes_append_r. apply includes_end.
  - intros categories category -> Hin.
    destruct categories as [|c cs]; [contradiction|]. cbn [given_categories].
    do 5 apply includes_append_r. apply includes_append_l.
    do 4 apply includes_append_r.
    apply join_includes with (part := "- " +:+ category).
    + apply in_map_iff. exists category. split; [reflexivity|exact Hin].
    + apply includes_split. exists EmptyString, EmptyString.
      now rewrite append_empty.
Qed.

End RulesFacts.

(* ===================================================================== *)
(** ** The PRD generator *)
(* ===================================================================== *)

Lemma line_rest_line (line rest : string) :
  all_chars (fun c => negb (Js.is_line_terminator c)) line = true ->
  match rest with
  | EmptyString => True
  | String c _ => Js.is_line_terminator c = true
  end ->
  Text.line_rest (line +:+ rest) = line.
Proof.
  intros Hline Hrest. induction line as [|c line IH].
  - destruct rest as [|c r]; [reflexivity|]. simpl. now rewrite Hrest.
  - simpl in Hline. apply andb_true_iff in Hline as [Hc Hline].
    change (String c line +:+ rest) with (String c (line +:+ rest)).
    simpl. apply negb_true_iff in Hc. rewrite Hc. now rewrite IH.
Qed.

Lemma space_if_terminator (c : ascii) :
  Js.is_space c = false -> Js.is_line_terminator c = false.
Proof.
  destruct c as [[] [] [] [] [] [] [] []]; vm_compute; congruence.
Qed.

Lemma find_heading_none (b : bool) (s : string) :
  all_chars (fun c => negb (Ascii.eqb c "#"%char)) s = true ->
  Text.find_heading b s = None.
Proof.
  revert b. induction s as [|c r IH]; intros b Hs; [reflexivity|].
  simpl in Hs. apply andb_true_iff in Hs as [Hc Hr].
  apply negb_true_iff in Hc. cbn [Text.find_heading].
  rewrite Hc, andb_false_r. now apply IH.
Qed.

Section PrdFacts.
Context `{Runtime} `{Builtins} `{System}.

(** X23.  The title of a PRD.  When the text of the model starts with a
    heading line, a hash, a space and a title that starts with no white
    space, the title of the document is that title, so that the document
    starts with the heading twice: once as its own first line and once as
    the first line of the text.  When the text has no hash at all, the title
    is made from the first 50 characters of the description. *)
Theorem prd_title_repeats_the_heading (productDescription : string) :
  (forall c title rest,
      Js.is_space c = false ->
      all_chars (fun c => negb (Js.is_line_terminator c)) (String c title) = true ->
      match rest with
      | EmptyString => True
      | String c' _ => Js.is_line_terminator c' = true
      end ->
      let prdResult := "# " +:+ String c title +:+ rest in
      prd_title productDescription prdResult = String c title /\
      Js.starts_with
        ("# " +:+ String c title +:+ Js.nl +:+ Js.nl +:+ "# " +:+ String c title)
        (prd_document productDescription prdResult) = true) /\
  (forall prdResult,
      all_chars (fun c => negb (Ascii.eqb c "#"%char)) prdResult = true ->
      prd_title productDescription prdResult =
        "PRD: " +:+ Text.substring0 50 productDescription +:+ "...").
Proof.
  split.
  - intros c title rest Hc Hline Hrest prdResult.
    assert (Htitle : prd_title productDescription prdResult = String c title).
    { unfold prd_title, prdResult.
      change ("# " +:+ String c title +:+ rest)
        with (String "#" (String " " (String c (title +:+ rest)))).
      cbn [Text.find_heading andb].
      change (Ascii.eqb "#"%char "#"%char) with true. cbv iota.
      cbn [Text.heading_from].
      change (Js.is_space " "%char) with true. cbv iota.
      rewrite Hc, (space_if_terminator _ Hc).
      change (String c (title +:+ rest)) with (String c title +:+ rest).
      now rewrite (line_rest_line _ _ Hline Hrest). }
    split; [exact Htitle|].
    unfold prd_document. rewrite Htitle. unfold prdResult.
    assert (Hdoc :
      "# " +:+ String c title +:+ Js.nl +:+ Js.nl +:+
        ("# " +:+ String c title +:+ rest) +:+ Js.nl +:+ Js.nl +:+ generated_stamp =
      ("# " +:+ String c title +:+ Js.nl +:+ Js.nl +:+ "# " +:+ String c title) +:+
        rest +:+ Js.nl +:+ Js.nl +:+ generated_stamp)
      by now rewrite !append_assoc.
    rewrite Hdoc. apply starts_with_append.
  - intros prdResult Hno. unfold prd_title. now rewrite find_heading_none.
Qed.

(** [generatePRD], step by step. *)
Lemma generatePRD_run (fuel : nat) (productDescription : string)
    (config : ResearchConfig) (t : Trace) :
  generatePRD fuel productDescription config t =
    match ensureDir PRD_DIR with
    | Some e => (Return (error_text "Error generating PRD: " (message_of e)), t)
    | None =>
        let (researched, t1) :=
          research_phase (prd_queries productDescription) prd_labels config t in
        match researched with
        | Return researchContext =>
            let (thought, t2) :=
              processWithSequentialThinking fuel
                (prd_prompt productDescription researchContext)
                (openRouter config) (Some PRD_SYSTEM_PROMPT) t1 in
            match thought with
            | Return prdResult =>
                match writeFile (prd_path productDescription)
                        (prd_document productDescription prdResult) with
                | None =>
                    (Return {| content :=
                                 [TextContent (prd_document productDescription prdResult)];
                               isError := None |}, t2)
                | Some e =>
                    (Return (error_text "Error generating PRD: " (message_of e)), t2)
                end
            | Throw e =>
                (Return (error_text "Error generating PRD: " (message_of e)), t2)
            | OutOfFuel => (OutOfFuel, t2)
            end
        | Throw e => (Return (error_text "Error generating PRD: " (message_of e)), t1)
        | OutOfFuel => (OutOfFuel, t1)
        end
    end.
Proof.
  unfold generatePRD, try_catch, bind, attempt.
  destruct (ensureDir PRD_DIR) as [e|]; [reflexivity|].
  unfold ret, lift.
  destruct (research_phase _ _ config t) as [[researchContext|e|] t1]; try reflexivity.
  destruct (processWithSequentialThinking fuel _ _ _ t1) as [[prdResult|e|] t2];
    try reflexivity.
  destruct (writeFile _ _); reflexivity.
Qed.

End PrdFacts.

(* ===================================================================== *)
(** ** The tool [process-request] *)
(* ===================================================================== *)

Section ProcessRequestFacts.
Context `{Runtime} `{Services} `{Builtins} `{System} `{Tools}.


Lemma process_match_run (matching : M EnhancedMatchResult) (t : Trace) :
  process_match matching t =
    match matching t with
    | (Return m, t') =>
        (Return {| content :=
                     [TextContent (stringify_request (processed_request m))];
                   isError := None |}, t')
    | (Throw e, t') =>
        (Return {| content :=
                     [TextContent ("Error processing request: " +:+ message_of e)];
                   isError := Some true |}, t')
    | (OutOfFuel, t') => (OutOfFuel, t')
    end.
Proof.
  unfold process_match, try_catch, bind.
  destruct (matching t) as [[m|e|] t']; reflexivity.
Qed.

Lemma processUserRequest_run (fuel : nat) (request : string)
    (config : OpenRouterConfig) (t : Trace) :
  processUserRequest fuel request config t =
    match hybridMatch fuel request config t with
    | (Return m, t') =>
        (Return {| content :=
                     [TextContent (stringify_request (processed_request m))];
                   isError := None |}, t')
    | (Throw e, t') =>
        (Return {| content :=
                     [TextContent ("Error processing request: " +:+ message_of e)];
                   isError := Some true |}, t')
    | (OutOfFuel, t') => (OutOfFuel, t')
    end.
Proof.
  unfold processUserRequest. apply process_match_run.
Qed.

(** A match found when neither matcher is accepted requires confirmation. *)
Lemma declined_match_requires_confirmation (fuel : nat) (request : string)
    (config : OpenRouterConfig) (t : Trace) (m : EnhancedMatchResult) (t' : Trace) :
  accepted MEDIUM_CONFIDENCE (matchRequest request) = None ->
  accepted LOW_CONFIDENCE (detectIntent request) = None ->
  hybridMatch fuel request config t = (Return m, t') ->
  requiresConfirmation m = true.
Proof.
  intros Hm Hi. rewrite (hybridMatch_sequential _ _ _ _ Hm Hi), sequential_stage_run.
  destruct (performSequentialThinking _ _ _ _ _) as [[s|e|] t1]; try discriminate.
  - simpl. destruct (looks_like_tool (candidate_tool_name s));
      intros [= <- <-]; reflexivity.
  - intros [= <- <-]. reflexivity.
Qed.

(** X24.  The tool [process-request] runs no tool on a match that requires
    confirmation: it returns the text that names the tool, explains the
    choice and gives the confidence, and makes no call beyond those of the
    matching.  This is so in particular whenever neither the rule matcher
    nor the intent detector is accepted, that is whenever the tool was named
    by the model or is the default. *)
Theorem uncertain_match_is_not_executed (fuel : nat) (request : string)
    (config : ResearchConfig) (t : Trace) (m : EnhancedMatchResult) (t' : Trace) :
  hybridMatch fuel request (openRouter config) t = (Return m, t') ->
  parse_request (stringify_request (processed_request m)) = Some (processed_request m) ->
  requiresConfirmation m = true \/
  (accepted 0.6 (matchRequest request) = None /\
   accepted 0.4 (detectIntent request) = None) ->
  process_request_tool fuel request config t =
    (Return {| content :=
                 [TextContent
                    ("I'll use the " +:+ em_toolName m +:+ " for this request." +:+
                     Js.nl +:+ Js.nl +:+ getMatchExplanation m +:+ Js.nl +:+ Js.nl +:+
                     "Confidence: " +:+
                     Number_toString (Math_round (em_confidence m * 100)%float) +:+
                     "%")];
               isError := None |}, t').
Proof.
  intros Hrun Hjson Hconfirm.
  assert (Hrc : requiresConfirmation m = true).
  { destruct Hconfirm as [Hrc|[Hm Hi]]; [exact Hrc|].
    exact (declined_match_requires_confirmation _ _ _ _ _ _ Hm Hi Hrun). }
  unfold process_request_tool, process_request_with, bind.
  rewrite process_match_run, Hrun. cbn [content]. rewrite Hjson.
  unfold ret, lift. cbn [processed_request pr_requiresConfirmation].
  rewrite Hrc. reflexivity.
Qed.




End ProcessRequestFacts.

(* ===================================================================== *)
(** ** The further properties on concrete runs *)
(* ===================================================================== *)

Lemma intent_match_is_returned_witness :
  @hybridMatch Runs.offline (Samples.prd_intent 0.5) 0
    "write the requirements" Samples.config [] =
  (Return {| em_toolName := "prd-generator";
             em_confidence := 0.5;
             em_matchedPattern := Some "intent_matching";
             parameters := {[ "query" := "write the requirements" ]};
             matchMethod := intent;
             requiresConfirmation := true |},
   [Ev_matchRequest "write the requirements";
    Ev_detectIntent "write the requirements";
    Ev_extractContextParameters "write the requirements"]).
Proof.
  exact (@intent_match_is_returned Runs.offline (Samples.prd_intent 0.5) 0
           "write the requirements" Samples.config []
           {| toolName := "prd-generator"; confidence := 0.5;
              matchedPattern := Some "intent_matching" |}
           eq_refl eq_refl eq_refl).
Defined.

Lemma answer_without_choices_is_thrown_witness :
  fst (@processWithSequentialThinking Runs.speechless 3 "Which tool?"
         Samples.config None []) =
  Throw (Error "Error" "Unknown error: Error: No response received from model").
Proof.
  rewrite (proj2 (@answer_without_choices_is_thrown Runs.speechless
                    {| choices := Some [] |} (or_intror eq_refl))
             2 "Which tool?" Samples.config None [] eq_refl).
  reflexivity.
Defined.

Lemma session_calls_the_configured_model_witness :
  exists reqs,
    snd (@processWithSequentialThinking Samples.answer_in_second_round 2
           "Which tool?" Samples.config None []) = [] ++ map Ev_post reqs /\
    Forall (session_request "Which tool?" (full_system_prompt None) Samples.config)
           reqs.
Proof.
  apply (@session_calls_the_configured_model Samples.answer_in_second_round 2
           "Which tool?" Samples.config None []
           (fst (@processWithSequentialThinking Samples.answer_in_second_round 2 "Which tool?" Samples.config None []))).
  apply surjective_pairing.
Defined.

Lemma every_round_repeats_the_history_witness :
  exists reqs,
    length reqs = 2 /\
    forall req, reqs !! 1 = Some req ->
      Js.includes (user_content req) "let me think" = true.
Proof.
  destruct (@every_round_repeats_the_history Samples.second_answer_garbled 2
              "Which tool?" Samples.config None []
              [ {| thought := "let me think"; next_thought_needed := true;
                   thought_number := 1; total_thoughts := 1 |};
                fallback_thought "garbage" ]
              (fallback_thought "garbage")
              (snd (@thinking_session Samples.second_answer_garbled 2
                      "Which tool?" Samples.config None [])))
    as (reqs & _ & Hlen & _ & Hincludes).
  - vm_compute. reflexivity.
  - exists reqs. split; [exact Hlen|].
    intros req Hreq.
    apply (Hincludes 1 0 req
             {| thought := "let me think"; next_thought_needed := true;
                thought_number := 1; total_thoughts := 1 |} Hreq eq_refl).
    lia.
Defined.

Lemma sequential_match_is_explained_witness :
  @getMatchExplanation Samples.answer_in_second_round MoreSamples.builtins {| em_toolName := "prd-generator";
       em_confidence := 0.5;
       em_matchedPattern := Some "sequential_thinking";
       parameters := {[ "query" := "please help" ]};
       matchMethod := sequential;
       requiresConfirmation := true |} =
  "After analyzing your request, I believe the prd-generator is the most appropriate tool to use.".
Proof.
  destruct (@sequential_match_is_explained Samples.answer_in_second_round
              Samples.no_match MoreSamples.builtins 2 "please help"
              Samples.config []
              {| em_toolName := "prd-generator";
                 em_confidence := 0.5;
                 em_matchedPattern := Some "sequential_thinking";
                 parameters := {[ "query" := "please help" ]};
                 matchMethod := sequential;
                 requiresConfirmation := true |}
              (snd (@hybridMatch Samples.answer_in_second_round Samples.no_match 2 "please help" Samples.config [])))
    as [[Hdefault _]|(_ & _ & Hexplained)].
  - vm_compute. reflexivity.
  - reflexivity.
  - discriminate Hdefault.
  - exact Hexplained.
Defined.

Lemma request_processing_reports_errors_witness :
  @process_match Runs.offline MoreSamples.builtins
    Runs.broken_matcher [] =
  (Return {| content :=
               [TextContent
                  "Error processing request: Cannot read properties of undefined (reading 'length')"];
             isError := Some true |}, []).
Proof.
  apply (proj1 (proj2 (proj2 (@request_processing_reports_errors Runs.offline
                                Samples.no_match MoreSamples.builtins
                                Runs.broken_matcher [])))
           (Error "TypeError" "Cannot read properties of undefined (reading 'length')")).
  reflexivity.
Defined.

Lemma execution_reports_errors_as_results_witness :
  @executeProcessedRequest MoreSamples.builtins {| pr_toolName := "prd-generator";
       pr_parameters := ∅;
       pr_explanation := "I chose the prd-generator.";
       pr_confidence := 0.9;
       pr_requiresConfirmation := false |}
    MoreSamples.executors [] =
  (Return {| content := [TextContent "Error executing tool: disk full"];
             isError := Some true |}, []).
Proof.
  apply (proj1 (proj2 (proj2 (@execution_reports_errors_as_results
                                MoreSamples.builtins
                                {| pr_toolName := "prd-generator";
                                   pr_parameters := ∅;
                                   pr_explanation := "I chose the prd-generator.";
                                   pr_confidence := 0.9;
                                   pr_requiresConfirmation := false |}
                                MoreSamples.executors [])))
           MoreSamples.failing (Error "Error" "disk full") []);
    reflexivity.
Defined.

Lemma research_needs_a_model_name_witness :
  @performResearchQuery Runs.padded MoreSamples.builtins "pet shops" Fixtures.no_research_config [] =
  (Throw (Error "Error" "Perplexity model name is not configured."), []).
Proof.
  exact (@research_needs_a_model_name Runs.padded MoreSamples.builtins "pet shops"
           Fixtures.no_research_config [] (or_introl eq_refl)).
Defined.


Lemma research_failure_names_the_query_witness :
  fst (@performResearchQuery Runs.overloaded MoreSamples.builtins "pet shops" Fixtures.server_config []) =
  Throw (Error "Error"
           ("Perplexity research failed for query: " +:+ Js.dquote +:+ "pet shops" +:+
            Js.dquote +:+ ". Model: perplexity/sonar-deep-research." +:+
            " Status: 500, Data: {" +:+ Js.dquote +:+ "error" +:+ Js.dquote +:+ ":" +:+
            Js.dquote +:+ "overloaded" +:+ Js.dquote +:+ "}")).
Proof.
  rewrite (proj2 (@research_failure_names_the_query Runs.overloaded
                    MoreSamples.builtins "pet shops"
                    "perplexity/sonar-deep-research" Fixtures.server_config []
                    eq_refl eq_refl)
             {| status := 500; data := JObject [("error", JString "overloaded")] |}
             eq_refl eq_refl).
  reflexivity.
Defined.

Lemma environment_configuration_is_complete_witness :
  perplexityModel (config_from_env Runs.empty_model_env) =
    Some "perplexity/sonar-deep-research".
Proof.
  destruct (proj1 (proj2 (proj2 (@environment_configuration_is_complete
                                   Runs.offline MoreSamples.builtins
                                   Runs.empty_model_env "pet shops" []))))
    as (model & o & Hmodel & _ & _ & Hdefault).
  rewrite Hmodel, Hdefault; [reflexivity|].
  right. reflexivity.
Defined.

Lemma research_phase_always_gives_a_context_witness :
  exists t',
    @research_phase Runs.padded MoreSamples.builtins ["pet shops"; "pet food"] ["Market"; "Needs"] Fixtures.no_research_config [] =
    (Return (RESEARCH_HEADER +:+
             research_sections ["Market"; "Needs"] [not_configured; not_configured]),
     t') /\
    t' = [].
Proof.
  destruct (@research_phase_always_gives_a_context Runs.padded MoreSamples.builtins
              ["pet shops"; "pet food"] ["Market"; "Needs"]
              Fixtures.no_research_config [])
    as (results & t' & Hrun & _ & _ & Hnone).
  destruct (Hnone (or_introl eq_refl)) as [-> ->].
  exists []. split; [exact Hrun|reflexivity].
Defined.

Lemma task_list_errors_are_texts_witness :
  exists result t' text,
    @generateTaskList Fixtures.researcher MoreSamples.builtins Fixtures.disk 1 "Pet shop" "As a client I buy food"
      Fixtures.server_config [] = (Return result, t') /\
    isError result = None /\
    content result = [TextContent text].
Proof.
  set (run := @generateTaskList Fixtures.researcher MoreSamples.builtins Fixtures.disk 1 "Pet shop"
                "As a client I buy food" Fixtures.server_config []).
  assert (Hrun : run = (Return (Fixtures.returned Fixtures.no_result run), snd run))
    by (vm_compute; reflexivity).
  destruct (proj2 (@task_list_errors_are_texts Fixtures.researcher
                     MoreSamples.builtins Fixtures.disk 1 "Pet shop"
                     "As a client I buy food" Fixtures.server_config [])
              _ _ Hrun)
    as (Herror & text & Hcontent & _).
  exists (Fixtures.returned Fixtures.no_result run), (snd run), text.
  split; [exact Hrun|]. split; [exact Herror|exact Hcontent].
Defined.

Lemma task_list_needs_its_files_witness :
  @generateTaskList Fixtures.researcher MoreSamples.builtins Fixtures.locked_disk 1 "Pet shop" "As a client I buy food"
    Fixtures.server_config [] =
  (Return {| content :=
               [TextContent "Error generating task list: EACCES: permission denied"];
             isError := None |}, []).
Proof.
  exact (proj1 (@task_list_needs_its_files Fixtures.researcher MoreSamples.builtins
                  Fixtures.locked_disk 1 "Pet shop" "As a client I buy food"
                  Fixtures.server_config [])
           (Error "Error" "EACCES: permission denied") eq_refl).
Defined.

Lemma task_list_researches_then_reasons_witness :
  exists reasoning,
    count_posts
      (snd (@generateTaskList Fixtures.researcher MoreSamples.builtins Fixtures.disk 1 "Pet shop" "As a client I buy food"
              Fixtures.server_config [])) = 3 + length reasoning /\
    Forall (fun req => Js.includes (user_content req) "Pet shop" = true) reasoning.
Proof.
  destruct (@task_list_researches_then_reasons Fixtures.researcher
              MoreSamples.builtins Fixtures.disk 1 "Pet shop"
              "As a client I buy food" Fixtures.server_config
              "perplexity/sonar-deep-research" []
              (fst (@generateTaskList Fixtures.researcher MoreSamples.builtins Fixtures.disk 1
                      "Pet shop" "As a client I buy food" Fixtures.server_config []))
              (snd (@generateTaskList Fixtures.researcher MoreSamples.builtins Fixtures.disk 1
                      "Pet shop" "As a client I buy food" Fixtures.server_config []))
              eq_refl eq_refl eq_refl (surjective_pairing _))
    as (reasoning & Htrace & Hall).
  exists reasoning. split.
  - rewrite Htrace, !count_posts_app, !count_posts_posts. reflexivity.
  - eapply Forall_impl; [exact Hall|]. intros req (_ & _ & Hincludes & _).
    exact Hincludes.
Defined.

Lemma product_type_by_first_keyword_witness :
  product_type "A desktop application for accountants" = "mobile application".
Proof.
  apply (proj1 (proj2 (@product_type_by_first_keyword
                         "A desktop application for accountants")));
    reflexivity.
Defined.

Lemma rules_title_is_plain_witness :
  Text.keep_alnum_and_spaces (Text.substring0 30 "Pet shop") = "Pet shop".
Proof.
  apply (proj1 (proj2 (proj2 (@rules_title_is_plain Fixtures.disk "Pet shop")))).
  reflexivity.
Defined.

Lemma rules_errors_are_texts_witness :
  @generateRules Fixtures.researcher MoreSamples.builtins Fixtures.disk 1 "Pet shop" None None None [] =
  (Return {| content :=
               [TextContent
                  "Error generating rules: OpenRouter configuration is required"];
             isError := None |}, []).
Proof.
  exact (proj2 (proj2 (@rules_errors_are_texts Fixtures.researcher
                         MoreSamples.builtins Fixtures.disk 1 "Pet shop" None None
                         None []))
           eq_refl eq_refl).
Defined.

Lemma rules_prompt_includes_its_inputs_witness :
  Js.includes
    (rules_prompt "Pet shop" (Some "As a client I buy food")
       (Some ["naming"; "testing"]) "No research")
    "- testing" = true.
Proof.
  apply (proj2 (proj2 (proj2 (@rules_prompt_includes_its_inputs "Pet shop"
                                (Some "As a client I buy food")
                                (Some ["naming"; "testing"]) "No research")))
           ["naming"; "testing"] "testing" eq_refl).
  right. left. reflexivity.
Defined.

Lemma prd_title_repeats_the_heading_witness :
  prd_title "A shop for pets" Runs.prd_text = "Pet Shop".
Proof.
  apply (proj1 (@prd_title_repeats_the_heading Fixtures.disk "A shop for pets")
           "P"%char "et Shop" (Js.nl +:+ Js.nl +:+ "## Introduction"));
    reflexivity.
Defined.

Lemma uncertain_match_is_not_executed_witness :
  fst (@process_request_tool Runs.offline Samples.no_match (Fixtures.reading Runs.default_request) Fixtures.disk Fixtures.tools 1 "please help" Fixtures.server_config []) =
  Return {| content :=
              [TextContent
                 ("I'll use the research-manager for this request." +:+
                  Js.nl +:+ Js.nl +:+
                  "I wasn't sure which tool to use, so I'm defaulting to the research-manager. Please let me know if you'd prefer a different tool." +:+
                  Js.nl +:+ Js.nl +:+ "Confidence: 20%")];
            isError := None |}.
Proof.
  rewrite (@uncertain_match_is_not_executed Runs.offline Samples.no_match
             (Fixtures.reading Runs.default_request) Fixtures.disk Fixtures.tools
             1 "please help" Fixtures.server_config []
             (default_match "please help")
             (snd (@hybridMatch Runs.offline Samples.no_match 1
                     "please help" Samples.config []))).
  - reflexivity.
  - vm_compute. reflexivity.
  - vm_compute. reflexivity.
  - left. reflexivity.
Defined.


